(** * GitLens document tracker

    A shallow embedding of [src/trackers/documentTracker.ts] and
    [src/commands/showLineBlame.ts].

    The tracker keeps, for every open text document, a [TrackedDocument]
    holding cached git state.  The cache is one JavaScript [Map] keyed both
    by the live [TextDocument] object and by a canonical string key.  The
    handlers below are transcribed method by method.  Tracked documents are
    objects mutated through several references, so they live in an explicit
    object store and the map holds references into it. *)

From Stdlib Require Import ZArith Ascii String List Bool Lia.
From stdpp Require Import base decidable countable gmap strings list fin_maps.

Local Open Scope string_scope.
Local Open Scope list_scope.
Local Open Scope Z_scope.

(** ** Strings

    File names are modelled as Rocq strings: sequences of the characters
    U+0000..U+00FF, a character being given by its code point.
    [toLowerCase] is JavaScript's [String.prototype.toLowerCase] on that
    alphabet.  Its upper-case letters are [A]..[Z] (65..90) and the
    letters U+00C0..U+00DE (192..222) except the multiplication sign
    U+00D7 (215); each of them has its lower-case form 32 code points
    further on, and every other character is left alone. *)

Module Strings.

Definition isUpper (c : ascii) : bool :=
  let n := N_of_ascii c in
  ((65 <=? n) && (n <=? 90)
   || (192 <=? n) && (n <=? 222) && negb (n =? 215))%N.

Definition lowerChar (c : ascii) : ascii :=
  if isUpper c then ascii_of_N (N_of_ascii c + 32) else c.

Fixpoint toLowerCase (s : string) : string :=
  match s with
  | EmptyString => EmptyString
  | String c s' => String (lowerChar c) (toLowerCase s')
  end.

Definition backslash : ascii := ascii_of_N 92.
Definition slash : ascii := ascii_of_N 47.

Definition normalizeChar (c : ascii) : ascii :=
  if Ascii.eqb c backslash then slash else c.

(** Modelled from the spec: [Strings.normalizePath] is defined in
    [src/system/string.ts], which is not among the sources at hand.  The
    specification describes its result as the "path-separator-normalized"
    path: every backslash separator becomes a forward slash and nothing
    else changes. *)
Fixpoint normalizePath (fileName : string) : string :=
  match fileName with
  | EmptyString => EmptyString
  | String c s' => String (normalizeChar c) (normalizePath s')
  end.

End Strings.

(** ** Host (vscode) data *)

Record Uri := { scheme : string; fsPath : string }.

(** A [TextDocument] is a host object compared by reference.  [ident]
    stands for the object's identity; [uri] is its read-only URI.  The
    mutable [isDirty] property is read where the handlers read it (see
    [TextDocumentChangeEvent]). *)
Record TextDocument := { ident : nat; uri : Uri }.

Record TextEditor := { editor_id : nat; editor_document : TextDocument }.

Module DocumentSchemes.
(** Modelled from the spec: [DocumentSchemes.File] of [src/constants.ts]
    (not among the sources at hand), the "local-file scheme". *)
Definition File : string := "file".
End DocumentSchemes.

(** The argument of [toStateKey]: [string | Uri]. *)
Inductive FileNameOrUri :=
| FileName (fileName : string)
| FileUri (u : Uri).

(** The argument of [add], [get], [getOrAdd] and [has]:
    [string | TextDocument | Uri]. *)
Inductive DocumentOrId :=
| OfFileName (fileName : string)
| OfDocument (document : TextDocument)
| OfUri (u : Uri).

#[global] Instance Uri_eq_dec : EqDecision Uri.
Proof. solve_decision. Defined.
#[global] Instance TextDocument_eq_dec : EqDecision TextDocument.
Proof. solve_decision. Defined.
#[global] Instance TextEditor_eq_dec : EqDecision TextEditor.
Proof. solve_decision. Defined.

#[global] Instance Uri_countable : Countable Uri.
Proof.
  refine (inj_countable' (fun u => (scheme u, fsPath u))
                         (fun p => {| scheme := p.1; fsPath := p.2 |}) _).
  by intros [].
Defined.

#[global] Instance TextDocument_countable : Countable TextDocument.
Proof.
  refine (inj_countable' (fun d => (ident d, uri d))
                         (fun p => {| ident := p.1; uri := p.2 |}) _).
  by intros [].
Defined.

(** ** State keys: [DocumentTracker.toStateKey] *)

(** The path a caller handed in:
    [typeof fileNameOrUri === 'string' ? fileNameOrUri : fileNameOrUri.fsPath]. *)
Definition suppliedPath (fileNameOrUri : FileNameOrUri) : string :=
  match fileNameOrUri with
  | FileName fileName => fileName
  | FileUri u => fsPath u
  end.

Definition toStateKey (fileNameOrUri : FileNameOrUri) : string :=
  Strings.toLowerCase (Strings.normalizePath (suppliedPath fileNameOrUri)).
Arguments toStateKey : simpl never.

(** What [toStateKey] makes of one character. *)
Definition keyChar (c : ascii) : ascii :=
  Strings.lowerChar (Strings.normalizeChar c).

(** Two characters that may stand for each other in two spellings of one
    path: the same character, the two path separators, or the upper- and
    lower-case form of one letter. *)
Inductive sameChar : ascii -> ascii -> Prop :=
| sameChar_refl c : sameChar c c
| sameChar_sep_l : sameChar Strings.backslash Strings.slash
| sameChar_sep_r : sameChar Strings.slash Strings.backslash
| sameChar_case_l c :
    Strings.isUpper c = true ->
    sameChar c (ascii_of_N (N_of_ascii c + 32))
| sameChar_case_r c :
    Strings.isUpper c = true ->
    sameChar (ascii_of_N (N_of_ascii c + 32)) c.

(** Two spellings of the same path, differing only in casing or in the
    separator style. *)
Inductive sameSpelling : string -> string -> Prop :=
| sameSpelling_nil : sameSpelling EmptyString EmptyString
| sameSpelling_cons c1 c2 s1 s2 :
    sameChar c1 c2 -> sameSpelling s1 s2 ->
    sameSpelling (String c1 s1) (String c2 s2).


(** Keys of [_documentMap : Map<TextDocument | string, TrackedDocument<T>>]. *)
Inductive Key :=
| KDocument (document : TextDocument)
| KString (key : string).

#[global] Instance Key_eq_dec : EqDecision Key.
Proof. solve_decision. Defined.

#[global] Instance Key_countable : Countable Key.
Proof.
  refine (inj_countable'
            (fun k => match k with KDocument d => inl d | KString s => inr s end)
            (fun x => match x with inl d => KDocument d | inr s => KString s end) _).
  by intros [].
Defined.

(** ** Tracked documents

    [TrackedDocument] is defined in [src/trackers/trackedDocument.ts], which
    is not among the sources at hand; the tracker only calls its constructor
    and methods.  The record holds the fields the specification lists for
    the entity. *)

(** The reason tag of a cache reset: ['config'], ['document'], or the
    forced recomputation requested by a save. *)
Inductive ResetReason := ReasonConfig | ReasonDocument | ReasonSaveForced.

(** The cached blame/diff/log bundle: untouched since construction, or
    invalidated for a reason. *)
Inductive CacheState := CacheFresh | CacheReset (reason : ResetReason).

(** References to tracked-document objects are natural numbers. *)
Abbreviation DocRef := nat (only parsing).

Module TrackedDocument.

Record t := mk {
  document : TextDocument;
  key : string;
  dirty : bool;
  isDirtyIdle : bool;
  active : bool;
  forceDirtyStateChangeOnNextDocumentChange : bool;
  cache : CacheState;
  initialized : bool;
  disposed : bool
}.

(** Modelled from the spec: the constructor
    [new TrackedDocument(document, key, dirty, delegates)].  A new entity
    references its buffer, carries the key and dirty flag it is given, is
    not dirty-idle, has no forced notification pending, and has neither
    finished initializing nor been marked active yet.  The delegate is the
    tracker's blame-state emitter (see [BlameStateChangeRaised]). *)
Definition new (document : TextDocument) (key : string) (dirty : bool) : t :=
  mk document key dirty false false false CacheFresh false false.

Definition set_dirty (b : bool) (d : t) : t :=
  mk (document d) (key d) b (isDirtyIdle d) (active d)
     (forceDirtyStateChangeOnNextDocumentChange d) (cache d) (initialized d)
     (disposed d).

Definition set_isDirtyIdle (b : bool) (d : t) : t :=
  mk (document d) (key d) (dirty d) b (active d)
     (forceDirtyStateChangeOnNextDocumentChange d) (cache d) (initialized d)
     (disposed d).

(** Modelled from the spec: the "one-shot force next dirty-change
    notification flag" is set by [setForceDirtyStateChangeOnNextDocumentChange]
    and cleared by [resetForceDirtyStateChangeOnNextDocumentChange]. *)
Definition setForceDirtyStateChangeOnNextDocumentChange (d : t) : t :=
  mk (document d) (key d) (dirty d) (isDirtyIdle d) (active d) true (cache d)
     (initialized d) (disposed d).

Definition resetForceDirtyStateChangeOnNextDocumentChange (d : t) : t :=
  mk (document d) (key d) (dirty d) (isDirtyIdle d) (active d) false (cache d)
     (initialized d) (disposed d).

(** Modelled from the spec: [reset(reason)] invalidates the cached bundle
    under the given reason tag; [isDirtyIdle] "is cleared whenever a reset
    occurs for reason document". *)
Definition reset (reason : ResetReason) (d : t) : t :=
  mk (document d) (key d) (dirty d)
     (match reason with ReasonDocument => false | _ => isDirtyIdle d end)
     (active d)
     (forceDirtyStateChangeOnNextDocumentChange d) (CacheReset reason)
     (initialized d) (disposed d).

(** Modelled from the spec: [update({ forceBlameChange })] on save forces
    "a cache reset with a force blame recompute flag". *)
Definition update (forceBlameChange : bool) (d : t) : t :=
  if forceBlameChange
  then mk (document d) (key d) (dirty d) (isDirtyIdle d) (active d)
          (forceDirtyStateChangeOnNextDocumentChange d)
          (CacheReset ReasonSaveForced) (initialized d) (disposed d)
  else d.

(** Modelled from the spec: [activate()] "marks the document active" (and
    recomputes the command-context flags of the surrounding UI, which are
    not part of the tracker). *)
Definition activate (d : t) : t :=
  mk (document d) (key d) (dirty d) (isDirtyIdle d) true
     (forceDirtyStateChangeOnNextDocumentChange d) (cache d) (initialized d)
     (disposed d).

(** Modelled from the spec: an awaited [ensureInitialized()] that fulfils.
    It "completes once the document's cached state has finished
    initializing".  Creating a tracked document for the active editor
    "implicitly activates it", and the tracker's source says where: it "is
    implicit in initialization if currently active".  So the initialization
    that completes marks the document active when [isActive] tells that the
    document is the active editor's at that moment; on a document that is
    initialized already the call changes nothing.  An [ensureInitialized()]
    that is rejected leaves the object as it is (see [initializes]). *)
Definition ensureInitialized (isActive : bool) (d : t) : t :=
  if initialized d then d
  else mk (document d) (key d) (dirty d) (isDirtyIdle d)
          (active d || isActive)
          (forceDirtyStateChangeOnNextDocumentChange d) (cache d) true
          (disposed d).

(** Modelled from the spec: [dispose()] is synchronous; the entity is
    marked disposed. *)
Definition dispose (d : t) : t :=
  mk (document d) (key d) (dirty d) (isDirtyIdle d) (active d)
     (forceDirtyStateChangeOnNextDocumentChange d) (cache d) (initialized d)
     true.

End TrackedDocument.

(** ** Debounced functions

    Modelled from the spec: [Functions.debounce] is defined in
    [src/system/function.ts], which is not among the sources at hand.  The
    specification describes the result as a deferred-call object "wrapping
    a single pending invocation that can be cancelled or rescheduled",
    storing "at most one pending payload (latest wins)", firing on the
    trailing edge once the delay has elapsed since the last call.  Time is
    a counter of milliseconds; a pending call carries its deadline. *)

Module Deferrable.

Record t (A : Type) := mk { wait : Z; pendingCall : option (Z * A) }.
Arguments mk {A} _ _.
Arguments wait {A} _.
Arguments pendingCall {A} _.

Definition debounce {A} (wait : Z) : t A := mk wait None.

(** Calling the debounced function at time [now] (re)starts the countdown
    with the latest payload. *)
Definition call {A} (now : Z) (payload : A) (d : t A) : t A :=
  mk (wait d) (Some (now + wait d, payload)).

Definition cancel {A} (d : t A) : t A := mk (wait d) None.

Definition pending {A} (d : t A) : bool :=
  match pendingCall d with Some _ => true | None => false end.

(** The payload to run now, if the countdown has run out. *)
Definition due {A} (now : Z) (d : t A) : option A :=
  match pendingCall d with
  | Some (deadline, payload) => if deadline <=? now then Some payload else None
  | None => None
  end.

End Deferrable.

(** ** Events *)

Record DocumentDirtyStateChangeEvent := {
  dsc_editor : TextEditor;
  dsc_document : DocRef;
  dsc_dirty : bool
}.

(** [editor] is written [editor!] at one call site although the active
    editor may be undefined there, hence the option. *)
Record DocumentDirtyIdleTriggerEvent := {
  dit_editor : option TextEditor;
  dit_document : DocRef
}.

#[global] Instance DocumentDirtyStateChangeEvent_eq_dec :
  EqDecision DocumentDirtyStateChangeEvent.
Proof. solve_decision. Defined.
#[global] Instance DocumentDirtyIdleTriggerEvent_eq_dec :
  EqDecision DocumentDirtyIdleTriggerEvent.
Proof. solve_decision. Defined.

(** [DocumentBlameStateChangeEvent] is declared in
    [src/trackers/trackedDocument.ts], which is not among the sources at
    hand.  The tracker hands such an event on untouched, so all that is
    kept of one is which event object it is. *)
Record DocumentBlameStateChangeEvent := { bsc_id : nat }.

#[global] Instance DocumentBlameStateChangeEvent_eq_dec :
  EqDecision DocumentBlameStateChangeEvent.
Proof. solve_decision. Defined.

(** What the three public emitters [_onDidChangeBlameState],
    [_onDidChangeDirtyState] and [_onDidTriggerDirtyIdle] have fired. *)
Inductive Emitted :=
| BlameStateChanged (e : DocumentBlameStateChangeEvent)
| DirtyStateChanged (e : DocumentDirtyStateChangeEvent)
| DirtyIdleTriggered (e : DocumentDirtyIdleTriggerEvent).

(** An [async] callback of the tracker that is suspended at
    [await e.document.ensureInitialized()], given by what it does when it
    is resumed: fire the dirty-state-changed event [e] (lines 252 and
    278), or set [isDirtyIdle] and fire the dirty-idle-triggered event [e]
    (lines 262-263). *)
Inductive Continuation :=
| FireDirtyStateChanged (e : DocumentDirtyStateChangeEvent)
| TriggerDirtyIdle (e : DocumentDirtyIdleTriggerEvent).

#[global] Instance Continuation_eq_dec : EqDecision Continuation.
Proof. solve_decision. Defined.

(** The tracked document whose initialization a continuation waits for. *)
Definition awaited (k : Continuation) : DocRef :=
  match k with
  | FireDirtyStateChanged e => dsc_document e
  | TriggerDirtyIdle e => dit_document e
  end.

(** [TextDocumentChangeEvent]: the changed document and the value its
    [isDirty] property has when the handler reads it. *)
Record TextDocumentChangeEvent := {
  tdc_document : TextDocument;
  tdc_isDirty : bool
}.

(** The configuration sections the tracker asks about. *)
Inductive ConfigSection :=
| BlameIgnoreWhitespace
| AdvancedCachingEnabled
| AdvancedBlameDelayAfterEdit
| OtherSection (name : string).

(** [ConfigurationChangeEvent], seen through [configuration.initializing(e)]
    and [configuration.changed(e, section)]. *)
Record ConfigurationChangeEvent := {
  cfg_initializing : bool;
  cfg_changed : ConfigSection -> bool
}.

(** The surroundings the tracker's code reads while it runs:
    [window.activeTextEditor],
    [configuration.get(advanced.blame.delayAfterEdit)],
    [workspace.openTextDocument] (which may fail), [isTextEditor] of
    [src/constants.ts], the [isDirty] property of a [TextDocument], and
    how an awaited [ensureInitialized()] of a tracked document settles:
    [initializes doc] is [true] when it fulfils and [false] when it is
    rejected ("asynchronous initialization failures inside a Tracked
    Document are not caught here"). *)
Record Env := {
  activeTextEditor : option TextEditor;
  delayAfterEdit : Z;
  openTextDocument : FileNameOrUri -> option TextDocument;
  isTextEditor : TextEditor -> bool;
  isDirty : TextDocument -> bool;
  initializes : DocRef -> bool
}.

(** Modelled from the spec: [isActiveDocument] of [src/constants.ts] (not
    among the sources at hand): the document "is presently the active
    editor's document". *)
Definition isActiveDocument (env : Env) (document : TextDocument) : bool :=
  match activeTextEditor env with
  | Some editor => bool_decide (editor_document editor = document)
  | None => false
  end.

(** The effect of an [ensureInitialized()] that fulfils on the object it
    was called on. *)
Definition initialize (env : Env) (o : TrackedDocument.t) : TrackedDocument.t :=
  TrackedDocument.ensureInitialized
    (isActiveDocument env (TrackedDocument.document o)) o.

(** ** The tracker

    The first five fields are the fields of the class.  [_disposable]
    stands for the [Disposable] that holds the five subscriptions made by
    the constructor: it tells whether they are still registered.  The next
    two fields are the debounced functions the constructor wraps around
    [onActiveTextEditorChanged] (wait 0) and [onTextDocumentChanged] (wait
    50) before it subscribes them.  The remaining fields are the run-time
    surroundings the methods act on: the store of [TrackedDocument]
    objects, the idle debounces the tracker has let go of while their
    timers may still be running, the [setImmediate] queue, the [async]
    callbacks suspended at an [await], what the emitters fired, and the
    clock in milliseconds. *)
Record DocumentTracker := mkTracker {
  _dirtyIdleTriggerDelay : Z;
  _disposable : bool;
  _documentMap : gmap Key DocRef;
  _dirtyIdleTriggeredDebounced :
    option (Deferrable.t DocumentDirtyIdleTriggerEvent);
  _dirtyStateChangedDebounced :
    option (Deferrable.t DocumentDirtyStateChangeEvent);
  onActiveTextEditorChangedDebounced : Deferrable.t (option TextEditor);
  onTextDocumentChangedDebounced : Deferrable.t TextDocument;
  objects : gmap DocRef TrackedDocument.t;
  nextRef : DocRef;
  detached : list (Deferrable.t DocumentDirtyIdleTriggerEvent);
  immediates : list DocumentDirtyStateChangeEvent;
  suspended : list Continuation;
  emitted : list Emitted;
  now : Z
}.

Definition set_dirtyIdleTriggerDelay (v : Z) (s : DocumentTracker) :=
  mkTracker v (_disposable s) (_documentMap s)
    (_dirtyIdleTriggeredDebounced s) (_dirtyStateChangedDebounced s)
    (onActiveTextEditorChangedDebounced s)
    (onTextDocumentChangedDebounced s) (objects s) (nextRef s) (detached s)
    (immediates s) (suspended s) (emitted s) (now s).

Definition set_disposable (v : bool) (s : DocumentTracker) :=
  mkTracker (_dirtyIdleTriggerDelay s) v (_documentMap s)
    (_dirtyIdleTriggeredDebounced s) (_dirtyStateChangedDebounced s)
    (onActiveTextEditorChangedDebounced s)
    (onTextDocumentChangedDebounced s) (objects s) (nextRef s) (detached s)
    (immediates s) (suspended s) (emitted s) (now s).

Definition set_documentMap (v : gmap Key DocRef) (s : DocumentTracker) :=
  mkTracker (_dirtyIdleTriggerDelay s) (_disposable s) v
    (_dirtyIdleTriggeredDebounced s) (_dirtyStateChangedDebounced s)
    (onActiveTextEditorChangedDebounced s)
    (onTextDocumentChangedDebounced s) (objects s) (nextRef s) (detached s)
    (immediates s) (suspended s) (emitted s) (now s).

Definition set_dirtyIdleTriggeredDebounced
    (v : option (Deferrable.t DocumentDirtyIdleTriggerEvent))
    (s : DocumentTracker) :=
  mkTracker (_dirtyIdleTriggerDelay s) (_disposable s) (_documentMap s) v
    (_dirtyStateChangedDebounced s) (onActiveTextEditorChangedDebounced s)
    (onTextDocumentChangedDebounced s) (objects s) (nextRef s) (detached s)
    (immediates s) (suspended s) (emitted s) (now s).

Definition set_dirtyStateChangedDebounced
    (v : option (Deferrable.t DocumentDirtyStateChangeEvent))
    (s : DocumentTracker) :=
  mkTracker (_dirtyIdleTriggerDelay s) (_disposable s) (_documentMap s)
    (_dirtyIdleTriggeredDebounced s) v
    (onActiveTextEditorChangedDebounced s)
    (onTextDocumentChangedDebounced s) (objects s) (nextRef s) (detached s)
    (immediates s) (suspended s) (emitted s) (now s).

Definition set_onActiveTextEditorChangedDebounced
    (v : Deferrable.t (option TextEditor))
    (s : DocumentTracker) :=
  mkTracker (_dirtyIdleTriggerDelay s) (_disposable s) (_documentMap s)
    (_dirtyIdleTriggeredDebounced s) (_dirtyStateChangedDebounced s) v
    (onTextDocumentChangedDebounced s) (objects s) (nextRef s) (detached s)
    (immediates s) (suspended s) (emitted s) (now s).

Definition set_onTextDocumentChangedDebounced
    (v : Deferrable.t TextDocument)
    (s : DocumentTracker) :=
  mkTracker (_dirtyIdleTriggerDelay s) (_disposable s) (_documentMap s)
    (_dirtyIdleTriggeredDebounced s) (_dirtyStateChangedDebounced s)
    (onActiveTextEditorChangedDebounced s) v (objects s) (nextRef s)
    (detached s) (immediates s) (suspended s) (emitted s) (now s).

Definition set_objects
    (v : gmap DocRef TrackedDocument.t)
    (s : DocumentTracker) :=
  mkTracker (_dirtyIdleTriggerDelay s) (_disposable s) (_documentMap s)
    (_dirtyIdleTriggeredDebounced s) (_dirtyStateChangedDebounced s)
    (onActiveTextEditorChangedDebounced s)
    (onTextDocumentChangedDebounced s) v (nextRef s) (detached s)
    (immediates s) (suspended s) (emitted s) (now s).

Definition set_nextRef (v : DocRef) (s : DocumentTracker) :=
  mkTracker (_dirtyIdleTriggerDelay s) (_disposable s) (_documentMap s)
    (_dirtyIdleTriggeredDebounced s) (_dirtyStateChangedDebounced s)
    (onActiveTextEditorChangedDebounced s)
    (onTextDocumentChangedDebounced s) (objects s) v (detached s)
    (immediates s) (suspended s) (emitted s) (now s).

Definition set_detached
    (v : list (Deferrable.t DocumentDirtyIdleTriggerEvent))
    (s : DocumentTracker) :=
  mkTracker (_dirtyIdleTriggerDelay s) (_disposable s) (_documentMap s)
    (_dirtyIdleTriggeredDebounced s) (_dirtyStateChangedDebounced s)
    (onActiveTextEditorChangedDebounced s)
    (onTextDocumentChangedDebounced s) (objects s) (nextRef s) v
    (immediates s) (suspended s) (emitted s) (now s).

Definition set_immediates
    (v : list DocumentDirtyStateChangeEvent)
    (s : DocumentTracker) :=
  mkTracker (_dirtyIdleTriggerDelay s) (_disposable s) (_documentMap s)
    (_dirtyIdleTriggeredDebounced s) (_dirtyStateChangedDebounced s)
    (onActiveTextEditorChangedDebounced s)
    (onTextDocumentChangedDebounced s) (objects s) (nextRef s) (detached s)
    v (suspended s) (emitted s) (now s).

Definition set_suspended (v : list Continuation) (s : DocumentTracker) :=
  mkTracker (_dirtyIdleTriggerDelay s) (_disposable s) (_documentMap s)
    (_dirtyIdleTriggeredDebounced s) (_dirtyStateChangedDebounced s)
    (onActiveTextEditorChangedDebounced s)
    (onTextDocumentChangedDebounced s) (objects s) (nextRef s) (detached s)
    (immediates s) v (emitted s) (now s).

Definition set_emitted (v : list Emitted) (s : DocumentTracker) :=
  mkTracker (_dirtyIdleTriggerDelay s) (_disposable s) (_documentMap s)
    (_dirtyIdleTriggeredDebounced s) (_dirtyStateChangedDebounced s)
    (onActiveTextEditorChangedDebounced s)
    (onTextDocumentChangedDebounced s) (objects s) (nextRef s) (detached s)
    (immediates s) (suspended s) v (now s).

Definition set_now (v : Z) (s : DocumentTracker) :=
  mkTracker (_dirtyIdleTriggerDelay s) (_disposable s) (_documentMap s)
    (_dirtyIdleTriggeredDebounced s) (_dirtyStateChangedDebounced s)
    (onActiveTextEditorChangedDebounced s)
    (onTextDocumentChangedDebounced s) (objects s) (nextRef s) (detached s)
    (immediates s) (suspended s) (emitted s) v.

(** A method call on the object behind a reference. *)
Definition onObject (f : TrackedDocument.t -> TrackedDocument.t) (r : DocRef)
    (s : DocumentTracker) : DocumentTracker :=
  set_objects (alter f r (objects s)) s.

(** [for (const d of this._documentMap.values()) f(d)]. *)
Definition forEachValue (f : TrackedDocument.t -> TrackedDocument.t)
    (s : DocumentTracker) : DocumentTracker :=
  set_objects
    (map_fold (fun (_ : Key) (r : DocRef) os => alter f r os)
              (objects s) (_documentMap s)) s.

Definition fire (e : Emitted) (s : DocumentTracker) : DocumentTracker :=
  set_emitted (emitted s ++ [e]) s.

(** An [async] callback reaches its [await]: what is left of it waits. *)
Definition suspend (k : Continuation) (s : DocumentTracker) : DocumentTracker :=
  set_suspended (suspended s ++ [k]) s.

(** *** [addCore] *)
Definition addCore (document : TextDocument) (s : DocumentTracker)
  : DocRef * DocumentTracker :=
  let key := toStateKey (FileUri (uri document)) in
  (* Always start out false, so we will fire the event if needed *)
  let doc := TrackedDocument.new document key false in
  let r := nextRef s in
  let s := set_nextRef (S r) (set_objects (<[r := doc]> (objects s)) s) in
  let s := set_documentMap (<[KDocument document := r]> (_documentMap s)) s in
  let s := set_documentMap (<[KString key := r]> (_documentMap s)) s in
  (r, s).

(** *** [clear] and [dispose]

    [this._disposable.dispose()] unregisters the five subscriptions.  It
    does not reach into the debounced functions that were subscribed: a
    call of one of them that is pending keeps its timer. *)
Definition clear (s : DocumentTracker) : DocumentTracker :=
  set_documentMap ∅ (forEachValue TrackedDocument.dispose s).

Definition dispose (s : DocumentTracker) : DocumentTracker :=
  clear (set_disposable false s).

(** *** [has] *)
Definition has (key : DocumentOrId) (s : DocumentTracker) : bool :=
  let key :=
    match key with
    | OfFileName fileName => KString (toStateKey (FileName fileName))
    | OfUri u => KString (toStateKey (FileUri u))
    | OfDocument document => KDocument document
    end in
  bool_decide (is_Some (_documentMap s !! key)).

(** *** [onConfigurationChanged] *)
Definition onConfigurationChanged (env : Env) (e : ConfigurationChangeEvent)
    (s : DocumentTracker) : DocumentTracker :=
  let initializing := cfg_initializing e in
  (* Only reset the cached state if we aren't initializing *)
  let s :=
    if negb initializing
       && (cfg_changed e BlameIgnoreWhitespace
           || cfg_changed e AdvancedCachingEnabled)
    then forEachValue (TrackedDocument.reset ReasonConfig) s
    else s in
  let section := AdvancedBlameDelayAfterEdit in
  if initializing || cfg_changed e section
  then
    let s := set_dirtyIdleTriggerDelay (delayAfterEdit env) s in
    (* the function object that is let go of keeps its timer *)
    let s :=
      match _dirtyIdleTriggeredDebounced s with
      | Some d => set_detached (detached s ++ [d]) s
      | None => s
      end in
    set_dirtyIdleTriggeredDebounced None s
  else s.

(** *** [onActiveTextEditorChanged]

    The four [setCommandContext] calls of the branch without an editor act
    on the host's UI state only. *)
Definition onActiveTextEditorChanged (env : Env) (editor : option TextEditor)
    (s : DocumentTracker) : DocumentTracker :=
  match editor with
  | Some ed =>
      if negb (isTextEditor env ed) then s
      else
        match _documentMap s !! KDocument (editor_document ed) with
        | Some r => onObject TrackedDocument.activate r s
        | None =>
            (* No need to activate this, as it is implicit in initialization *)
            snd (addCore (editor_document ed) s)
        end
  | None => s
  end.

(** *** [fireDocumentDirtyStateChanged]

    The synchronous part: the dirty branch queues the [setImmediate] task
    and (re)arms the idle debounce, creating it on first use; the clean
    branch (re)arms the 250ms debounce, creating it on first use. *)
Definition fireDocumentDirtyStateChanged (e : DocumentDirtyStateChangeEvent)
    (s : DocumentTracker) : DocumentTracker :=
  if dsc_dirty e then
    let s := set_immediates (immediates s ++ [e]) s in
    if 0 <? _dirtyIdleTriggerDelay s then
      let d :=
        match _dirtyIdleTriggeredDebounced s with
        | Some d => d
        | None => Deferrable.debounce (_dirtyIdleTriggerDelay s)
        end in
      set_dirtyIdleTriggeredDebounced
        (Some (Deferrable.call (now s)
                 {| dit_editor := Some (dsc_editor e);
                    dit_document := dsc_document e |} d)) s
    else s
  else
    let d :=
      match _dirtyStateChangedDebounced s with
      | Some d => d
      | None => Deferrable.debounce 250
      end in
    set_dirtyStateChangedDebounced (Some (Deferrable.call (now s) e d)) s.

(** The three [async] callbacks made here run up to their
    [await e.document.ensureInitialized()] and are suspended there; what
    follows the [await] is run by [resumeContinuation]. *)

(** The task handed to [setImmediate] by the dirty branch, up to its
    [await]. *)
Definition runDirtyImmediate (env : Env) (e : DocumentDirtyStateChangeEvent)
    (s : DocumentTracker) : DocumentTracker :=
  let s :=
    match _dirtyStateChangedDebounced s with
    | Some d => set_dirtyStateChangedDebounced (Some (Deferrable.cancel d)) s
    | None => s
    end in
  if bool_decide (activeTextEditor env = Some (dsc_editor e))
  then suspend (FireDirtyStateChanged e) s
  else s.

(** The function wrapped by the idle debounce, up to its [await].  [this]
    is the tracker, so the test reads the debounced function the tracker
    holds when the timer goes off, whichever function object the timer
    belongs to. *)
Definition dirtyIdleCallback (e : DocumentDirtyIdleTriggerEvent)
    (s : DocumentTracker) : DocumentTracker :=
  if match _dirtyIdleTriggeredDebounced s with
     | Some d => Deferrable.pending d
     | None => false
     end
  then s
  else suspend (TriggerDirtyIdle e) s.

(** The function wrapped by the 250ms debounce of the clean branch, up to
    its [await]. *)
Definition dirtyStateChangedCallback (env : Env)
    (e : DocumentDirtyStateChangeEvent) (s : DocumentTracker)
  : DocumentTracker :=
  if bool_decide (activeTextEditor env = Some (dsc_editor e))
  then suspend (FireDirtyStateChanged e) s
  else s.

(** What follows the [await] in the three callbacks.  The awaited
    [ensureInitialized()] of the suspended callback with index [i] has
    settled.  If it fulfilled, the rest of the callback runs: nothing is
    tested again, the event is fired (after [isDirtyIdle] is set, for the
    idle callback).  If it was rejected, the callback ends there; nothing
    in the tracker catches the rejection. *)
Definition resumeContinuation (env : Env) (i : nat) (s : DocumentTracker)
  : DocumentTracker :=
  match suspended s !! i with
  | None => s
  | Some k =>
      let s := set_suspended (delete i (suspended s)) s in
      if initializes env (awaited k)
      then
        let s := onObject (initialize env) (awaited k) s in
        match k with
        | FireDirtyStateChanged e => fire (DirtyStateChanged e) s
        | TriggerDirtyIdle e =>
            let s :=
              onObject (TrackedDocument.set_isDirtyIdle true)
                       (dit_document e) s in
            fire (DirtyIdleTriggered e) s
        end
      else s
  end.

(** *** [onTextDocumentChanged]

    The handler is written in three parts: the block that resets or cancels
    the idle debounce (lines 118-126), the rest of the body from the
    dirty-unchanged guard on (lines 128-136), and the handler itself. *)

(* If we have an idle tracker, either reset or cancel it *)
Definition resetOrCancelIdle (editor : option TextEditor) (dirty : bool)
    (doc : DocRef) (s : DocumentTracker) : DocumentTracker :=
  match _dirtyIdleTriggeredDebounced s with
  | Some d =>
      if dirty
      then set_dirtyIdleTriggeredDebounced
             (Some (Deferrable.call (now s)
                      {| dit_editor := editor; dit_document := doc |} d)) s
      else set_dirtyIdleTriggeredDebounced (Some (Deferrable.cancel d)) s
  | None => s
  end.

Definition changeDirtyState (editor : option TextEditor)
    (document : TextDocument) (dirty : bool) (doc : DocRef)
    (s : DocumentTracker) : DocumentTracker :=
  match objects s !! doc with
  | None => s (* a reference in the map always has its object *)
  | Some o =>
      if negb (TrackedDocument.forceDirtyStateChangeOnNextDocumentChange o)
         && Bool.eqb (TrackedDocument.dirty o) dirty
      then s
      else
        let s :=
          onObject
            TrackedDocument.resetForceDirtyStateChangeOnNextDocumentChange
            doc s in
        let s := onObject (TrackedDocument.set_dirty dirty) doc s in
        (* Only fire state change events for the active document *)
        match editor with
        | None => s
        | Some ed =>
            if bool_decide (editor_document ed = document)
            then fireDocumentDirtyStateChanged
                   {| dsc_editor := ed; dsc_document := doc;
                      dsc_dirty := dirty |} s
            else s
        end
  end.

Definition onTextDocumentChanged (env : Env) (e : TextDocumentChangeEvent)
    (s : DocumentTracker) : DocumentTracker :=
  if negb (String.eqb (scheme (uri (tdc_document e))) DocumentSchemes.File)
  then s
  else
    let '(doc, s) :=
      match _documentMap s !! KDocument (tdc_document e) with
      | Some doc => (doc, s)
      | None => addCore (tdc_document e) s
      end in
    let s := onObject (TrackedDocument.reset ReasonDocument) doc s in
    let dirty := tdc_isDirty e in
    let editor := activeTextEditor env in
    let s := resetOrCancelIdle editor dirty doc s in
    changeDirtyState editor (tdc_document e) dirty doc s.

(** *** [onTextDocumentClosed] *)
Definition onTextDocumentClosed (document : TextDocument)
    (s : DocumentTracker) : DocumentTracker :=
  match _documentMap s !! KDocument document with
  | None => s
  | Some doc =>
      let s := onObject TrackedDocument.dispose doc s in
      let s := set_documentMap (delete (KDocument document) (_documentMap s)) s in
      match objects s !! doc with
      | Some o =>
          set_documentMap
            (delete (KString (TrackedDocument.key o)) (_documentMap s)) s
      | None => s (* a reference in the map always has its object *)
      end
  end.

(** *** [onTextDocumentSaved] *)
Definition onTextDocumentSaved (env : Env) (document : TextDocument)
    (s : DocumentTracker) : DocumentTracker :=
  match _documentMap s !! KDocument document with
  | Some doc => onObject (TrackedDocument.update true) doc s
  | None =>
      (* If we are saving the active document make sure we are tracking it *)
      if isActiveDocument env document
      then snd (addCore document s)
      else s
  end.

(** *** Timers going off *)

Definition fireDirtyIdle (s : DocumentTracker) : DocumentTracker :=
  match _dirtyIdleTriggeredDebounced s with
  | Some d =>
      match Deferrable.due (now s) d with
      | Some e =>
          dirtyIdleCallback e
            (set_dirtyIdleTriggeredDebounced (Some (Deferrable.cancel d)) s)
      | None => s
      end
  | None => s
  end.

Definition fireDetached (i : nat) (s : DocumentTracker) : DocumentTracker :=
  match detached s !! i with
  | Some d =>
      match Deferrable.due (now s) d with
      | Some e =>
          dirtyIdleCallback e
            (set_detached (<[i := Deferrable.cancel d]> (detached s)) s)
      | None => s
      end
  | None => s
  end.

Definition fireDirtyStateChanged (env : Env) (s : DocumentTracker)
  : DocumentTracker :=
  match _dirtyStateChangedDebounced s with
  | Some d =>
      match Deferrable.due (now s) d with
      | Some e =>
          dirtyStateChangedCallback env e
            (set_dirtyStateChangedDebounced (Some (Deferrable.cancel d)) s)
      | None => s
      end
  | None => s
  end.

Definition runImmediate (env : Env) (s : DocumentTracker) : DocumentTracker :=
  match immediates s with
  | e :: rest => runDirtyImmediate env e (set_immediates rest s)
  | [] => s
  end.

(** *** The debounced handlers

    [window.onDidChangeActiveTextEditor] and
    [workspace.onDidChangeTextDocument] are given
    [Functions.debounce(this.onActiveTextEditorChanged, 0)] and
    [Functions.debounce(this.onTextDocumentChanged, 50)]: an event calls
    the debounced function, which keeps the latest argument, and the
    handler runs when the timer goes off.  The argument of a change event
    is kept as the event's document; the handler reads
    [e.document.isDirty] when it runs. *)

Definition onDidChangeActiveTextEditor (editor : option TextEditor)
    (s : DocumentTracker) : DocumentTracker :=
  set_onActiveTextEditorChangedDebounced
    (Deferrable.call (now s) editor (onActiveTextEditorChangedDebounced s)) s.

Definition onDidChangeTextDocument (document : TextDocument)
    (s : DocumentTracker) : DocumentTracker :=
  set_onTextDocumentChangedDebounced
    (Deferrable.call (now s) document (onTextDocumentChangedDebounced s)) s.

Definition fireActiveTextEditorChanged (env : Env) (s : DocumentTracker)
  : DocumentTracker :=
  let d := onActiveTextEditorChangedDebounced s in
  match Deferrable.due (now s) d with
  | Some editor =>
      onActiveTextEditorChanged env editor
        (set_onActiveTextEditorChangedDebounced (Deferrable.cancel d) s)
  | None => s
  end.

(** The change event as the handler sees it when it runs. *)
Definition changeEvent (env : Env) (document : TextDocument)
  : TextDocumentChangeEvent :=
  {| tdc_document := document; tdc_isDirty := isDirty env document |}.

Definition fireTextDocumentChanged (env : Env) (s : DocumentTracker)
  : DocumentTracker :=
  let d := onTextDocumentChangedDebounced s in
  match Deferrable.due (now s) d with
  | Some document =>
      onTextDocumentChanged env (changeEvent env document)
        (set_onTextDocumentChangedDebounced (Deferrable.cancel d) s)
  | None => s
  end.

(** *** The tracker as a transition system *)

Definition blank : DocumentTracker :=
  mkTracker 0 true ∅ None None (Deferrable.debounce 0) (Deferrable.debounce 50)
    ∅ 0%nat [] [] [] [] 0.

Definition initializingChangeEvent : ConfigurationChangeEvent :=
  {| cfg_initializing := true; cfg_changed := fun _ => false |}.

(** The constructor: the subscriptions are made and
    [onConfigurationChanged(configuration.initializingChangeEvent)] runs. *)
Definition construct (env : Env) : DocumentTracker :=
  onConfigurationChanged env initializingChangeEvent blank.

(** Everything that can happen to a tracker: the five host events it
    subscribes to; the calls other components make ([addCore] as run by
    [_add], an awaited [ensureInitialized] that fulfils for [_add] or
    [_get], [setForceDirtyStateChangeOnNextDocumentChange] on a tracked
    document, [clear], [dispose]); a tracked document calling the
    [onDidBlameStateChange] delegate it was constructed with; the event
    loop running a queued task, a timer or a suspended callback; and a
    millisecond passing. *)
Inductive Input :=
| ConfigurationChanged (e : ConfigurationChangeEvent)
| ActiveTextEditorChanged (editor : option TextEditor)
| TextDocumentChanged (document : TextDocument)
| TextDocumentClosed (document : TextDocument)
| TextDocumentSaved (document : TextDocument)
| AddCoreCalled (document : TextDocument)
| EnsureInitializedDone (doc : DocRef)
| ForceNextChangeSet (doc : DocRef)
| BlameStateChangeRaised (e : DocumentBlameStateChangeEvent)
| ClearCalled
| DisposeCalled
| ActiveTextEditorChangedTimer
| TextDocumentChangedTimer
| ImmediateRun
| DirtyIdleTimer
| DetachedTimer (i : nat)
| DirtyStateChangedTimer
| ContinuationResumed (i : nat)
| Elapsed.

(** The host delivers an event to a subscriber only while the
    subscription is registered. *)
Definition subscribed (h : DocumentTracker -> DocumentTracker)
    (s : DocumentTracker) : DocumentTracker :=
  if _disposable s then h s else s.

(** When a tracked document calls its delegate is decided in
    [trackedDocument.ts]; the delegate itself is line 232:
    [(e) => this._onDidChangeBlameState.fire(e)]. *)
Definition onDidBlameStateChange (e : DocumentBlameStateChangeEvent)
    (s : DocumentTracker) : DocumentTracker :=
  fire (BlameStateChanged e) s.

Definition step (env : Env) (i : Input) (s : DocumentTracker)
  : DocumentTracker :=
  match i with
  | ConfigurationChanged e => subscribed (onConfigurationChanged env e) s
  | ActiveTextEditorChanged editor =>
      subscribed (onDidChangeActiveTextEditor editor) s
  | TextDocumentChanged document =>
      subscribed (onDidChangeTextDocument document) s
  | TextDocumentClosed document => subscribed (onTextDocumentClosed document) s
  | TextDocumentSaved document =>
      subscribed (onTextDocumentSaved env document) s
  | AddCoreCalled document => snd (addCore document s)
  | EnsureInitializedDone doc => onObject (initialize env) doc s
  | ForceNextChangeSet doc =>
      onObject TrackedDocument.setForceDirtyStateChangeOnNextDocumentChange
               doc s
  | BlameStateChangeRaised e => onDidBlameStateChange e s
  | ClearCalled => clear s
  | DisposeCalled => dispose s
  | ActiveTextEditorChangedTimer => fireActiveTextEditorChanged env s
  | TextDocumentChangedTimer => fireTextDocumentChanged env s
  | ImmediateRun => runImmediate env s
  | DirtyIdleTimer => fireDirtyIdle s
  | DetachedTimer i => fireDetached i s
  | DirtyStateChangedTimer => fireDirtyStateChanged env s
  | ContinuationResumed i => resumeContinuation env i s
  | Elapsed => set_now (now s + 1) s
  end.

Fixpoint run (trace : list (Env * Input)) (s : DocumentTracker)
  : DocumentTracker :=
  match trace with
  | [] => s
  | (env, i) :: trace' => run trace' (step env i s)
  end.

(** *** [add] / [_add]

    [_add] is an [async] method; it is cut at its [await]s.  A call runs up
    to its first [await]; each later step resumes it once.  A call is
    rejected when [workspace.openTextDocument] fails, before anything was
    created, or when [ensureInitialized] fails, after [addCore] has
    created and entered a tracked document. *)
Inductive AddTask :=
| AddCalled (documentOrId : DocumentOrId)
| AwaitOpenTextDocument (id : FileNameOrUri)
| AwaitAddCore (doc : DocRef)
| AwaitEnsureInitialized (doc : DocRef)
| AddReturned (doc : DocRef)
| AddRejected (created : option DocRef).

Definition _add (env : Env) (t : AddTask) (s : DocumentTracker)
  : AddTask * DocumentTracker :=
  match t with
  | AddCalled (OfFileName fileName) =>
      (AwaitOpenTextDocument (FileName fileName), s)
  | AddCalled (OfUri u) => (AwaitOpenTextDocument (FileUri u), s)
  | AddCalled (OfDocument document) =>
      let '(doc, s) := addCore document s in (AwaitAddCore doc, s)
  | AwaitOpenTextDocument id =>
      match openTextDocument env id with
      | Some document =>
          let '(doc, s) := addCore document s in (AwaitAddCore doc, s)
      | None => (AddRejected None, s)
      end
  | AwaitAddCore doc => (AwaitEnsureInitialized doc, s)
  | AwaitEnsureInitialized doc =>
      if initializes env doc
      then (AddReturned doc, onObject (initialize env) doc s)
      else (AddRejected (Some doc), s)
  | AddReturned doc => (AddReturned doc, s)
  | AddRejected created => (AddRejected created, s)
  end.

(** The [TextDocument] an identity resolves to. *)
Definition resolve (env : Env) (documentOrId : DocumentOrId)
  : option TextDocument :=
  match documentOrId with
  | OfFileName fileName => openTextDocument env (FileName fileName)
  | OfUri u => openTextDocument env (FileUri u)
  | OfDocument document => Some document
  end.

(** Several calls in flight: the event loop resumes the call with the given
    index. *)
Definition resume (env : Env) (i : nat)
    (c : list AddTask * DocumentTracker) : list AddTask * DocumentTracker :=
  match c.1 !! i with
  | Some t => let '(t', s') := _add env t c.2 in (<[i := t']> c.1, s')
  | None => c
  end.

Fixpoint interleave (env : Env) (schedule : list nat)
    (c : list AddTask * DocumentTracker) : list AddTask * DocumentTracker :=
  match schedule with
  | [] => c
  | i :: schedule' => interleave env schedule' (resume env i c)
  end.

(** The tracked document a call has created so far. *)
Definition created (t : AddTask) : option DocRef :=
  match t with
  | AwaitAddCore doc | AwaitEnsureInitialized doc | AddReturned doc => Some doc
  | AddRejected created => created
  | _ => None
  end.

Definition returned (t : AddTask) : option DocRef :=
  match t with
  | AddReturned doc => Some doc
  | _ => None
  end.

(** One call of [add] run from start to end with nothing in between. *)
Definition add (env : Env) (documentOrId : DocumentOrId) (s : DocumentTracker)
  : AddTask * DocumentTracker :=
  let '(t, s) := _add env (AddCalled documentOrId) s in
  let '(t, s) := _add env t s in
  let '(t, s) := _add env t s in
  _add env t s.

(** ** [ShowLineBlameCommand.execute]

    [execute] is an [async] method: its caller receives a promise.  A call
    of a collaborator either throws or returns a value, and the value may
    itself be a promise; a promise is identified with the way it settles. *)

Module ShowLineBlameCommand.

Definition Exn := string.
Definition LineAnnotationType := string.

Inductive Plain := Undefined | Data (x : string).

Inductive Settled := Fulfilled (v : Plain) | Rejected (ex : Exn).

Inductive Value := NoPromise (v : Plain) | Promise (p : Settled).

Inductive Completion (A : Type) := Normal (a : A) | Throw (ex : Exn).
Arguments Normal {A} _.
Arguments Throw {A} _.

Record ShowLineBlameCommandArgs := { type : option LineAnnotationType }.

(** What the method did, in order. *)
Inductive Action :=
| ConfigurationGet
| ShowAnnotations (editor : TextEditor) (annotationType : LineAnnotationType)
| LoggerError (ex : Exn) (classOrMethod : string)
| ShowErrorMessage (message : string).

(** The collaborators [execute] calls: [configuration.get] of the
    [blame.line.annotationType] setting,
    [Container.lineAnnotations.showAnnotations], [Logger.error] and
    [window.showErrorMessage].  Each of them may throw. *)
Record Collaborators := {
  configuration_get : Completion LineAnnotationType;
  showAnnotations : TextEditor -> LineAnnotationType -> Completion Value;
  logger_error : Exn -> string -> Completion unit;
  showErrorMessage : string -> Completion Value
}.

(** Returning [v] from an [async] function: the function's promise
    fulfils with a value that is no promise, and follows one that is. *)
Definition asyncReturn (v : Value) : Settled :=
  match v with
  | NoPromise x => Fulfilled x
  | Promise p => p
  end.

(** The [catch] block.  An exception thrown inside it leaves the [async]
    method: the method's promise is rejected with it. *)
Definition handler (c : Collaborators) (done : list Action) (ex : Exn)
  : Settled * list Action :=
  let message :=
    "Unable to show line blame annotations. See output channel for more details" in
  let done := (done ++ [LoggerError ex "ShowLineBlameCommand"])%list in
  match logger_error c ex "ShowLineBlameCommand" with
  | Throw ex' => (Rejected ex', done)
  | Normal _ =>
      let done := (done ++ [ShowErrorMessage message])%list in
      match showErrorMessage c message with
      | Throw ex' => (Rejected ex', done)
      | Normal v => (asyncReturn v, done)
      end
  end.

Definition execute (c : Collaborators) (editor : option TextEditor)
    (args : ShowLineBlameCommandArgs) : Settled * list Action :=
  match editor with
  | None => (Fulfilled Undefined, [])
  | Some editor =>
      (* try *)
      let '(resolved, done) :=
        match type args with
        | None => (configuration_get c, [ConfigurationGet])
        | Some t => (Normal t, [])
        end in
      match resolved with
      | Throw ex => handler c done ex
      | Normal t =>
          let done := (done ++ [ShowAnnotations editor t])%list in
          match showAnnotations c editor t with
          | Throw ex => handler c done ex
          | Normal v => (asyncReturn v, done)
          end
      end
  end.

(** The call ended without handing an exception to the caller. *)
Definition settledNormally (r : Settled * list Action) : bool :=
  match r.1 with
  | Fulfilled _ => true
  | Rejected _ => false
  end.

End ShowLineBlameCommand.

(** ** Auxiliary notions used to state the properties *)

(** The first lines of [onTextDocumentChanged]: the tracked document of the
    changed buffer, created if the buffer is not yet tracked. *)
Definition lookupOrAdd (document : TextDocument) (s : DocumentTracker)
  : DocRef * DocumentTracker :=
  match _documentMap s !! KDocument document with
  | Some doc => (doc, s)
  | None => addCore document s
  end.

(** Between [s] and [s'] no dirty-state-changed event was fired, queued or
    scheduled. *)
Definition noDirtyStateDispatch (s s' : DocumentTracker) : Prop :=
  emitted s' = emitted s /\ immediates s' = immediates s
  /\ _dirtyStateChangedDebounced s' = _dirtyStateChangedDebounced s.

(** Between [s] and [s'] the event [ev] was handed to
    [fireDocumentDirtyStateChanged]: a dirty event is queued with
    [setImmediate], a clean one is the pending call of the 250ms debounce. *)
Definition dirtyStateDispatched (ev : DocumentDirtyStateChangeEvent)
    (s s' : DocumentTracker) : Prop :=
  emitted s' = emitted s
  /\ if dsc_dirty ev
     then immediates s' = immediates s ++ [ev]
          /\ _dirtyStateChangedDebounced s' = _dirtyStateChangedDebounced s
     else immediates s' = immediates s
          /\ exists d, _dirtyStateChangedDebounced s' = Some d
                       /\ Deferrable.pendingCall d
                          = Some (now s + Deferrable.wait d, ev).

(** [doc] is a value of the cache map. *)
Definition tracked (doc : DocRef) (s : DocumentTracker) : Prop :=
  exists k, _documentMap s !! k = Some doc.

(** Between [s] and [s'] a tracked document was created for [document] and
    stored under both of its keys. *)
Definition createdFor (document : TextDocument) (s s' : DocumentTracker)
  : Prop :=
  let key := toStateKey (FileUri (uri document)) in
  nextRef s' = S (nextRef s)
  /\ objects s' !! nextRef s = Some (TrackedDocument.new document key false)
  /\ _documentMap s' !! KDocument document = Some (nextRef s)
  /\ _documentMap s' !! KString key = Some (nextRef s).

(** Between [s] and [s'] no tracked document was created and the cache map
    was not written. *)
Definition nothingCreated (s s' : DocumentTracker) : Prop :=
  nextRef s' = nextRef s /\ _documentMap s' = _documentMap s.

(** [o'] is [o] but for its cached state, which was reset for [reason]. *)
Definition resetOf (reason : ResetReason) (o o' : TrackedDocument.t) : Prop :=
  TrackedDocument.cache o' = CacheReset reason
  /\ TrackedDocument.dirty o' = TrackedDocument.dirty o
  /\ TrackedDocument.document o' = TrackedDocument.document o
  /\ TrackedDocument.key o' = TrackedDocument.key o
  /\ TrackedDocument.isDirtyIdle o' = TrackedDocument.isDirtyIdle o
  /\ TrackedDocument.active o' = TrackedDocument.active o
  /\ TrackedDocument.forceDirtyStateChangeOnNextDocumentChange o'
     = TrackedDocument.forceDirtyStateChangeOnNextDocumentChange o
  /\ TrackedDocument.initialized o' = TrackedDocument.initialized o
  /\ TrackedDocument.disposed o' = TrackedDocument.disposed o.

(** *** Well-formed trackers

    Every stored object lies below the allocation counter and carries the
    key of its own document; an entry under a document points at an object
    for that document; an entry under a string key points at an object with
    that key which is also entered under its document. *)
Definition wellFormed (s : DocumentTracker) : Prop :=
  (forall doc o, objects s !! doc = Some o ->
      (doc < nextRef s)%nat
      /\ TrackedDocument.key o
         = toStateKey (FileUri (uri (TrackedDocument.document o))))
  /\ (forall d doc, _documentMap s !! KDocument d = Some doc ->
        exists o, objects s !! doc = Some o /\ TrackedDocument.document o = d)
  /\ (forall k doc, _documentMap s !! KString k = Some doc ->
        exists o, objects s !! doc = Some o /\ TrackedDocument.key o = k
                  /\ _documentMap s !! KDocument (TrackedDocument.document o)
                     = Some doc).

(** Two object stores hold the same objects up to a relation on their
    contents. *)
Definition objectsRel (P : TrackedDocument.t -> TrackedDocument.t -> Prop)
    (os os' : gmap nat TrackedDocument.t) : Prop :=
  forall doc,
    match os !! doc, os' !! doc with
    | Some o, Some o' => P o o'
    | None, None => True
    | _, _ => False
    end.

Definition identityKept (o o' : TrackedDocument.t) : Prop :=
  TrackedDocument.document o' = TrackedDocument.document o
  /\ TrackedDocument.key o' = TrackedDocument.key o.

Definition dirtyKept (o o' : TrackedDocument.t) : Prop :=
  identityKept o o' /\ TrackedDocument.dirty o' = TrackedDocument.dirty o.

(** From [s] to [s'] only methods of tracked documents ran that keep the
    document, the key and the dirty flag; the cache map was not written and
    nothing was created. *)
Definition methodsOnly (s s' : DocumentTracker) : Prop :=
  _documentMap s' = _documentMap s /\ nextRef s' = nextRef s
  /\ objectsRel dirtyKept (objects s) (objects s').


(** The keys under which a tracked document is entered in the cache map. *)
Definition keysOf (doc : DocRef) (s : DocumentTracker) : list Key :=
  (map_to_list (filter (fun kv => kv.2 = doc) (_documentMap s))).*1.





(** An identity handed to [has] that denotes the document [d]: the document
    itself, or a path or URI whose state key is that of the document. *)
Definition denotes (id : DocumentOrId) (d : TextDocument) : Prop :=
  match id with
  | OfDocument d' => d' = d
  | OfFileName fileName =>
      toStateKey (FileName fileName) = toStateKey (FileUri (uri d))
  | OfUri u => toStateKey (FileUri u) = toStateKey (FileUri (uri d))
  end.

(** What [onTextDocumentChanged] does about the dirty state, given the
    tracked document [doc] of the changed buffer and its contents [o] when
    the handler starts. *)
Definition dirtyStateOutcome (env : Env) (e : TextDocumentChangeEvent)
    (s : DocumentTracker) (doc : nat) (o : TrackedDocument.t)
    (s' : DocumentTracker) : Prop :=
  if negb (TrackedDocument.forceDirtyStateChangeOnNextDocumentChange o)
     && Bool.eqb (TrackedDocument.dirty o) (tdc_isDirty e)
  then
    noDirtyStateDispatch s s'
    /\ TrackedDocument.dirty <$> objects s' !! doc
       = Some (TrackedDocument.dirty o)
  else
    (exists o',
        objects s' !! doc = Some o'
        /\ TrackedDocument.forceDirtyStateChangeOnNextDocumentChange o' = false
        /\ TrackedDocument.dirty o' = tdc_isDirty e)
    /\ match activeTextEditor env with
       | Some ed =>
           if bool_decide (editor_document ed = tdc_document e)
           then dirtyStateDispatched
                  {| dsc_editor := ed; dsc_document := doc;
                     dsc_dirty := tdc_isDirty e |} s s'
           else noDirtyStateDispatch s s'
       | None => noDirtyStateDispatch s s'
       end.




(** The dirty-idle-triggered events among what was fired. *)
Definition idleTriggers (l : list Emitted)
  : list DocumentDirtyIdleTriggerEvent :=
  omap (fun x => match x with
                 | DirtyIdleTriggered e => Some e
                 | _ => None
                 end) l.

(** The dirty-state-changed events among what was fired. *)
Definition dirtyStateChanges (l : list Emitted)
  : list DocumentDirtyStateChangeEvent :=
  omap (fun x => match x with
                 | DirtyStateChanged e => Some e
                 | _ => None
                 end) l.

(** The idle callbacks that are suspended at their [await]. *)
Definition idleSuspended (s : DocumentTracker)
  : list DocumentDirtyIdleTriggerEvent :=
  omap (fun k => match k with
                 | TriggerDirtyIdle e => Some e
                 | FireDirtyStateChanged _ => None
                 end) (suspended s).

(** Inputs other than a run of the text-document-changed handler and a
    configuration change that makes the tracker let go of its idle
    debounce. *)
Definition keepsIdleDebounce (i : Input) : bool :=
  match i with
  | TextDocumentChangedTimer => false
  | ConfigurationChanged e =>
      negb (cfg_initializing e || cfg_changed e AdvancedBlameDelayAfterEdit)
  | _ => true
  end.

(** The idle debounce the tracker holds was made with the stored delay. *)
Definition idleWaitIsDelay (s : DocumentTracker) : Prop :=
  forall d, _dirtyIdleTriggeredDebounced s = Some d ->
            Deferrable.wait d = _dirtyIdleTriggerDelay s.

(** *** Calls of [add] in flight *)

(** A call that will add, or has added, the document [h]. *)
Definition taskFor (env : Env) (h : TextDocument) (t : AddTask) : Prop :=
  match t with
  | AddCalled documentOrId => resolve env documentOrId = Some h
  | AwaitOpenTextDocument id => openTextDocument env id = Some h
  | AddRejected None => False
  | _ => True
  end.

(** The tracked document created so far by the call with index [j]. *)
Definition createdAt (tasks : list AddTask) (j : nat) : option nat :=
  tasks !! j ≫= created.

(** The calls in flight all concern [h]; the tracked documents they have
    created were allocated after the counter stood at [n0], are stored
    objects for [h], pairwise distinct, and the cache map holds, under both
    keys of [h], the latest of them. *)
Definition addsInFlight (env : Env) (h : TextDocument) (n0 : nat)
    (tasks : list AddTask) (s : DocumentTracker) : Prop :=
  Forall (taskFor env h) tasks
  /\ (n0 <= nextRef s)%nat
  /\ (forall j r, createdAt tasks j = Some r ->
        (n0 <= r < nextRef s)%nat
        /\ exists o, objects s !! r = Some o /\ TrackedDocument.document o = h)
  /\ (forall j k r, createdAt tasks j = Some r -> createdAt tasks k = Some r ->
        j = k)
  /\ (forall j r, createdAt tasks j = Some r ->
        exists doc k,
          createdAt tasks k = Some doc /\ (r <= doc)%nat
          /\ _documentMap s !! KDocument h = Some doc
          /\ _documentMap s !! KString (toStateKey (FileUri (uri h)))
             = Some doc).


(** From [s] to [s'] the tracker kept its idle debounce as it was, fired no
    dirty-idle-triggered event and suspended no idle callback. *)
Definition idleQuiet (s s' : DocumentTracker) : Prop :=
  _dirtyIdleTriggeredDebounced s' = _dirtyIdleTriggeredDebounced s
  /\ idleTriggers (emitted s') = idleTriggers (emitted s)
  /\ idleSuspended s' = idleSuspended s.

(** ** [get] / [_get] and [getOrAdd] *)

(** [_get] is an [async] method cut at its one [await].  A call is
    rejected when [ensureInitialized] fails. *)
Inductive GetTask :=
| GetCalled (documentOrId : DocumentOrId)
| GetAwaitEnsureInitialized (doc : nat)
| GetReturned (doc : option nat)
| GetRejected.

(** The key [_get] and [has] look an identity up under. *)
Definition lookupKey (documentOrId : DocumentOrId) : Key :=
  match documentOrId with
  | OfFileName fileName => KString (toStateKey (FileName fileName))
  | OfUri u => KString (toStateKey (FileUri u))
  | OfDocument document => KDocument document
  end.

Definition _get (env : Env) (t : GetTask) (s : DocumentTracker)
  : GetTask * DocumentTracker :=
  match t with
  | GetCalled documentOrId =>
      match _documentMap s !! lookupKey documentOrId with
      | None => (GetReturned None, s)
      | Some doc => (GetAwaitEnsureInitialized doc, s)
      end
  | GetAwaitEnsureInitialized doc =>
      if initializes env doc
      then (GetReturned (Some doc), onObject (initialize env) doc s)
      else (GetRejected, s)
  | GetReturned doc => (GetReturned doc, s)
  | GetRejected => (GetRejected, s)
  end.

(** One call of [get] run from start to end with nothing in between. *)
Definition get (env : Env) (documentOrId : DocumentOrId) (s : DocumentTracker)
  : GetTask * DocumentTracker :=
  let '(t, s) := _get env (GetCalled documentOrId) s in
  _get env t s.

(** [getOrAdd]: [await this._get(x) || await this._add(x)], each call run
    from start to end.  [_add] runs only when [_get] has returned
    [undefined]; a rejection of [_get] is the rejection of [getOrAdd]. *)
Definition getOrAdd (env : Env) (documentOrId : DocumentOrId)
    (s : DocumentTracker) : AddTask * DocumentTracker :=
  match get env documentOrId s with
  | (GetReturned (Some doc), s) => (AddReturned doc, s)
  | (GetReturned None, s) => add env documentOrId s
  | (_, s) => (AddRejected None, s)
  end.

(** *** Further notions used to state properties *)

(** The five host events the constructor subscribes to. *)
Definition isHostEvent (i : Input) : bool :=
  match i with
  | ConfigurationChanged _ | ActiveTextEditorChanged _ | TextDocumentChanged _
  | TextDocumentClosed _ | TextDocumentSaved _ => true
  | _ => false
  end.

(** Idle triggering is off: no positive delay is stored, no idle debounce
    is held or was let go of, no idle callback is suspended and no
    dirty-idle-triggered event was fired. *)
Definition idleOff (s : DocumentTracker) : Prop :=
  _dirtyIdleTriggerDelay s <= 0
  /\ _dirtyIdleTriggeredDebounced s = None
  /\ detached s = []
  /\ idleSuspended s = []
  /\ idleTriggers (emitted s) = [].

(** The debounced functions the tracker holds have the waits they are made
    with: the stored, positive delay for the idle one, 250ms for the other. *)
Definition debounceWaits (s : DocumentTracker) : Prop :=
  (forall d, _dirtyIdleTriggeredDebounced s = Some d ->
             Deferrable.wait d = _dirtyIdleTriggerDelay s
             /\ 0 < _dirtyIdleTriggerDelay s)
  /\ (forall d, _dirtyStateChangedDebounced s = Some d ->
                Deferrable.wait d = 250).

(** A path or URI as an identity handed to [has], [get] or [add]. *)
Definition asIdentity (fileNameOrUri : FileNameOrUri) : DocumentOrId :=
  match fileNameOrUri with
  | FileName fileName => OfFileName fileName
  | FileUri u => OfUri u
  end.

(** [n] milliseconds passing with nothing else happening. *)
Definition elapse (env : Env) (n : nat) : list (Env * Input) :=
  replicate n (env, Elapsed).

(** [o'] is [o] marked active. *)
Definition activatedOf (o o' : TrackedDocument.t) : Prop :=
  TrackedDocument.active o' = true
  /\ TrackedDocument.document o' = TrackedDocument.document o
  /\ TrackedDocument.key o' = TrackedDocument.key o
  /\ TrackedDocument.dirty o' = TrackedDocument.dirty o
  /\ TrackedDocument.isDirtyIdle o' = TrackedDocument.isDirtyIdle o
  /\ TrackedDocument.forceDirtyStateChangeOnNextDocumentChange o'
     = TrackedDocument.forceDirtyStateChangeOnNextDocumentChange o
  /\ TrackedDocument.cache o' = TrackedDocument.cache o
  /\ TrackedDocument.initialized o' = TrackedDocument.initialized o
  /\ TrackedDocument.disposed o' = TrackedDocument.disposed o.

(** The event a suspended callback fires when it is resumed. *)
Definition eventOf (k : Continuation) : Emitted :=
  match k with
  | FireDirtyStateChanged e => DirtyStateChanged e
  | TriggerDirtyIdle e => DirtyIdleTriggered e
  end.
(** * Properties *)

(** ** State keys *)

Lemma toLowerCase_normalizePath_cons c s :
  Strings.toLowerCase (Strings.normalizePath (String c s))
  = String (keyChar c) (Strings.toLowerCase (Strings.normalizePath s)).
Proof. reflexivity. Qed.

Lemma keyChar_sameChar c1 c2 : sameChar c1 c2 -> keyChar c1 = keyChar c2.
Proof.
  destruct 1 as [c | | | c Hc | c Hc]; try reflexivity;
    destruct c as [[] [] [] [] [] [] [] []];
    cbv in Hc; try discriminate Hc; reflexivity.
Qed.


Lemma sameChar_sym c1 c2 : sameChar c1 c2 -> sameChar c2 c1.
Proof. destruct 1; auto using sameChar. Qed.








Lemma toLowerCase_normalizePath_sameSpelling s1 s2 :
  sameSpelling s1 s2 ->
  Strings.toLowerCase (Strings.normalizePath s1)
  = Strings.toLowerCase (Strings.normalizePath s2).
Proof.
  induction 1 as [| c1 c2 s1 s2 Hc _ IH]; [reflexivity |].
  rewrite !toLowerCase_normalizePath_cons.
  f_equal; [apply keyChar_sameChar, Hc | exact IH].
Qed.







(** ** Frame lemmas for the building blocks *)

Lemma addCore_frame document s :
  let s' := snd (addCore document s) in
  emitted s' = emitted s /\ immediates s' = immediates s
  /\ _dirtyStateChangedDebounced s' = _dirtyStateChangedDebounced s
  /\ _dirtyIdleTriggeredDebounced s' = _dirtyIdleTriggeredDebounced s
  /\ _dirtyIdleTriggerDelay s' = _dirtyIdleTriggerDelay s
  /\ detached s' = detached s /\ now s' = now s
  /\ _disposable s' = _disposable s /\ suspended s' = suspended s.
Proof. cbn. tauto. Qed.

Lemma lookupOrAdd_frame document s doc s0 :
  lookupOrAdd document s = (doc, s0) ->
  emitted s0 = emitted s /\ immediates s0 = immediates s
  /\ _dirtyStateChangedDebounced s0 = _dirtyStateChangedDebounced s
  /\ _dirtyIdleTriggeredDebounced s0 = _dirtyIdleTriggeredDebounced s
  /\ _dirtyIdleTriggerDelay s0 = _dirtyIdleTriggerDelay s
  /\ detached s0 = detached s /\ now s0 = now s
  /\ _disposable s0 = _disposable s /\ suspended s0 = suspended s.
Proof.
  unfold lookupOrAdd. destruct (_documentMap s !! KDocument document).
  - intros [= <- <-]. tauto.
  - intros [= <- <-]. cbn. tauto.
Qed.

Lemma addCore_fresh_object document s :
  objects (snd (addCore document s)) !! fst (addCore document s)
  = Some (TrackedDocument.new document (toStateKey (FileUri (uri document)))
            false).
Proof. cbn. apply lookup_insert_eq. Qed.

Lemma resetOrCancelIdle_frame editor dirty doc s :
  let s' := resetOrCancelIdle editor dirty doc s in
  objects s' = objects s /\ _documentMap s' = _documentMap s
  /\ emitted s' = emitted s /\ immediates s' = immediates s
  /\ _dirtyStateChangedDebounced s' = _dirtyStateChangedDebounced s
  /\ _dirtyIdleTriggerDelay s' = _dirtyIdleTriggerDelay s
  /\ detached s' = detached s /\ now s' = now s /\ nextRef s' = nextRef s
  /\ _disposable s' = _disposable s /\ suspended s' = suspended s.
Proof.
  unfold resetOrCancelIdle.
  destruct (_dirtyIdleTriggeredDebounced s); [destruct dirty |]; cbn; tauto.
Qed.

Lemma onTextDocumentChanged_unfold env e s doc s0 :
  scheme (uri (tdc_document e)) = DocumentSchemes.File ->
  lookupOrAdd (tdc_document e) s = (doc, s0) ->
  onTextDocumentChanged env e s
  = changeDirtyState (activeTextEditor env) (tdc_document e) (tdc_isDirty e) doc
      (resetOrCancelIdle (activeTextEditor env) (tdc_isDirty e) doc
         (onObject (TrackedDocument.reset ReasonDocument) doc s0)).
Proof.
  intros Hscheme Hdoc. unfold onTextDocumentChanged, lookupOrAdd in *.
  rewrite Hscheme. cbn [String.eqb negb]. now rewrite Hdoc.
Qed.

Lemma fireDocumentDirtyStateChanged_frame ev s :
  let s' := fireDocumentDirtyStateChanged ev s in
  objects s' = objects s /\ _documentMap s' = _documentMap s
  /\ nextRef s' = nextRef s /\ now s' = now s
  /\ _dirtyIdleTriggerDelay s' = _dirtyIdleTriggerDelay s
  /\ detached s' = detached s /\ _disposable s' = _disposable s
  /\ suspended s' = suspended s.
Proof.
  unfold fireDocumentDirtyStateChanged.
  destruct (dsc_dirty ev); cbn; [destruct (0 <? _); cbn |]; tauto.
Qed.

Lemma fireDocumentDirtyStateChanged_dispatched ev s :
  dirtyStateDispatched ev s (fireDocumentDirtyStateChanged ev s).
Proof.
  unfold dirtyStateDispatched, fireDocumentDirtyStateChanged.
  destruct (dsc_dirty ev); cbn.
  - destruct (0 <? _); cbn; tauto.
  - split; [reflexivity |]. split; [reflexivity |].
    eexists. split; [reflexivity |]. cbn.
    destruct (_dirtyStateChangedDebounced s); reflexivity.
Qed.

(** ** The text-document-changed handler *)

Lemma onTextDocumentChanged_outcome env e s doc s0 o :
  scheme (uri (tdc_document e)) = DocumentSchemes.File ->
  lookupOrAdd (tdc_document e) s = (doc, s0) ->
  objects s0 !! doc = Some o ->
  dirtyStateOutcome env e s doc o (onTextDocumentChanged env e s).
Proof.
  intros Hscheme Hdoc Ho. unfold dirtyStateOutcome.
  destruct (lookupOrAdd_frame _ _ _ _ Hdoc)
    as (Hem & Him & Hcl & Hidle & Hdelay & _ & Hnow & _).
  rewrite (onTextDocumentChanged_unfold _ _ _ _ _ Hscheme Hdoc).
  set (s1 := onObject (TrackedDocument.reset ReasonDocument) doc s0).
  set (s2 := resetOrCancelIdle _ _ _ s1).
  destruct (resetOrCancelIdle_frame (activeTextEditor env) (tdc_isDirty e) doc s1)
    as (Hobj2 & _ & Hem2 & Him2 & Hcl2 & Hdelay2 & _ & Hnow2 & _).
  fold s2 in Hobj2, Hem2, Him2, Hcl2, Hdelay2, Hnow2.
  assert (Ho2 : objects s2 !! doc = Some (TrackedDocument.reset ReasonDocument o)).
  { rewrite Hobj2. subst s1. cbn. rewrite lookup_alter_eq, Ho. reflexivity. }
  unfold changeDirtyState. rewrite Ho2. cbn [TrackedDocument.reset
    TrackedDocument.forceDirtyStateChangeOnNextDocumentChange TrackedDocument.dirty].
  assert (Hno : noDirtyStateDispatch s s2).
  { unfold noDirtyStateDispatch. rewrite Hem2, Him2, Hcl2. subst s1. cbn. tauto. }
  destruct (negb _ && _).
  - split; [exact Hno |]. rewrite Ho2. reflexivity.
  - set (s4 := onObject (TrackedDocument.set_dirty _) doc _).
    assert (Ho4 : exists o', objects s4 !! doc = Some o'
       /\ TrackedDocument.forceDirtyStateChangeOnNextDocumentChange o' = false
       /\ TrackedDocument.dirty o' = tdc_isDirty e).
    { subst s4. cbn. rewrite !lookup_alter_eq, Ho2. cbn. eauto. }
    assert (Hno4 : noDirtyStateDispatch s s4) by exact Hno.
    assert (Hnow4 : now s4 = now s).
    { subst s4. cbn. rewrite Hnow2. subst s1. cbn. exact Hnow. }
    destruct (activeTextEditor env) as [ed |]; [| now split].
    destruct (bool_decide _); [| now split].
    destruct (fireDocumentDirtyStateChanged_frame
                {| dsc_editor := ed; dsc_document := doc;
                   dsc_dirty := tdc_isDirty e |} s4) as (Hobj5 & _).
    split; [rewrite Hobj5; exact Ho4 |].
    pose proof (fireDocumentDirtyStateChanged_dispatched
                  {| dsc_editor := ed; dsc_document := doc;
                     dsc_dirty := tdc_isDirty e |} s4) as Hd.
    destruct Hno4 as (He4 & Hi4 & Hc4).
    unfold dirtyStateDispatched in *. cbn [dsc_dirty] in *.
    destruct Hd as (Hd1 & Hd2). split; [congruence |].
    destruct (tdc_isDirty e).
    + destruct Hd2. split; congruence.
    + destruct Hd2 as (? & d & ? & ?). split; [congruence |].
      exists d. split; [assumption |]. congruence.
Qed.

(** C3. A text-document-changed event on a file-scheme document whose
    tracked document has no forced notification pending and whose stored
    dirty flag equals the buffer's fires, queues and schedules no
    dirty-state-changed event and leaves the stored flag as it is.
    Otherwise the force flag is cleared, the stored flag takes the buffer's
    value, and the event is handed to [fireDocumentDirtyStateChanged]
    exactly when the changed document is the active editor's. *)
Theorem onTextDocumentChanged_dirty_state env e s doc s0 o :
  scheme (uri (tdc_document e)) = DocumentSchemes.File ->
  lookupOrAdd (tdc_document e) s = (doc, s0) ->
  objects s0 !! doc = Some o ->
  let s' := onTextDocumentChanged env e s in
  let dirty := tdc_isDirty e in
  if negb (TrackedDocument.forceDirtyStateChangeOnNextDocumentChange o)
     && Bool.eqb (TrackedDocument.dirty o) dirty
  then
    noDirtyStateDispatch s s'
    /\ TrackedDocument.dirty <$> objects s' !! doc
       = Some (TrackedDocument.dirty o)
  else
    (exists o',
        objects s' !! doc = Some o'
        /\ TrackedDocument.forceDirtyStateChangeOnNextDocumentChange o' = false
        /\ TrackedDocument.dirty o' = dirty)
    /\ match activeTextEditor env with
       | Some ed =>
           if bool_decide (editor_document ed = tdc_document e)
           then dirtyStateDispatched
                  {| dsc_editor := ed; dsc_document := doc;
                     dsc_dirty := dirty |} s s'
           else noDirtyStateDispatch s s'
       | None => noDirtyStateDispatch s s'
       end.
Proof.
  intros Hscheme Hdoc Ho.
  exact (onTextDocumentChanged_outcome env e s doc s0 o Hscheme Hdoc Ho).
Qed.

Lemma onTextDocumentChanged_dirty_state_witness :
  let d := {| ident := 1; uri := {| scheme := "file"; fsPath := "/w/a.ts" |} |} in
  let ed := {| editor_id := 0; editor_document := d |} in
  let env := {| activeTextEditor := Some ed; delayAfterEdit := 5000;
                openTextDocument := fun _ => None;
                isTextEditor := fun _ => true;
                isDirty := fun _ => true; initializes := fun _ => true |} in
  let e := {| tdc_document := d; tdc_isDirty := true |} in
  dirtyStateDispatched
    {| dsc_editor := ed; dsc_document := 0%nat; dsc_dirty := true |}
    (construct env) (onTextDocumentChanged env e (construct env)).
Proof.
  intros d ed env e.
  exact (proj2 (onTextDocumentChanged_dirty_state env e (construct env)
                  0%nat (snd (addCore d (construct env)))
                  (TrackedDocument.new d "/w/a.ts" false)
                  eq_refl eq_refl eq_refl)).
Defined.

(** ** Calling a method on every value of the map *)

Lemma forEachValue_tracked (f : TrackedDocument.t -> TrackedDocument.t) s doc :
  (forall o, f (f o) = f o) ->
  tracked doc s ->
  objects (forEachValue f s) !! doc = f <$> objects s !! doc.
Proof.
  intros Hidem. unfold tracked, forEachValue. cbn.
  generalize (objects s) as os. intros os.
  apply (map_fold_weak_ind
           (fun (r : gmap DocRef TrackedDocument.t) (m : gmap Key DocRef) =>
              (forall d, r !! d = f <$> os !! d \/ r !! d = os !! d)
              /\ ((exists k, m !! k = Some doc) -> r !! doc = f <$> os !! doc))).
  - split; [auto |]. intros [k Hk]. rewrite lookup_empty in Hk. discriminate.
  - intros k d m r Hnone [IHall IH]. split.
    + intros d'. destruct (decide (d = d')) as [<- |].
      * rewrite lookup_alter_eq. left.
        destruct (IHall d) as [-> | ->]; [| reflexivity].
        destruct (os !! d); cbn; [now rewrite Hidem | reflexivity].
      * rewrite lookup_alter_ne by assumption. apply IHall.
    + intros [k' Hk']. destruct (decide (d = doc)) as [-> |].
      * rewrite lookup_alter_eq.
        destruct (IHall doc) as [-> | ->]; [| reflexivity].
        destruct (os !! doc); cbn; [now rewrite Hidem | reflexivity].
      * rewrite lookup_alter_ne by assumption. apply IH.
        destruct (decide (k = k')) as [<- |].
        -- rewrite lookup_insert_eq in Hk'. congruence.
        -- rewrite lookup_insert_ne in Hk' by assumption. eauto.
Qed.

Lemma forEachValue_untracked (f : TrackedDocument.t -> TrackedDocument.t) s doc :
  ~ tracked doc s ->
  objects (forEachValue f s) !! doc = objects s !! doc.
Proof.
  unfold tracked, forEachValue. cbn.
  generalize (objects s) as os. intros os.
  apply (map_fold_weak_ind
           (fun (r : gmap DocRef TrackedDocument.t) (m : gmap Key DocRef) =>
              ~ (exists k, m !! k = Some doc) -> r !! doc = os !! doc)).
  - reflexivity.
  - intros k d m r Hnone IH Hnot.
    destruct (decide (d = doc)) as [-> |].
    + exfalso. apply Hnot. exists k. apply lookup_insert_eq.
    + rewrite lookup_alter_ne by assumption. apply IH.
      intros [k' Hk']. apply Hnot. exists k'.
      rewrite lookup_insert_ne; [assumption |]. congruence.
Qed.

Lemma forEachValue_frame f s :
  let s' := forEachValue f s in
  _documentMap s' = _documentMap s /\ nextRef s' = nextRef s
  /\ emitted s' = emitted s /\ immediates s' = immediates s
  /\ _dirtyStateChangedDebounced s' = _dirtyStateChangedDebounced s
  /\ _dirtyIdleTriggeredDebounced s' = _dirtyIdleTriggeredDebounced s
  /\ _dirtyIdleTriggerDelay s' = _dirtyIdleTriggerDelay s
  /\ detached s' = detached s /\ now s' = now s
  /\ _disposable s' = _disposable s /\ suspended s' = suspended s.
Proof. cbn. tauto. Qed.

Lemma reset_idempotent reason o :
  TrackedDocument.reset reason (TrackedDocument.reset reason o)
  = TrackedDocument.reset reason o.
Proof. destruct reason; reflexivity. Qed.

(** ** The text-document-saved handler *)

(** C6. On a text-document-saved event for a tracked document the handler
    updates that document's cached state with the forced-blame-change flag
    and creates nothing, whatever the buffer's dirty flag is (the handler
    does not read it, and the stored flag stays).  For an untracked
    document a tracked document is created exactly when the saved document
    is the active editor's; otherwise the tracker is left as it is. *)
Theorem onTextDocumentSaved_cases env document s :
  let s' := onTextDocumentSaved env document s in
  match _documentMap s !! KDocument document with
  | Some doc =>
      nothingCreated s s'
      /\ (forall o, objects s !! doc = Some o ->
            exists o', objects s' !! doc = Some o'
                       /\ resetOf ReasonSaveForced o o')
      /\ (forall r, r <> doc -> objects s' !! r = objects s !! r)
  | None =>
      if isActiveDocument env document
      then createdFor document s s'
      else s' = s
  end.
Proof.
  unfold onTextDocumentSaved.
  destruct (_documentMap s !! KDocument document) as [doc |] eqn:Hdoc; cbn zeta.
  - split; [split; reflexivity |]. split.
    + intros o Ho. exists (TrackedDocument.update true o). cbn.
      rewrite lookup_alter_eq, Ho. split; [reflexivity |].
      unfold resetOf. cbn. tauto.
    + intros r Hr. cbn. now rewrite lookup_alter_ne.
  - destruct (isActiveDocument env document); [| reflexivity].
    unfold createdFor. cbn. split; [reflexivity |].
    split; [apply lookup_insert_eq |]. split.
    + rewrite lookup_insert_ne by discriminate. apply lookup_insert_eq.
    + apply lookup_insert_eq.
Qed.

(** ** The configuration-changed handler *)

(** C7. A configuration change that is not the initializing one and that
    touches the blame ignore-whitespace setting or the caching-enabled
    setting resets the cache of every tracked document with reason
    [config]; the reset leaves the dirty flag and every other field but the
    cached state as it was.  Any other configuration change leaves all
    tracked documents untouched.  The cache map itself is never written. *)
Theorem onConfigurationChanged_resets env e s :
  let s' := onConfigurationChanged env e s in
  _documentMap s' = _documentMap s
  /\ if negb (cfg_initializing e)
        && (cfg_changed e BlameIgnoreWhitespace
            || cfg_changed e AdvancedCachingEnabled)
     then forall doc o,
         tracked doc s -> objects s !! doc = Some o ->
         exists o', objects s' !! doc = Some o' /\ resetOf ReasonConfig o o'
     else objects s' = objects s.
Proof.
  unfold onConfigurationChanged. cbn zeta.
  destruct (negb (cfg_initializing e)
            && (cfg_changed e BlameIgnoreWhitespace
                || cfg_changed e AdvancedCachingEnabled)) eqn:Hb.
  - destruct (cfg_initializing e || cfg_changed e AdvancedBlameDelayAfterEdit);
      cbn; (split; [try (destruct (_dirtyIdleTriggeredDebounced s)); reflexivity |]);
      intros doc o Htracked Hobj;
      exists (TrackedDocument.reset ReasonConfig o);
      (split; [| unfold resetOf; cbn; tauto]).
    + pose proof (forEachValue_tracked (TrackedDocument.reset ReasonConfig) s doc
                    (reset_idempotent ReasonConfig) Htracked) as Hf.
      rewrite Hobj in Hf. cbn in Hf.
      destruct (_dirtyIdleTriggeredDebounced s); exact Hf.
    + pose proof (forEachValue_tracked (TrackedDocument.reset ReasonConfig) s doc
                    (reset_idempotent ReasonConfig) Htracked) as Hf.
      rewrite Hobj in Hf. exact Hf.
  - destruct (cfg_initializing e || cfg_changed e AdvancedBlameDelayAfterEdit);
      cbn; [destruct (_dirtyIdleTriggeredDebounced s) |]; cbn; tauto.
Qed.

Lemma onConfigurationChanged_idle env e s :
  cfg_initializing e || cfg_changed e AdvancedBlameDelayAfterEdit = true ->
  _dirtyIdleTriggeredDebounced (onConfigurationChanged env e s) = None
  /\ _dirtyIdleTriggerDelay (onConfigurationChanged env e s) = delayAfterEdit env.
Proof.
  intros H. unfold onConfigurationChanged. cbn zeta. rewrite H.
  destruct (negb _ && _); cbn;
    destruct (_dirtyIdleTriggeredDebounced s); cbn; tauto.
Qed.

(** C8 (amended). A configuration change that is the initial load or
    touches the idle-delay setting discards the stored idle debounce and
    stores the configured delay.  [dispose] empties the cache map and ends
    the subscriptions, and leaves both the stored idle debounce and the
    stored delay as they were. *)
Theorem idle_debounce_lifecycle env e s :
  cfg_initializing e || cfg_changed e AdvancedBlameDelayAfterEdit = true ->
  (_dirtyIdleTriggeredDebounced (onConfigurationChanged env e s) = None
   /\ _dirtyIdleTriggerDelay (onConfigurationChanged env e s)
      = delayAfterEdit env)
  /\ (_dirtyIdleTriggeredDebounced (dispose s) = _dirtyIdleTriggeredDebounced s
      /\ _dirtyIdleTriggerDelay (dispose s) = _dirtyIdleTriggerDelay s
      /\ _documentMap (dispose s) = ∅
      /\ _disposable (dispose s) = false).
Proof.
  intros H. split; [now apply onConfigurationChanged_idle |].
  cbn. tauto.
Qed.

(** ** Well-formedness is an invariant *)

Lemma objectsRel_refl (P : TrackedDocument.t -> TrackedDocument.t -> Prop) os :
  (forall o, P o o) -> objectsRel P os os.
Proof. intros HP doc. destruct (os !! doc); auto. Qed.

Lemma objectsRel_trans (P : TrackedDocument.t -> TrackedDocument.t -> Prop)
    os1 os2 os3 :
  (forall a b c, P a b -> P b c -> P a c) ->
  objectsRel P os1 os2 -> objectsRel P os2 os3 -> objectsRel P os1 os3.
Proof.
  intros HP H12 H23 doc. specialize (H12 doc). specialize (H23 doc).
  destruct (os1 !! doc), (os2 !! doc), (os3 !! doc); try tauto. eauto.
Qed.

Lemma objectsRel_weaken (P Q : TrackedDocument.t -> TrackedDocument.t -> Prop)
    os os' :
  (forall o o', P o o' -> Q o o') -> objectsRel P os os' -> objectsRel Q os os'.
Proof.
  intros HPQ H doc. specialize (H doc).
  destruct (os !! doc), (os' !! doc); auto.
Qed.

Lemma objectsRel_alter (P : TrackedDocument.t -> TrackedDocument.t -> Prop)
    f r os os' :
  (forall o o', P o o' -> P o (f o')) ->
  objectsRel P os os' -> objectsRel P os (alter f r os').
Proof.
  intros Hf H doc. specialize (H doc). destruct (decide (r = doc)) as [-> |].
  - rewrite lookup_alter_eq.
    destruct (os !! doc), (os' !! doc); cbn; auto.
  - now rewrite lookup_alter_ne.
Qed.

Lemma dirtyKept_refl o : dirtyKept o o.
Proof. unfold dirtyKept, identityKept. tauto. Qed.

Lemma dirtyKept_trans a b c : dirtyKept a b -> dirtyKept b c -> dirtyKept a c.
Proof. unfold dirtyKept, identityKept. intuition congruence. Qed.

Lemma identityKept_refl o : identityKept o o.
Proof. unfold identityKept. tauto. Qed.

Lemma identityKept_trans a b c :
  identityKept a b -> identityKept b c -> identityKept a c.
Proof. unfold identityKept. intuition congruence. Qed.

Lemma forEachValue_cases (f : TrackedDocument.t -> TrackedDocument.t) s doc :
  (forall o, f (f o) = f o) ->
  objects (forEachValue f s) !! doc = f <$> objects s !! doc
  \/ objects (forEachValue f s) !! doc = objects s !! doc.
Proof.
  intros Hidem. unfold forEachValue. cbn.
  generalize (objects s) as os. intros os.
  apply (map_fold_weak_ind
           (fun (r : gmap DocRef TrackedDocument.t) (m : gmap Key DocRef) =>
              r !! doc = f <$> os !! doc \/ r !! doc = os !! doc)).
  - auto.
  - intros k d m r _ IH. destruct (decide (d = doc)) as [-> |].
    + rewrite lookup_alter_eq. left. destruct IH as [-> | ->]; [| reflexivity].
      destruct (os !! doc); cbn; [now rewrite Hidem | reflexivity].
    + now rewrite lookup_alter_ne.
Qed.

Lemma objectsRel_forEachValue
    (P : TrackedDocument.t -> TrackedDocument.t -> Prop) f s :
  (forall o, f (f o) = f o) ->
  (forall o, P o o) -> (forall o, P o (f o)) ->
  objectsRel P (objects s) (objects (forEachValue f s)).
Proof.
  intros Hidem Hrefl Hf doc.
  destruct (forEachValue_cases f s doc Hidem) as [-> | ->];
    destruct (objects s !! doc); cbn; auto.
Qed.

Lemma wf_blank : wellFormed blank.
Proof.
  unfold wellFormed, blank. cbn.
  split; [| split]; intros ? ? H; rewrite lookup_empty in H; discriminate.
Qed.

Lemma wf_kept s s' :
  _documentMap s' = _documentMap s -> nextRef s' = nextRef s ->
  objectsRel identityKept (objects s) (objects s') ->
  wellFormed s -> wellFormed s'.
Proof.
  intros Hmap Hnext Hrel (W1 & W2 & W3). unfold wellFormed, objectsRel in *.
  rewrite Hmap, Hnext. repeat split.
  - specialize (Hrel doc). rewrite H in Hrel.
    destruct (objects s !! doc) as [o0 |] eqn:Ho0; [| tauto].
    now destruct (W1 _ _ Ho0).
  - specialize (Hrel doc). rewrite H in Hrel.
    destruct (objects s !! doc) as [o0 |] eqn:Ho0; [| tauto].
    destruct (W1 _ _ Ho0) as [_ Hk]. destruct Hrel as [Hd Hkey]. congruence.
  - intros d doc Hd. destruct (W2 _ _ Hd) as (o & Ho & Hdoc).
    specialize (Hrel doc). rewrite Ho in Hrel.
    destruct (objects s' !! doc) as [o' |]; [| tauto].
    exists o'. destruct Hrel. split; congruence.
  - intros k doc Hk. destruct (W3 _ _ Hk) as (o & Ho & Hkey & Hd).
    specialize (Hrel doc). rewrite Ho in Hrel.
    destruct (objects s' !! doc) as [o' |]; [| tauto].
    exists o'. destruct Hrel as [Hdoc' Hkey']. rewrite Hdoc'.
    repeat split; congruence.
Qed.

Lemma wf_addCore document s :
  wellFormed s -> wellFormed (snd (addCore document s)).
Proof.
  intros (W1 & W2 & W3). unfold wellFormed. cbn.
  assert (Hfresh : objects s !! nextRef s = None).
  { destruct (objects s !! nextRef s) eqn:E; [| reflexivity].
    destruct (W1 _ _ E). lia. }
  repeat split.
  - destruct (decide (nextRef s = doc)) as [<- | Hne]; [lia |].
    rewrite lookup_insert_ne in H by assumption. destruct (W1 _ _ H). lia.
  - destruct (decide (nextRef s = doc)) as [<- | Hne].
    + rewrite lookup_insert_eq in H. now injection H as <-.
    + rewrite lookup_insert_ne in H by assumption. now destruct (W1 _ _ H).
  - intros d doc Hd. rewrite lookup_insert_ne in Hd by discriminate.
    destruct (decide (document = d)) as [<- | Hne].
    + rewrite lookup_insert_eq in Hd. injection Hd as <-.
      rewrite lookup_insert_eq. eauto.
    + rewrite lookup_insert_ne in Hd by congruence.
      destruct (W2 _ _ Hd) as (o & Ho & Hdoc). exists o.
      rewrite lookup_insert_ne; [auto |]. intros <-. congruence.
  - intros k doc.
    destruct (decide (toStateKey (FileUri (uri document)) = k)) as [<- | Hne].
    + intros Hk. rewrite lookup_insert_eq in Hk. injection Hk as <-.
      rewrite lookup_insert_eq.
      eexists. split; [reflexivity |]. cbn. split; [reflexivity |].
      rewrite lookup_insert_ne by discriminate. apply lookup_insert_eq.
    + intros Hk. rewrite lookup_insert_ne in Hk by congruence.
      rewrite lookup_insert_ne in Hk by discriminate.
      destruct (W3 _ _ Hk) as (o & Ho & Hkey & Hd). exists o.
      assert (doc <> nextRef s) by (intros ->; congruence).
      rewrite lookup_insert_ne by congruence.
      repeat split; try assumption.
      rewrite lookup_insert_ne by discriminate.
      rewrite lookup_insert_ne; [assumption |].
      intros Heq. apply Hne. destruct (W1 _ _ Ho) as [_ Hko]. congruence.
Qed.

(** ** Steps that only call methods of tracked documents *)

Lemma methodsOnly_refl s : methodsOnly s s.
Proof.
  repeat split. apply objectsRel_refl, dirtyKept_refl.
Qed.

Lemma methodsOnly_trans s1 s2 s3 :
  methodsOnly s1 s2 -> methodsOnly s2 s3 -> methodsOnly s1 s3.
Proof.
  intros (Hm1 & Hn1 & Ho1) (Hm2 & Hn2 & Ho2). repeat split; try congruence.
  eapply objectsRel_trans; eauto using dirtyKept_trans.
Qed.

Lemma dirtyKept_step (f : TrackedDocument.t -> TrackedDocument.t) :
  (forall o, dirtyKept o (f o)) -> forall o o', dirtyKept o o' -> dirtyKept o (f o').
Proof. intros Hf o o' H. eapply dirtyKept_trans; eauto. Qed.

Lemma dirtyKept_reset reason o : dirtyKept o (TrackedDocument.reset reason o).
Proof. repeat split. Qed.
Lemma dirtyKept_update b o : dirtyKept o (TrackedDocument.update b o).
Proof. destruct b; repeat split. Qed.
Lemma dirtyKept_activate o : dirtyKept o (TrackedDocument.activate o).
Proof. repeat split. Qed.
Lemma dirtyKept_ensureInitialized b o :
  dirtyKept o (TrackedDocument.ensureInitialized b o).
Proof.
  unfold TrackedDocument.ensureInitialized.
  destruct (TrackedDocument.initialized o); repeat split.
Qed.
Lemma dirtyKept_initialize env o : dirtyKept o (initialize env o).
Proof. apply dirtyKept_ensureInitialized. Qed.
Lemma dirtyKept_dispose o : dirtyKept o (TrackedDocument.dispose o).
Proof. repeat split. Qed.
Lemma dirtyKept_set_isDirtyIdle b o :
  dirtyKept o (TrackedDocument.set_isDirtyIdle b o).
Proof. repeat split. Qed.
Lemma dirtyKept_setForce o :
  dirtyKept o (TrackedDocument.setForceDirtyStateChangeOnNextDocumentChange o).
Proof. repeat split. Qed.
Lemma dirtyKept_resetForce o :
  dirtyKept o (TrackedDocument.resetForceDirtyStateChangeOnNextDocumentChange o).
Proof. repeat split. Qed.

Create HintDb kept.
#[local] Hint Resolve dirtyKept_reset dirtyKept_update dirtyKept_activate
  dirtyKept_ensureInitialized dirtyKept_initialize dirtyKept_dispose
  dirtyKept_set_isDirtyIdle dirtyKept_setForce dirtyKept_resetForce
  dirtyKept_refl : kept.

(** Closes [methodsOnly s s'] when [s'] is [s] with methods applied to
    some of its objects and other fields than the map and the counter
    written. *)
Ltac methods_only :=
  unfold methodsOnly; cbn;
  split; [reflexivity | split; [reflexivity |]];
  repeat (apply objectsRel_alter; [apply dirtyKept_step; auto with kept |]);
  apply objectsRel_refl, dirtyKept_refl.

Lemma methodsOnly_onObject f r s :
  (forall o, dirtyKept o (f o)) -> methodsOnly s (onObject f r s).
Proof.
  intros Hf. unfold methodsOnly. cbn. repeat split.
  apply objectsRel_alter; [now apply dirtyKept_step |].
  apply objectsRel_refl, dirtyKept_refl.
Qed.

Lemma methodsOnly_forEachValue f s :
  (forall o, f (f o) = f o) -> (forall o, dirtyKept o (f o)) ->
  methodsOnly s (forEachValue f s).
Proof.
  intros Hidem Hf. repeat split.
  apply objectsRel_forEachValue; auto using dirtyKept_refl.
Qed.

Lemma methodsOnly_fireDocumentDirtyStateChanged ev s :
  methodsOnly s (fireDocumentDirtyStateChanged ev s).
Proof.
  unfold fireDocumentDirtyStateChanged.
  destruct (dsc_dirty ev); cbn; [destruct (0 <? _) |]; methods_only.
Qed.

Lemma methodsOnly_resetOrCancelIdle editor dirty doc s :
  methodsOnly s (resetOrCancelIdle editor dirty doc s).
Proof.
  unfold resetOrCancelIdle.
  destruct (_dirtyIdleTriggeredDebounced s); [destruct dirty |]; methods_only.
Qed.

Lemma methodsOnly_dirtyIdleCallback e s :
  methodsOnly s (dirtyIdleCallback e s).
Proof.
  unfold dirtyIdleCallback.
  destruct (match _dirtyIdleTriggeredDebounced s with
            | Some d => Deferrable.pending d | None => false end);
    methods_only.
Qed.

Lemma methodsOnly_fireDirtyIdle s : methodsOnly s (fireDirtyIdle s).
Proof.
  unfold fireDirtyIdle.
  destruct (_dirtyIdleTriggeredDebounced s) as [d |]; [| apply methodsOnly_refl].
  destruct (Deferrable.due (now s) d); [| apply methodsOnly_refl].
  eapply methodsOnly_trans; [| apply methodsOnly_dirtyIdleCallback].
  methods_only.
Qed.

Lemma methodsOnly_fireDetached i s : methodsOnly s (fireDetached i s).
Proof.
  unfold fireDetached.
  destruct (detached s !! i) as [d |]; [| apply methodsOnly_refl].
  destruct (Deferrable.due (now s) d); [| apply methodsOnly_refl].
  eapply methodsOnly_trans; [| apply methodsOnly_dirtyIdleCallback].
  methods_only.
Qed.

Lemma methodsOnly_resumeContinuation env i s :
  methodsOnly s (resumeContinuation env i s).
Proof.
  unfold resumeContinuation.
  destruct (suspended s !! i) as [k |]; [| apply methodsOnly_refl].
  cbn zeta. destruct (initializes env (awaited k)); [| methods_only].
  destruct k; methods_only.
Qed.

Lemma methodsOnly_fireDirtyStateChanged env s :
  methodsOnly s (fireDirtyStateChanged env s).
Proof.
  unfold fireDirtyStateChanged, dirtyStateChangedCallback.
  destruct (_dirtyStateChangedDebounced s) as [d |]; [| apply methodsOnly_refl].
  destruct (Deferrable.due (now s) d); [| apply methodsOnly_refl].
  destruct (bool_decide _); methods_only.
Qed.

Lemma methodsOnly_runImmediate env s : methodsOnly s (runImmediate env s).
Proof.
  unfold runImmediate, runDirtyImmediate.
  destruct (immediates s) as [| e rest]; [apply methodsOnly_refl |].
  cbn. destruct (_dirtyStateChangedDebounced s); cbn;
    destruct (bool_decide _); methods_only.
Qed.

Lemma methodsOnly_onConfigurationChanged env e s :
  methodsOnly s (onConfigurationChanged env e s).
Proof.
  unfold onConfigurationChanged. cbn zeta.
  assert (Htail : forall s1, methodsOnly s s1 ->
            methodsOnly s
              (if cfg_initializing e || cfg_changed e AdvancedBlameDelayAfterEdit
               then set_dirtyIdleTriggeredDebounced None
                      match _dirtyIdleTriggeredDebounced
                              (set_dirtyIdleTriggerDelay (delayAfterEdit env) s1) with
                      | Some d =>
                          set_detached
                            (detached (set_dirtyIdleTriggerDelay
                                         (delayAfterEdit env) s1) ++ [d])
                            (set_dirtyIdleTriggerDelay (delayAfterEdit env) s1)
                      | None => set_dirtyIdleTriggerDelay (delayAfterEdit env) s1
                      end
               else s1)).
  { intros s1 H1. eapply methodsOnly_trans; [exact H1 |].
    destruct (cfg_initializing e || _); [| apply methodsOnly_refl].
    cbn. destruct (_dirtyIdleTriggeredDebounced s1); methods_only. }
  apply Htail. destruct (negb _ && _); [| apply methodsOnly_refl].
  apply methodsOnly_forEachValue; auto using reset_idempotent, dirtyKept_reset.
Qed.

Lemma wf_methodsOnly s s' : methodsOnly s s' -> wellFormed s -> wellFormed s'.
Proof.
  intros (Hm & Hn & Ho). apply wf_kept; try assumption.
  eapply objectsRel_weaken; [| exact Ho]. now intros o o' [H _].
Qed.

Lemma wf_fields s s' :
  _documentMap s' = _documentMap s -> objects s' = objects s ->
  nextRef s' = nextRef s -> wellFormed s -> wellFormed s'.
Proof.
  intros Hm Ho Hn. apply wf_kept; try assumption.
  rewrite Ho. apply objectsRel_refl, identityKept_refl.
Qed.

(** ** Closing, clearing and editing keep trackers well-formed *)

Lemma onTextDocumentClosed_tracked document s doc o :
  _documentMap s !! KDocument document = Some doc ->
  objects s !! doc = Some o ->
  onTextDocumentClosed document s
  = set_documentMap
      (delete (KString (TrackedDocument.key o))
              (delete (KDocument document) (_documentMap s)))
      (onObject TrackedDocument.dispose doc s).
Proof.
  intros Hdoc Ho. unfold onTextDocumentClosed. rewrite Hdoc. cbn.
  rewrite lookup_alter_eq, Ho. reflexivity.
Qed.

Lemma wf_delete_both document doc o s :
  wellFormed s ->
  _documentMap s !! KDocument document = Some doc ->
  objects s !! doc = Some o ->
  wellFormed
    (set_documentMap
       (delete (KString (TrackedDocument.key o))
               (delete (KDocument document) (_documentMap s))) s).
Proof.
  intros (W1 & W2 & W3) Hdoc Ho. unfold wellFormed. cbn.
  split; [exact W1 |]. split.
  - intros d doc' Hd.
    apply lookup_delete_Some in Hd as [_ Hd].
    apply lookup_delete_Some in Hd as [_ Hd]. eauto.
  - intros k doc' Hk.
    apply lookup_delete_Some in Hk as [Hne Hk].
    apply lookup_delete_Some in Hk as [_ Hk].
    destruct (W3 _ _ Hk) as (o' & Ho' & Hkey & Hd). exists o'.
    repeat split; try assumption.
    rewrite lookup_delete_ne by discriminate.
    rewrite lookup_delete_ne; [assumption |].
    intros [= Heq]. rewrite <- Heq in Hd. congruence.
Qed.

Lemma wf_onTextDocumentClosed document s :
  wellFormed s -> wellFormed (onTextDocumentClosed document s).
Proof.
  intros W.
  destruct (_documentMap s !! KDocument document) as [doc |] eqn:Hdoc.
  - destruct W as (W1 & W2 & W3).
    destruct (W2 _ _ Hdoc) as (o & Ho & _).
    rewrite (onTextDocumentClosed_tracked _ _ _ _ Hdoc Ho).
    set (s1 := onObject TrackedDocument.dispose doc s).
    assert (W' : wellFormed s1).
    { eapply wf_methodsOnly; [| exact (conj W1 (conj W2 W3))].
      apply methodsOnly_onObject, dirtyKept_dispose. }
    assert (Ho1 : objects s1 !! doc = Some (TrackedDocument.dispose o)).
    { subst s1. cbn. now rewrite lookup_alter_eq, Ho. }
    exact (wf_delete_both document doc _ s1 W' Hdoc Ho1).
  - unfold onTextDocumentClosed. now rewrite Hdoc.
Qed.

Lemma wf_clear s : wellFormed s -> wellFormed (clear s).
Proof.
  intros W. unfold clear.
  assert (W1 : wellFormed (forEachValue TrackedDocument.dispose s)).
  { eapply wf_methodsOnly; [| exact W].
    apply methodsOnly_forEachValue; auto using dirtyKept_dispose. }
  destruct W1 as (W1 & _ & _). unfold wellFormed.
  split; [exact W1 |]. cbn.
  split; intros ? ? H; rewrite lookup_empty in H; discriminate.
Qed.

Lemma wf_lookupOrAdd document s doc s0 :
  lookupOrAdd document s = (doc, s0) -> wellFormed s ->
  wellFormed s0
  /\ _documentMap s0 !! KDocument document = Some doc
  /\ exists o, objects s0 !! doc = Some o
               /\ TrackedDocument.document o = document.
Proof.
  unfold lookupOrAdd. intros H W.
  destruct (_documentMap s !! KDocument document) as [doc' |] eqn:Hdoc.
  - injection H as <- <-. split; [exact W |]. split; [exact Hdoc |].
    destruct W as (_ & W2 & _). exact (W2 _ _ Hdoc).
  - assert (E : doc = fst (addCore document s) /\ s0 = snd (addCore document s))
      by (rewrite H; auto).
    destruct E as [-> ->]. split; [now apply wf_addCore |]. split.
    + cbn. rewrite lookup_insert_ne by discriminate. apply lookup_insert_eq.
    + rewrite addCore_fresh_object. eauto.
Qed.

Lemma changeDirtyState_frame editor document dirty doc s :
  let s' := changeDirtyState editor document dirty doc s in
  _documentMap s' = _documentMap s /\ nextRef s' = nextRef s
  /\ objectsRel identityKept (objects s) (objects s')
  /\ (forall r, r <> doc -> objects s' !! r = objects s !! r)
  /\ _disposable s' = _disposable s.
Proof.
  unfold changeDirtyState.
  destruct (objects s !! doc) as [o |] eqn:Ho.
  2: { cbn. repeat split; auto. apply objectsRel_refl, identityKept_refl. }
  destruct (negb _ && _).
  { cbn. repeat split; auto. apply objectsRel_refl, identityKept_refl. }
  cbn zeta.
  set (s2 := onObject (TrackedDocument.set_dirty dirty) doc _).
  assert (H2 : _documentMap s2 = _documentMap s /\ nextRef s2 = nextRef s
               /\ objectsRel identityKept (objects s) (objects s2)
               /\ (forall r, r <> doc -> objects s2 !! r = objects s !! r)
               /\ _disposable s2 = _disposable s).
  { subst s2. cbn. repeat split.
    - repeat (apply objectsRel_alter;
              [intros a b [Hd Hk]; split; cbn; assumption |]).
      apply objectsRel_refl, identityKept_refl.
    - intros r Hr. now rewrite !lookup_alter_ne by congruence. }
  destruct editor as [ed |]; [| exact H2].
  destruct (bool_decide _); [| exact H2].
  destruct (fireDocumentDirtyStateChanged_frame
              {| dsc_editor := ed; dsc_document := doc; dsc_dirty := dirty |} s2)
    as (Ho' & Hm' & Hn' & _ & _ & _ & Hd' & _).
  rewrite Ho', Hm', Hn', Hd'. exact H2.
Qed.

Lemma changed_tail_frame editor document dirty doc s0 :
  let s' := changeDirtyState editor document dirty doc
              (resetOrCancelIdle editor dirty doc
                 (onObject (TrackedDocument.reset ReasonDocument) doc s0)) in
  _documentMap s' = _documentMap s0 /\ nextRef s' = nextRef s0
  /\ objectsRel identityKept (objects s0) (objects s')
  /\ (forall r, r <> doc -> objects s' !! r = objects s0 !! r).
Proof.
  cbn zeta.
  set (s1 := onObject _ doc s0). set (s2 := resetOrCancelIdle _ _ _ s1).
  destruct (changeDirtyState_frame editor document dirty doc s2)
    as (Hm & Hn & Ho & Hother & _).
  destruct (resetOrCancelIdle_frame editor dirty doc s1)
    as (Ho2 & Hm2 & _ & _ & _ & _ & _ & _ & Hn2 & _).
  fold s2 in Ho2, Hm2, Hn2.
  rewrite Hm, Hn, Hm2, Hn2. split; [reflexivity |]. split; [reflexivity |].
  split.
  - eapply objectsRel_trans; [apply identityKept_trans | | exact Ho].
    rewrite Ho2. subst s1. cbn.
    apply objectsRel_alter; [| apply objectsRel_refl, identityKept_refl].
    intros a b [Hd Hk]. split; cbn; assumption.
  - intros r Hr. rewrite Hother, Ho2 by assumption. subst s1. cbn.
    now rewrite lookup_alter_ne by congruence.
Qed.

Lemma wf_onTextDocumentChanged env e s :
  wellFormed s -> wellFormed (onTextDocumentChanged env e s).
Proof.
  intros W.
  destruct (String.eqb (scheme (uri (tdc_document e))) DocumentSchemes.File)
    eqn:Hscheme.
  - apply String.eqb_eq in Hscheme.
    destruct (lookupOrAdd (tdc_document e) s) as [doc s0] eqn:Hdoc.
    rewrite (onTextDocumentChanged_unfold _ _ _ _ _ Hscheme Hdoc).
    destruct (wf_lookupOrAdd _ _ _ _ Hdoc W) as (W0 & _).
    destruct (changed_tail_frame (activeTextEditor env) (tdc_document e)
                (tdc_isDirty e) doc s0) as (Hm & Hn & Ho & _).
    exact (wf_kept _ _ Hm Hn Ho W0).
  - unfold onTextDocumentChanged. now rewrite Hscheme.
Qed.

Lemma wf_onActiveTextEditorChanged env editor s :
  wellFormed s -> wellFormed (onActiveTextEditorChanged env editor s).
Proof.
  intros W. unfold onActiveTextEditorChanged.
  destruct editor as [ed |]; [| exact W].
  destruct (negb _); [exact W |].
  destruct (_documentMap s !! _).
  - eapply wf_methodsOnly; [| exact W].
    apply methodsOnly_onObject, dirtyKept_activate.
  - now apply wf_addCore.
Qed.

Lemma wf_onTextDocumentSaved env document s :
  wellFormed s -> wellFormed (onTextDocumentSaved env document s).
Proof.
  intros W. unfold onTextDocumentSaved. destruct (_documentMap s !! _).
  - eapply wf_methodsOnly; [| exact W].
    apply methodsOnly_onObject, dirtyKept_update.
  - destruct (isActiveDocument env document); [now apply wf_addCore | exact W].
Qed.

Lemma wf_fireActiveTextEditorChanged env s :
  wellFormed s -> wellFormed (fireActiveTextEditorChanged env s).
Proof.
  intros W. unfold fireActiveTextEditorChanged. cbn zeta.
  destruct (Deferrable.due _ _); [| exact W].
  apply wf_onActiveTextEditorChanged.
  eapply wf_fields; [| | | exact W]; reflexivity.
Qed.

Lemma wf_fireTextDocumentChanged env s :
  wellFormed s -> wellFormed (fireTextDocumentChanged env s).
Proof.
  intros W. unfold fireTextDocumentChanged. cbn zeta.
  destruct (Deferrable.due _ _); [| exact W].
  apply wf_onTextDocumentChanged.
  eapply wf_fields; [| | | exact W]; reflexivity.
Qed.

Lemma wf_step env i s : wellFormed s -> wellFormed (step env i s).
Proof.
  intros W. destruct i; cbn [step]; unfold subscribed;
    try (destruct (_disposable s); [| exact W]).
  - eapply wf_methodsOnly; [apply methodsOnly_onConfigurationChanged | exact W].
  - eapply wf_fields; [| | | exact W]; reflexivity.
  - eapply wf_fields; [| | | exact W]; reflexivity.
  - now apply wf_onTextDocumentClosed.
  - now apply wf_onTextDocumentSaved.
  - now apply wf_addCore.
  - eapply wf_methodsOnly; [| exact W].
    apply methodsOnly_onObject, dirtyKept_initialize.
  - eapply wf_methodsOnly; [| exact W].
    apply methodsOnly_onObject, dirtyKept_setForce.
  - eapply wf_fields; [| | | exact W]; reflexivity.
  - now apply wf_clear.
  - unfold dispose. apply wf_clear.
    eapply wf_fields; [| | | exact W]; reflexivity.
  - now apply wf_fireActiveTextEditorChanged.
  - now apply wf_fireTextDocumentChanged.
  - eapply wf_methodsOnly; [apply methodsOnly_runImmediate | exact W].
  - eapply wf_methodsOnly; [apply methodsOnly_fireDirtyIdle | exact W].
  - eapply wf_methodsOnly; [apply methodsOnly_fireDetached | exact W].
  - eapply wf_methodsOnly; [apply methodsOnly_fireDirtyStateChanged | exact W].
  - eapply wf_methodsOnly; [apply methodsOnly_resumeContinuation | exact W].
  - eapply wf_fields; [| | | exact W]; reflexivity.
Qed.

Lemma wf_run trace s : wellFormed s -> wellFormed (run trace s).
Proof.
  revert s. induction trace as [| [env i] trace IH]; intros s W; cbn; [exact W |].
  apply IH, wf_step, W.
Qed.

Lemma wf_construct env : wellFormed (construct env).
Proof.
  eapply wf_methodsOnly; [apply methodsOnly_onConfigurationChanged |].
  apply wf_blank.
Qed.
(** ** The two keys of a tracked document *)




Lemma addCore_createdFor d s : createdFor d s (snd (addCore d s)).
Proof.
  unfold createdFor. cbn. split; [reflexivity |].
  split; [apply lookup_insert_eq |]. split.
  - rewrite lookup_insert_ne by discriminate. apply lookup_insert_eq.
  - apply lookup_insert_eq.
Qed.


(** *** Runs in which no two documents share a state key *)

















(** ** The stored dirty flag before the first change event *)












(** ** From the queued task to the fired event *)



Lemma resumeContinuation_last env s l k :
  suspended s = l ++ [k] ->
  let s' := resumeContinuation env (length l) s in
  suspended s' = l
  /\ emitted s'
     = emitted s
       ++ (if initializes env (awaited k)
           then [match k with
                 | FireDirtyStateChanged e => DirtyStateChanged e
                 | TriggerDirtyIdle e => DirtyIdleTriggered e
                 end]
           else []).
Proof.
  intros Hs. unfold resumeContinuation. rewrite Hs.
  rewrite lookup_app_r by lia. rewrite Nat.sub_diag. cbn [lookup list_lookup].
  cbn zeta.
  assert (Hdel : delete (length l) (l ++ [k]) = l).
  { clear. induction l as [| x l IH]; cbn; [reflexivity | now f_equal]. }
  rewrite Hdel.
  destruct (initializes env (awaited k)); [| cbn; now rewrite app_nil_r].
  destruct k; cbn; auto.
Qed.

(** ** The idle debounce *)

(** Case analysis on every [match] and [if] of the goal. *)
Ltac break_matches :=
  repeat (match goal with
          | |- context [match ?x with _ => _ end] => destruct x eqn:?
          | |- context [if ?x then _ else _] => destruct x eqn:?
          end; cbn in *; simplify_eq).

Ltac unfold_handlers :=
  unfold subscribed, fireActiveTextEditorChanged, onConfigurationChanged,
    onActiveTextEditorChanged,
    onTextDocumentChanged, onTextDocumentClosed, onTextDocumentSaved,
    changeDirtyState, resetOrCancelIdle, fireDocumentDirtyStateChanged,
    clear, dispose, runImmediate, runDirtyImmediate, fireDirtyIdle,
    fireDetached, fireDirtyStateChanged, dirtyIdleCallback,
    dirtyStateChangedCallback, resumeContinuation,
    onDidChangeActiveTextEditor, onDidChangeTextDocument,
    onDidBlameStateChange, suspend, fire, addCore, onObject, forEachValue.

Lemma now_onTextDocumentChanged env e s :
  now (onTextDocumentChanged env e s) = now s.
Proof.
  destruct (String.eqb (scheme (uri (tdc_document e))) DocumentSchemes.File)
    eqn:Hscheme.
  2: { unfold onTextDocumentChanged. now rewrite Hscheme. }
  apply String.eqb_eq in Hscheme.
  destruct (lookupOrAdd (tdc_document e) s) as [doc s0] eqn:Hdoc.
  rewrite (onTextDocumentChanged_unfold _ _ _ _ _ Hscheme Hdoc).
  destruct (lookupOrAdd_frame _ _ _ _ Hdoc) as (_ & _ & _ & _ & _ & _ & <- & _).
  unfold changeDirtyState, resetOrCancelIdle, fireDocumentDirtyStateChanged,
    onObject.
  cbn. break_matches; reflexivity.
Qed.

Lemma now_step env i s : now s <= now (step env i s) <= now s + 1.
Proof.
  destruct i; cbn [step];
    try (unfold fireTextDocumentChanged; cbn zeta;
         destruct (Deferrable.due _ _); [| lia];
         rewrite now_onTextDocumentChanged; cbn; lia);
    unfold_handlers; cbn; break_matches; cbn; lia.
Qed.

Lemma now_run trace s : now s <= now (run trace s).
Proof.
  revert s. induction trace as [| [env i] trace IH]; intros s; cbn; [lia |].
  specialize (IH (step env i s)). pose proof (now_step env i s). lia.
Qed.

Lemma idleTriggers_app l1 l2 :
  idleTriggers (l1 ++ l2) = idleTriggers l1 ++ idleTriggers l2.
Proof. apply omap_app. Qed.

Lemma idleSuspended_suspend k s :
  idleSuspended (suspend k s)
  = idleSuspended s
    ++ match k with TriggerDirtyIdle e => [e] | FireDirtyStateChanged _ => [] end.
Proof.
  unfold idleSuspended, suspend. cbn. rewrite omap_app. now destruct k.
Qed.

(** *** The waits of the debounced functions *)

Lemma debounceWaits_onTextDocumentChanged env e s :
  debounceWaits s -> debounceWaits (onTextDocumentChanged env e s).
Proof.
  intros [Hidle Hclean]. unfold debounceWaits in *.
  destruct (String.eqb (scheme (uri (tdc_document e))) DocumentSchemes.File)
    eqn:Hscheme.
  2: { unfold onTextDocumentChanged. rewrite Hscheme. auto. }
  apply String.eqb_eq in Hscheme.
  destruct (lookupOrAdd (tdc_document e) s) as [doc s0] eqn:Hdoc.
  rewrite (onTextDocumentChanged_unfold _ _ _ _ _ Hscheme Hdoc).
  destruct (lookupOrAdd_frame _ _ _ _ Hdoc)
    as (_ & _ & Hc0 & Hi0 & Hd0 & _).
  rewrite <- Hi0, <- Hd0 in Hidle. rewrite <- Hc0 in Hclean.
  clear Hc0 Hi0 Hd0 Hdoc.
  unfold changeDirtyState, resetOrCancelIdle,
    fireDocumentDirtyStateChanged, onObject.
  cbn. break_matches; cbn; split; intros d' Hd';
    try (injection Hd' as <-); cbn;
    try (destruct (Hidle _ ltac:(eassumption)); split; assumption);
    try (apply Hclean; assumption);
    try (eapply Hidle; congruence);
    try (eapply Hclean; congruence);
    try discriminate; try (split; [reflexivity | lia]); try reflexivity.
Qed.

Lemma debounceWaits_step env i s :
  debounceWaits s -> debounceWaits (step env i s).
Proof.
  intros H. destruct i; cbn [step];
    try (unfold fireTextDocumentChanged; cbn zeta;
         destruct (Deferrable.due _ _); [| exact H];
         apply debounceWaits_onTextDocumentChanged; exact H).
  all: destruct H as [Hidle Hclean]; unfold debounceWaits in *;
    unfold_handlers; cbn; break_matches; cbn; split; intros d' Hd';
    try (injection Hd' as <-); cbn;
    try (destruct (Hidle _ ltac:(eassumption)); split; assumption);
    try (apply Hclean; assumption);
    try (eapply Hidle; congruence);
    try (eapply Hclean; congruence);
    try discriminate; try (split; [reflexivity | lia]); try reflexivity.
Qed.

Lemma debounceWaits_run trace s :
  debounceWaits s -> debounceWaits (run trace s).
Proof.
  revert s. induction trace as [| [env i] trace IH]; intros s H; cbn; [exact H |].
  apply IH, debounceWaits_step, H.
Qed.

Lemma debounceWaits_construct env : debounceWaits (construct env).
Proof. split; intros d; cbn; discriminate. Qed.

(** *** A quiet period *)

Lemma idleQuiet_refl s : idleQuiet s s.
Proof. repeat split. Qed.

(** With a call of the idle debounce pending and not yet due, every input
    but a run of the change handler, a change of the delay setting and
    the resumption of a suspended callback is quiet about idleness. *)
Lemma quiet_step_frame env i s d deadline payload :
  keepsIdleDebounce i = true ->
  (forall k, i <> ContinuationResumed k) ->
  _dirtyIdleTriggeredDebounced s = Some d ->
  Deferrable.pendingCall d = Some (deadline, payload) ->
  now s < deadline ->
  idleQuiet s (step env i s).
Proof.
  intros Hq Hres Hd Hp Hnow.
  assert (Hle : (deadline <=? now s) = false) by lia.
  unfold idleQuiet.
  destruct i; try discriminate Hq; try (exfalso; eapply Hres; reflexivity);
    cbn [step];
    try (cbn in Hq; apply negb_true_iff in Hq;
         unfold subscribed, onConfigurationChanged; rewrite Hq);
    unfold_handlers; cbn;
    unfold Deferrable.due, Deferrable.pending, idleSuspended; rewrite ?Hd; cbn;
    rewrite ?Hp, ?Hle;
    break_matches; cbn;
    rewrite ?Hd, ?idleTriggers_app, ?omap_app, ?app_nil_r; cbn;
    rewrite ?app_nil_r;
    try (repeat split; reflexivity); try lia; try discriminate.
Qed.

Lemma idleSuspended_delete i s k :
  suspended s !! i = Some k ->
  forall x, x ∈ omap (fun k => match k with
                               | TriggerDirtyIdle e => Some e
                               | FireDirtyStateChanged _ => None
                               end) (delete i (suspended s)) ->
            x ∈ idleSuspended s.
Proof.
  intros _ x Hx. apply list_elem_of_omap in Hx as (k' & Hin & Hk').
  apply list_elem_of_omap. exists k'. split; [| exact Hk'].
  eapply list_elem_of_delete_inv. exact Hin.
Qed.

Lemma quiet_step_resumed env k s :
  _dirtyIdleTriggeredDebounced (step env (ContinuationResumed k) s)
  = _dirtyIdleTriggeredDebounced s
  /\ (exists l,
         idleTriggers (emitted (step env (ContinuationResumed k) s))
         = idleTriggers (emitted s) ++ l
         /\ forall x, x ∈ l -> x ∈ idleSuspended s)
  /\ forall x, x ∈ idleSuspended (step env (ContinuationResumed k) s) ->
               x ∈ idleSuspended s.
Proof.
  cbn [step]. unfold resumeContinuation.
  destruct (suspended s !! k) as [c |] eqn:Hk.
  2: { split; [reflexivity |]. split; [| auto].
       exists []. rewrite app_nil_r. split; [reflexivity |].
       intros x Hx. inversion Hx. }
  cbn zeta.
  assert (Hin : forall e, c = TriggerDirtyIdle e -> e ∈ idleSuspended s).
  { intros e ->. apply list_elem_of_omap. exists (TriggerDirtyIdle e).
    split; [| reflexivity]. eapply list_elem_of_lookup_2; eauto. }
  pose proof (idleSuspended_delete k s c Hk) as Hdel.
  destruct (initializes env (awaited c)).
  - destruct c as [e | e]; unfold fire, onObject; cbn;
      rewrite idleTriggers_app; cbn.
    + split; [reflexivity |]. split; [| exact Hdel].
      exists []. split; [reflexivity |]. intros x Hx. inversion Hx.
    + split; [reflexivity |]. split; [| exact Hdel].
      exists [e]. split; [reflexivity |].
      intros x Hx. apply list_elem_of_singleton in Hx as ->. now apply Hin.
  - cbn. split; [reflexivity |]. split; [| exact Hdel].
    exists []. rewrite app_nil_r. split; [reflexivity |].
    intros x Hx. inversion Hx.
Qed.

Lemma quiet_step env i s d deadline payload :
  keepsIdleDebounce i = true ->
  _dirtyIdleTriggeredDebounced s = Some d ->
  Deferrable.pendingCall d = Some (deadline, payload) ->
  now s < deadline ->
  _dirtyIdleTriggeredDebounced (step env i s) = Some d
  /\ (exists l,
         idleTriggers (emitted (step env i s)) = idleTriggers (emitted s) ++ l
         /\ forall x, x ∈ l -> x ∈ idleSuspended s)
  /\ forall x, x ∈ idleSuspended (step env i s) -> x ∈ idleSuspended s.
Proof.
  intros Hq Hd Hp Hnow.
  destruct (match i with ContinuationResumed _ => true | _ => false end) eqn:Hi.
  - destruct i; try discriminate Hi.
    destruct (quiet_step_resumed env i s) as (H1 & H2 & H3).
    split; [congruence |]. split; assumption.
  - assert (Hres : forall k, i <> ContinuationResumed k)
      by (intros k ->; discriminate Hi).
    destruct (quiet_step_frame env i s d deadline payload Hq Hres Hd Hp Hnow)
      as (H1 & H2 & H3).
    split; [congruence |]. split.
    + exists []. rewrite app_nil_r. split; [exact H2 |].
      intros x Hx. inversion Hx.
    + intros x. now rewrite H3.
Qed.

Lemma quiet_run trace s d deadline payload :
  Forall (fun x => keepsIdleDebounce x.2 = true) trace ->
  _dirtyIdleTriggeredDebounced s = Some d ->
  Deferrable.pendingCall d = Some (deadline, payload) ->
  now (run trace s) < deadline ->
  exists l,
    idleTriggers (emitted (run trace s)) = idleTriggers (emitted s) ++ l
    /\ forall x, x ∈ l -> x ∈ idleSuspended s.
Proof.
  revert s. induction trace as [| [env i] trace IH]; intros s Hq Hd Hp Hnow;
    cbn in *.
  { exists []. rewrite app_nil_r. split; [reflexivity |].
    intros x Hx. inversion Hx. }
  apply Forall_cons in Hq as [Hi Hq]. cbn in Hi.
  pose proof (now_run trace (step env i s)) as Hmono.
  pose proof (now_step env i s) as Hstep.
  destruct (quiet_step env i s d deadline payload Hi Hd Hp ltac:(lia))
    as (Hd1 & (l1 & He1 & Hl1) & Hs1).
  destruct (IH (step env i s) Hq Hd1 Hp Hnow) as (l2 & He2 & Hl2).
  exists (l1 ++ l2). split.
  - rewrite He2, He1. now rewrite app_assoc.
  - intros x Hx. apply elem_of_app in Hx as [Hx | Hx]; auto.
Qed.

Lemma changed_idle env e s d doc s0 :
  scheme (uri (tdc_document e)) = DocumentSchemes.File ->
  _dirtyIdleTriggeredDebounced s = Some d ->
  lookupOrAdd (tdc_document e) s = (doc, s0) ->
  let s' := onTextDocumentChanged env e s in
  emitted s' = emitted s /\ suspended s' = suspended s
  /\ exists d',
      _dirtyIdleTriggeredDebounced s' = Some d'
      /\ Deferrable.wait d' = Deferrable.wait d
      /\ Deferrable.pendingCall d'
         = if tdc_isDirty e
           then Some (now s + Deferrable.wait d,
                      {| dit_editor := activeTextEditor env;
                         dit_document := doc |})
           else None.
Proof.
  intros Hscheme Hd Hdoc. cbn zeta.
  rewrite (onTextDocumentChanged_unfold _ _ _ _ _ Hscheme Hdoc).
  destruct (lookupOrAdd_frame _ _ _ _ Hdoc)
    as (<- & _ & _ & Hidle & _ & _ & <- & _ & <-).
  rewrite <- Hidle in Hd.
  unfold changeDirtyState, resetOrCancelIdle, fireDocumentDirtyStateChanged,
    onObject.
  cbn. rewrite Hd. cbn.
  break_matches; cbn; (split; [reflexivity |]); (split; [reflexivity |]);
    eexists; (split; [reflexivity |]); cbn; (split; [reflexivity |]);
    try reflexivity; try discriminate.
Qed.

(** C4 (amended). In a tracker that holds an idle debounce, the
    text-document-changed handler deals with the idle timer before it
    looks at the dirty state.  A change event for a document outside the
    file scheme is ignored altogether.  For one on a file-scheme document:
    if the buffer is clean the pending idle call is cancelled; if the
    buffer is dirty the pending idle call is rescheduled to the stored
    delay from now, for the active editor and the changed document, and
    this also happens for an edit that leaves an already dirty document
    dirty and so dispatches no dirty-state-changed event.  From then on, as
    long as the handler does not run again and the idle-delay setting is
    not reconfigured, the only dirty-idle-triggered events fired before the
    delay has elapsed are those of idle callbacks that were already past
    their test and waiting for a document's initialization when the
    handler ran. *)
Theorem idle_timer_reset_before_guard env0 trace env e d doc s0 :
  let s := run trace (construct env0) in
  let s' := onTextDocumentChanged env e s in
  let delay := _dirtyIdleTriggerDelay s in
  _dirtyIdleTriggeredDebounced s = Some d ->
  lookupOrAdd (tdc_document e) s = (doc, s0) ->
  if String.eqb (scheme (uri (tdc_document e))) DocumentSchemes.File
  then
    if tdc_isDirty e
    then
      (exists d',
          _dirtyIdleTriggeredDebounced s' = Some d'
          /\ Deferrable.pendingCall d'
             = Some (now s + delay,
                     {| dit_editor := activeTextEditor env;
                        dit_document := doc |}))
      /\ (forall o,
             objects s0 !! doc = Some o ->
             TrackedDocument.forceDirtyStateChangeOnNextDocumentChange o = false ->
             TrackedDocument.dirty o = true ->
             noDirtyStateDispatch s s')
      /\ (forall quiet,
             Forall (fun x => keepsIdleDebounce x.2 = true) quiet ->
             now (run quiet s') < now s + delay ->
             exists l,
               idleTriggers (emitted (run quiet s'))
               = idleTriggers (emitted s) ++ l
               /\ forall x, x ∈ l -> x ∈ idleSuspended s)
    else
      exists d',
        _dirtyIdleTriggeredDebounced s' = Some d'
        /\ Deferrable.pendingCall d' = None
  else s' = s.
Proof.
  intros s s' delay Hd Hdoc.
  destruct (String.eqb (scheme (uri (tdc_document e))) DocumentSchemes.File)
    eqn:Hscheme.
  2: { subst s'. unfold onTextDocumentChanged. now rewrite Hscheme. }
  apply String.eqb_eq in Hscheme.
  assert (Hwait : Deferrable.wait d = delay).
  { destruct (debounceWaits_run trace (construct env0)
                (debounceWaits_construct env0)) as [Hw _].
    now destruct (Hw d Hd). }
  destruct (changed_idle env e s d doc s0 Hscheme Hd Hdoc)
    as (Hem & Hsus & d' & Hd' & _ & Hp').
  fold s' in Hem, Hsus, Hd'. rewrite Hwait in Hp'.
  destruct (tdc_isDirty e) eqn:Hdirty; [| eauto].
  split; [eauto |]. split.
  - intros o Ho Hforce Hod.
    pose proof (onTextDocumentChanged_outcome env e s doc s0 o Hscheme Hdoc Ho)
      as Hout.
    unfold dirtyStateOutcome in Hout. rewrite Hforce, Hod, Hdirty in Hout.
    exact (proj1 Hout).
  - intros quiet Hquiet Hnow.
    destruct (quiet_run quiet s' d' _ _ Hquiet Hd' Hp' Hnow) as (l & Hl & Hin).
    exists l. rewrite <- Hem. split; [exact Hl |].
    intros x Hx. unfold idleSuspended. rewrite <- Hsus. now apply Hin.
Qed.
(** ** Concrete runs *)

Lemma idle_timer_reset_before_guard_witness :
  let d := {| ident := 1; uri := {| scheme := "file"; fsPath := "/w/a.ts" |} |} in
  let ed := {| editor_id := 0; editor_document := d |} in
  let env := {| activeTextEditor := Some ed; delayAfterEdit := 100;
                openTextDocument := fun _ => None;
                isTextEditor := fun _ => true;
                isDirty := fun _ => true; initializes := fun _ => true |} in
  let e := {| tdc_document := d; tdc_isDirty := true |} in
  let trace := [(env, TextDocumentChanged d)] ++ elapse env 50
               ++ [(env, TextDocumentChangedTimer); (env, ImmediateRun);
                   (env, ContinuationResumed 0%nat)]
               ++ elapse env 30 in
  let s := run trace (construct env) in
  let s' := onTextDocumentChanged env e s in
  let quiet := elapse env 60 ++ [(env, DirtyIdleTimer)] ++ elapse env 39
               ++ [(env, DirtyIdleTimer)] in
  now s = 80 /\ now (run quiet s') = 179
  /\ noDirtyStateDispatch s s'
  /\ idleTriggers (emitted (run quiet s')) = [].
Proof.
  intros d ed env e trace s s' quiet.
  assert (Hd : _dirtyIdleTriggeredDebounced s
               = Some {| Deferrable.wait := 100;
                         Deferrable.pendingCall :=
                           Some (150, {| dit_editor := Some ed;
                                         dit_document := 0%nat |}) |})
    by (vm_compute; reflexivity).
  assert (Hdoc : lookupOrAdd (tdc_document e) s = (0%nat, s))
    by (vm_compute; reflexivity).
  assert (Ho : objects s !! 0%nat
               = Some (TrackedDocument.mk d "/w/a.ts" true false true false
                         (CacheReset ReasonDocument) true false))
    by (vm_compute; reflexivity).
  assert (Hnow0 : now s = 80) by (vm_compute; reflexivity).
  assert (Hnow1 : now (run quiet s') = 179) by (vm_compute; reflexivity).
  assert (Hnow : now (run quiet s') < now s + _dirtyIdleTriggerDelay s)
    by (vm_compute; reflexivity).
  assert (Hem : idleTriggers (emitted s) = []) by (vm_compute; reflexivity).
  assert (Hsus : idleSuspended s = []) by (vm_compute; reflexivity).
  assert (Hquiet : Forall (fun x : Env * Input => keepsIdleDebounce x.2 = true)
                     quiet).
  { apply Forall_forall. intros x Hx.
    repeat (apply elem_of_app in Hx as [Hx | Hx]);
      try (apply elem_of_replicate in Hx as [-> _]; reflexivity);
      apply list_elem_of_singleton in Hx as ->; reflexivity. }
  pose proof (idle_timer_reset_before_guard env trace env e _ _ _ Hd Hdoc) as H.
  change (String.eqb (scheme (uri (tdc_document e))) DocumentSchemes.File)
    with true in H.
  change (tdc_isDirty e) with true in H. cbv iota in H.
  destruct H as (_ & Hno & Hq).
  split; [exact Hnow0 |]. split; [exact Hnow1 |]. split.
  - exact (Hno _ Ho eq_refl eq_refl).
  - destruct (Hq quiet Hquiet Hnow) as (l & Hl & Hin).
    fold s s' in Hl, Hin. rewrite Hl, Hem. cbn [app].
    destruct l as [| x l]; [reflexivity |].
    exfalso. specialize (Hin x ltac:(left)). rewrite Hsus in Hin.
    inversion Hin.
Defined.

(** C4, as stated, fails in three ways.  First, a change event for a
    document outside the file scheme does not touch the idle timer.
    Second, when the idle-delay setting is reconfigured after the last
    edit, a debounce the tracker let go of earlier fires its event before
    the delay has elapsed: here the last edit is handled at 150ms with a
    delay of 100ms, and an idle event is fired at 170ms.  Third, an idle
    callback that is waiting for the document's initialization when the
    edit arrives fires afterwards although the countdown was restarted:
    here the last edit is handled at 200ms with a delay of 100ms, and the
    idle event is fired at 201ms. *)
Lemma idle_trigger_before_delay_counterexample :
  let d := {| ident := 1; uri := {| scheme := "file"; fsPath := "/w/a.ts" |} |} in
  let u := {| ident := 2; uri := {| scheme := "untitled"; fsPath := "Untitled-1" |} |} in
  let ed := {| editor_id := 0; editor_document := d |} in
  let env delay := {| activeTextEditor := Some ed; delayAfterEdit := delay;
                      openTextDocument := fun _ => None;
                      isTextEditor := fun _ => true;
                      isDirty := fun _ => true; initializes := fun _ => true |} in
  let delayChanged :=
    {| cfg_initializing := false;
       cfg_changed := fun x => match x with
                               | AdvancedBlameDelayAfterEdit => true
                               | _ => false
                               end |} in
  let edit delay :=
    [(env delay, TextDocumentChanged d)] ++ elapse (env delay) 50
    ++ [(env delay, TextDocumentChangedTimer)] in
  (* outside the file scheme *)
  (let s := run (edit 100) (construct (env 100)) in
   is_Some (_dirtyIdleTriggeredDebounced s)
   /\ onTextDocumentChanged (env 100)
        {| tdc_document := u; tdc_isDirty := true |} s = s)
  (* the delay is reconfigured after the last edit *)
  /\ (let s := run (edit 120
                    ++ [(env 100, ConfigurationChanged delayChanged);
                        (env 100, ImmediateRun);
                        (env 100, ContinuationResumed 0%nat);
                        (env 100, ForceNextChangeSet 0%nat)]
                    ++ edit 100
                    ++ [(env 100, ImmediateRun);
                        (env 100, ContinuationResumed 0%nat)]
                    ++ edit 100) (construct (env 120)) in
      let s' := run ([(env 300, ConfigurationChanged delayChanged)]
                     ++ elapse (env 300) 20
                     ++ [(env 300, DetachedTimer 0%nat);
                         (env 300, ContinuationResumed 0%nat)]) s in
      now s = 150
      /\ _dirtyIdleTriggeredDebounced s
         = Some {| Deferrable.wait := 100;
                   Deferrable.pendingCall :=
                     Some (250, {| dit_editor := Some ed;
                                   dit_document := 0%nat |}) |}
      /\ idleTriggers (emitted s) = []
      /\ now s' = 170
      /\ idleTriggers (emitted s')
         = [{| dit_editor := Some ed; dit_document := 0%nat |}])
  (* an idle callback is waiting when the last edit arrives *)
  /\ (let s := run (edit 100
                    ++ [(env 100, ImmediateRun)]
                    ++ elapse (env 100) 100
                    ++ [(env 100, DirtyIdleTimer)]
                    ++ edit 100) (construct (env 100)) in
      let s' := run [(env 100, Elapsed);
                     (env 100, ContinuationResumed 0%nat);
                     (env 100, ContinuationResumed 0%nat)] s in
      now s = 200
      /\ _dirtyIdleTriggeredDebounced s
         = Some {| Deferrable.wait := 100;
                   Deferrable.pendingCall :=
                     Some (300, {| dit_editor := Some ed;
                                   dit_document := 0%nat |}) |}
      /\ idleTriggers (emitted s) = []
      /\ now s' = 201
      /\ idleTriggers (emitted s')
         = [{| dit_editor := Some ed; dit_document := 0%nat |}]).
Proof. vm_compute. repeat split; eauto. Qed.



Lemma idle_debounce_lifecycle_witness :
  let env := {| activeTextEditor := None; delayAfterEdit := 5000;
                openTextDocument := fun _ => None;
                isTextEditor := fun _ => true;
                isDirty := fun _ => true; initializes := fun _ => true |} in
  _dirtyIdleTriggeredDebounced (construct env) = None
  /\ _dirtyIdleTriggerDelay (construct env) = 5000.
Proof.
  intros env.
  exact (proj1 (idle_debounce_lifecycle env initializingChangeEvent blank
                  eq_refl)).
Defined.

(** C8, as stated, fails for [dispose]: a tracker that holds an idle
    debounce with a pending call still holds it, pending, after
    [dispose]. *)
Lemma dispose_keeps_idle_debounce_counterexample :
  let d := {| ident := 1; uri := {| scheme := "file"; fsPath := "/w/a.ts" |} |} in
  let ed := {| editor_id := 0; editor_document := d |} in
  let env := {| activeTextEditor := Some ed; delayAfterEdit := 5000;
                openTextDocument := fun _ => None;
                isTextEditor := fun _ => true;
                isDirty := fun _ => true; initializes := fun _ => true |} in
  let s := run ([(env, TextDocumentChanged d)] ++ elapse env 50
                ++ [(env, TextDocumentChangedTimer)]) (construct env) in
  _dirtyIdleTriggeredDebounced (dispose s)
  = Some {| Deferrable.wait := 5000;
            Deferrable.pendingCall :=
              Some (5050, {| dit_editor := Some ed; dit_document := 0%nat |}) |}
  /\ _dirtyIdleTriggeredDebounced (dispose s) <> None.
Proof. vm_compute. split; [reflexivity | discriminate]. Qed.

(** ** Calls of [add] in flight *)

Lemma createdAt_insert_same tasks i t t' j :
  tasks !! i = Some t -> created t' = created t ->
  createdAt (<[i := t']> tasks) j = createdAt tasks j.
Proof.
  intros Hi Hc. unfold createdAt. destruct (decide (i = j)) as [<- |].
  - rewrite list_lookup_insert_eq by (eapply lookup_lt_Some; eauto).
    rewrite Hi. cbn. exact Hc.
  - now rewrite list_lookup_insert_ne.
Qed.

Lemma createdAt_insert_new tasks i t t' j :
  tasks !! i = Some t ->
  createdAt (<[i := t']> tasks) j
  = if decide (i = j) then created t' else createdAt tasks j.
Proof.
  intros Hi. unfold createdAt. destruct (decide (i = j)) as [<- |].
  - now rewrite list_lookup_insert_eq by (eapply lookup_lt_Some; eauto).
  - now rewrite list_lookup_insert_ne.
Qed.

Lemma addsInFlight_same env h n0 tasks s i t t' s' :
  tasks !! i = Some t -> created t' = created t -> taskFor env h t' ->
  methodsOnly s s' ->
  addsInFlight env h n0 tasks s -> addsInFlight env h n0 (<[i := t']> tasks) s'.
Proof.
  intros Hi Hc Ht (Hm & Hn & Ho) (I1 & I0 & I2 & I3 & I4).
  unfold addsInFlight. rewrite Hm, Hn.
  split; [now apply Forall_insert |]. split; [exact I0 |].
  split; [| split].
  - intros j r Hj. rewrite (createdAt_insert_same _ _ _ _ _ Hi Hc) in Hj.
    destruct (I2 _ _ Hj) as (Hlt & o & Hobj & Hdoc). split; [exact Hlt |].
    specialize (Ho r). rewrite Hobj in Ho.
    destruct (objects s' !! r) as [o' |]; [| tauto].
    exists o'. destruct Ho as [[Hd _] _]. split; congruence.
  - intros j k r. rewrite !(createdAt_insert_same _ _ _ _ _ Hi Hc). apply I3.
  - intros j r Hj. rewrite (createdAt_insert_same _ _ _ _ _ Hi Hc) in Hj.
    destruct (I4 _ _ Hj) as (doc & k & Hk & Hle & Hmap).
    exists doc, k. now rewrite (createdAt_insert_same _ _ _ _ _ Hi Hc).
Qed.

Lemma addsInFlight_addCore env h n0 tasks s i t :
  tasks !! i = Some t -> created t = None ->
  addsInFlight env h n0 tasks s ->
  addsInFlight env h n0 (<[i := AwaitAddCore (fst (addCore h s))]> tasks)
    (snd (addCore h s)).
Proof.
  intros Hi Hc (I1 & I0 & I2 & I3 & I4).
  assert (Hnone : createdAt tasks i = None)
    by (unfold createdAt; now rewrite Hi).
  unfold addsInFlight.
  split; [now apply Forall_insert |]. split; [cbn; lia |].
  split; [| split].
  - intros j r Hj. rewrite (createdAt_insert_new _ _ _ _ _ Hi) in Hj.
    cbn. destruct (decide (i = j)) as [<- |].
    + cbn in Hj. injection Hj as <-. split; [lia |].
      rewrite lookup_insert_eq. eauto.
    + destruct (I2 _ _ Hj) as (Hlt & o & Hobj & Hdoc). split; [lia |].
      rewrite lookup_insert_ne by lia. eauto.
  - intros j k r Hj Hk. rewrite (createdAt_insert_new _ _ _ _ _ Hi) in Hj.
    rewrite (createdAt_insert_new _ _ _ _ _ Hi) in Hk.
    destruct (decide (i = j)) as [<- |], (decide (i = k)) as [<- |];
      cbn in Hj, Hk; try reflexivity.
    + injection Hj as <-. destruct (I2 _ _ Hk). lia.
    + injection Hk as <-. destruct (I2 _ _ Hj). lia.
    + eauto.
  - intros j r Hj. exists (nextRef s), i.
    rewrite (createdAt_insert_new _ _ _ _ _ Hi) in Hj.
    rewrite (createdAt_insert_new _ _ _ _ _ Hi).
    destruct (decide (i = i)) as [_ |]; [| congruence].
    split; [reflexivity |]. split.
    + destruct (decide (i = j)) as [<- |]; cbn in Hj.
      * injection Hj as <-. lia.
      * destruct (I2 _ _ Hj). lia.
    + cbn. split.
      * rewrite lookup_insert_ne by discriminate. apply lookup_insert_eq.
      * apply lookup_insert_eq.
Qed.

Lemma addsInFlight_resume env h n0 i tasks s :
  addsInFlight env h n0 tasks s ->
  addsInFlight env h n0 (resume env i (tasks, s)).1 (resume env i (tasks, s)).2.
Proof.
  intros Hinv. unfold resume. cbn [fst snd].
  destruct (tasks !! i) as [t |] eqn:Hi; [| exact Hinv].
  assert (Ht : taskFor env h t).
  { destruct Hinv as (I1 & _). rewrite Forall_lookup in I1. eauto. }
  destruct t as [[fileName | document | u] | id | doc | doc | doc | [doc |]];
    cbn in Ht |- *.
  - apply (addsInFlight_same env h n0 tasks s i _ _ s Hi);
      [reflexivity | exact Ht | apply methodsOnly_refl | exact Hinv].
  - injection Ht as ->.
    exact (addsInFlight_addCore env h n0 tasks s i _ Hi eq_refl Hinv).
  - apply (addsInFlight_same env h n0 tasks s i _ _ s Hi);
      [reflexivity | exact Ht | apply methodsOnly_refl | exact Hinv].
  - rewrite Ht.
    exact (addsInFlight_addCore env h n0 tasks s i _ Hi eq_refl Hinv).
  - apply (addsInFlight_same env h n0 tasks s i _ _ s Hi);
      [reflexivity | exact I | apply methodsOnly_refl | exact Hinv].
  - destruct (initializes env doc).
    + apply (addsInFlight_same env h n0 tasks s i _ _ _ Hi);
        [reflexivity | exact I
        | apply methodsOnly_onObject, dirtyKept_initialize | exact Hinv].
    + apply (addsInFlight_same env h n0 tasks s i _ _ s Hi);
        [reflexivity | exact I | apply methodsOnly_refl | exact Hinv].
  - apply (addsInFlight_same env h n0 tasks s i _ _ s Hi);
      [reflexivity | exact I | apply methodsOnly_refl | exact Hinv].
  - apply (addsInFlight_same env h n0 tasks s i _ _ s Hi);
      [reflexivity | exact I | apply methodsOnly_refl | exact Hinv].
  - destruct Ht.
Qed.

Lemma addsInFlight_interleave env h n0 schedule tasks s :
  addsInFlight env h n0 tasks s ->
  addsInFlight env h n0 (interleave env schedule (tasks, s)).1
    (interleave env schedule (tasks, s)).2.
Proof.
  revert tasks s. induction schedule as [| i schedule IH]; intros tasks s Hinv;
    cbn [interleave]; [exact Hinv |].
  pose proof (addsInFlight_resume env h n0 i tasks s Hinv) as H.
  destruct (resume env i (tasks, s)) as [tasks' s']. now apply IH.
Qed.

Lemma addsInFlight_called env h ids s :
  Forall (fun id => resolve env id = Some h) ids ->
  addsInFlight env h (nextRef s) (AddCalled <$> ids) s.
Proof.
  intros Hids.
  assert (Hnone : forall j, createdAt (AddCalled <$> ids) j = None).
  { intros j. unfold createdAt. rewrite list_lookup_fmap.
    now destruct (ids !! j). }
  unfold addsInFlight. split; [| split; [lia |]].
  - apply Forall_fmap. eapply Forall_impl; [exact Hids |]. auto.
  - split; [| split]; intros j; intros; rewrite Hnone in *; discriminate.
Qed.

Lemma createdAt_returned tasks j r :
  tasks !! j = Some (AddReturned r) -> createdAt tasks j = Some r.
Proof. intros H. unfold createdAt. now rewrite H. Qed.

Lemma returned_createdAt tasks j r :
  Forall (fun t => is_Some (returned t)) tasks ->
  createdAt tasks j = Some r -> tasks !! j = Some (AddReturned r).
Proof.
  intros Hall H. unfold createdAt in H.
  destruct (tasks !! j) as [t |] eqn:Hj; [| discriminate]. cbn in H.
  rewrite Forall_lookup in Hall. destruct (Hall _ _ Hj) as [r' Hr'].
  destruct t; cbn in *; congruence.
Qed.

(** C1 (amended). Every call of [add] creates a tracked document of its
    own for the document its argument resolves to, and enters it under the
    document's handle and state key in place of what was there.  However
    the steps of any number of calls for the same document are interleaved,
    once all calls have returned: no two callers hold the same tracked
    document; each holds one that was newly allocated by its call and is a
    stored object for the document; and the cache map has, under the handle
    and under the state key alike, the one created last, which is the one
    returned to one of the callers. *)
Theorem add_interleaved env ids h schedule s :
  Forall (fun id => resolve env id = Some h) ids ->
  let c := interleave env schedule (AddCalled <$> ids, s) in
  Forall (fun t => is_Some (returned t)) c.1 ->
  (forall i j r,
      c.1 !! i = Some (AddReturned r) -> c.1 !! j = Some (AddReturned r) ->
      i = j)
  /\ (forall i r,
        c.1 !! i = Some (AddReturned r) ->
        (nextRef s <= r)%nat
        /\ (exists o, objects c.2 !! r = Some o
                      /\ TrackedDocument.document o = h)
        /\ exists doc j,
            c.1 !! j = Some (AddReturned doc) /\ (r <= doc)%nat
            /\ _documentMap c.2 !! KDocument h = Some doc
            /\ _documentMap c.2 !! KString (toStateKey (FileUri (uri h)))
               = Some doc).
Proof.
  intros Hids c Hall.
  pose proof (addsInFlight_interleave env h (nextRef s) schedule _ s
                (addsInFlight_called env h ids s Hids))
    as (_ & _ & I2 & I3 & I4).
  fold c in I2, I3, I4. split.
  - intros i j r Hi Hj.
    eapply I3; eauto using createdAt_returned.
  - intros i r Hi. apply createdAt_returned in Hi.
    destruct (I2 _ _ Hi) as (Hlt & Hobj).
    split; [lia |]. split; [exact Hobj |].
    destruct (I4 _ _ Hi) as (doc & k & Hk & Hle & Hmap).
    exists doc, k. split; [now apply returned_createdAt |]. auto.
Qed.

Lemma add_interleaved_witness :
  let d := {| ident := 1; uri := {| scheme := "file"; fsPath := "/w/a.ts" |} |} in
  let env := {| activeTextEditor := None; delayAfterEdit := 5000;
                openTextDocument := fun _ => Some d;
                isTextEditor := fun _ => true;
                isDirty := fun _ => true; initializes := fun _ => true |} in
  let c := interleave env [0; 1; 1; 0; 0; 1; 1]%nat
             ([AddCalled (OfDocument d); AddCalled (OfFileName "/w/a.ts")],
              construct env) in
  c.1 = [AddReturned 0%nat; AddReturned 1%nat]
  /\ exists doc,
      (0 <= doc)%nat
      /\ _documentMap c.2 !! KDocument d = Some doc
      /\ _documentMap c.2 !! KString "/w/a.ts" = Some doc.
Proof.
  intros d env c.
  assert (Hc : c.1 = [AddReturned 0%nat; AddReturned 1%nat])
    by (vm_compute; reflexivity).
  split; [exact Hc |].
  assert (Hids : Forall (fun id => resolve env id = Some d)
                   [OfDocument d; OfFileName "/w/a.ts"])
    by (repeat constructor).
  assert (Hall : Forall (fun t => is_Some (returned t)) c.1).
  { rewrite Hc. repeat constructor; eexists; reflexivity. }
  assert (H0 : c.1 !! 0%nat = Some (AddReturned 0%nat))
    by (rewrite Hc; reflexivity).
  destruct (proj2 (add_interleaved env [OfDocument d; OfFileName "/w/a.ts"] d
                     [0; 1; 1; 0; 0; 1; 1]%nat (construct env) Hids Hall)
              0%nat 0%nat H0)
    as (_ & _ & doc & j & _ & Hle & Hm1 & Hm2).
  exists doc. split; [exact Hle |]. split; [exact Hm1 |].
  change "/w/a.ts" with (toStateKey (FileUri (uri d))). exact Hm2.
Defined.

(** C1, as stated, fails: [add] does not reuse.  A second call for a
    document that is already tracked, whether it starts after the first
    has returned or while the first is still waiting, builds a second
    tracked document and puts it in the place of the first, which is left
    in the object store under no key at all. *)
Lemma add_reuses_counterexample :
  let d := {| ident := 1; uri := {| scheme := "file"; fsPath := "/w/a.ts" |} |} in
  let env := {| activeTextEditor := None; delayAfterEdit := 5000;
                openTextDocument := fun _ => Some d;
                isTextEditor := fun _ => true;
                isDirty := fun _ => true; initializes := fun _ => true |} in
  let first := add env (OfDocument d) (construct env) in
  let second := add env (OfDocument d) first.2 in
  let c := interleave env [0; 1; 0; 1; 0; 1]%nat
             ([AddCalled (OfDocument d); AddCalled (OfDocument d)],
              construct env) in
  (first.1 = AddReturned 0%nat
   /\ has (OfDocument d) first.2 = true
   /\ second.1 = AddReturned 1%nat
   /\ _documentMap second.2 !! KDocument d = Some 1%nat
   /\ keysOf 0%nat second.2 = []
   /\ objects second.2 !! 0%nat
      = Some (TrackedDocument.ensureInitialized false
                (TrackedDocument.new d "/w/a.ts" false)))
  /\ (c.1 = [AddReturned 0%nat; AddReturned 1%nat]
      /\ _documentMap c.2 !! KDocument d = Some 1%nat
      /\ keysOf 0%nat c.2 = []).
Proof. vm_compute. auto 10. Qed.

(** ** [ShowLineBlameCommand.execute] *)

Module ShowLineBlameFacts.
Import ShowLineBlameCommand.

Lemma execute_without_editor c args :
  execute c None args = (Fulfilled Undefined, []).
Proof. reflexivity. Qed.

Lemma execute_catches_throw c editor args ex :
  (type args = None /\ configuration_get c = Throw ex)
  \/ (exists t,
        match type args with Some t' => t' = t
                        | None => configuration_get c = Normal t end
        /\ showAnnotations c editor t = Throw ex) ->
  exists done, execute c (Some editor) args = handler c done ex.
Proof.
  unfold execute.
  intros [[Hty Hget] | (t & Hty & Hshow)].
  - rewrite Hty, Hget. eexists. reflexivity.
  - destruct (type args) as [t' |].
    + subst t'. rewrite Hshow. eexists. reflexivity.
    + rewrite Hty, Hshow. eexists. reflexivity.
Qed.

(** C10. With an editor given, an annotation type configured and
    [showAnnotations] returning a promise that is rejected, the promise
    [execute] hands to its caller is rejected with the same exception:
    the [catch] block does not run, nothing is logged and no error message
    is shown. *)
Theorem execute_rejection_escapes :
  let d := {| ident := 1; uri := {| scheme := "file"; fsPath := "/w/a.ts" |} |} in
  let editor := {| editor_id := 0; editor_document := d |} in
  let c := {| configuration_get := Normal "trailing";
              showAnnotations := fun _ _ => Normal (Promise (Rejected "blame failed"));
              logger_error := fun _ _ => Normal tt;
              showErrorMessage := fun _ => Normal (Promise (Fulfilled Undefined)) |} in
  execute c (Some editor) {| type := None |}
  = (Rejected "blame failed", [ConfigurationGet; ShowAnnotations editor "trailing"])
  /\ settledNormally (execute c (Some editor) {| type := None |}) = false.
Proof. split; reflexivity. Qed.

End ShowLineBlameFacts.
(** * Further properties of the tracker *)

Lemma has_lookupKey id s :
  has id s = bool_decide (is_Some (_documentMap s !! lookupKey id)).
Proof. destruct id; reflexivity. Qed.

Lemma has_Some id s doc :
  _documentMap s !! lookupKey id = Some doc -> has id s = true.
Proof.
  intros H. rewrite has_lookupKey. apply bool_decide_eq_true. eauto.
Qed.

Lemma has_None id s :
  _documentMap s !! lookupKey id = None -> has id s = false.
Proof.
  intros H. rewrite has_lookupKey. apply bool_decide_eq_false. rewrite H.
  intros [? ?]. discriminate.
Qed.

Lemma denotes_lookupKey id h doc m :
  denotes id h ->
  (<[KString (toStateKey (FileUri (uri h))) := doc]>
     (<[KDocument h := doc]> m) : gmap Key nat) !! lookupKey id = Some doc.
Proof.
  destruct id as [fileName | d | u]; cbn; intros Hd.
  - rewrite Hd. apply lookup_insert_eq.
  - subst d. rewrite lookup_insert_ne by discriminate. apply lookup_insert_eq.
  - rewrite Hd. apply lookup_insert_eq.
Qed.

(** ** Activation of an editor *)

(** X1. [onActiveTextEditorChanged] leaves the tracker alone when no editor
    is active or the editor is no text editor.  For a text editor the
    editor's document is tracked afterwards.  A document that was tracked
    keeps its tracked document, which is marked active and is otherwise
    left as it was; nothing is created and no other object changes.  An
    untracked document gets a new tracked document under both of its keys;
    that one is not marked active by the handler, but by its own
    initialization: when an awaited [ensureInitialized] fulfils while the
    document is the active editor's, the tracked document is active. *)
Theorem onActiveTextEditorChanged_cases env editor s :
  let s' := onActiveTextEditorChanged env editor s in
  match editor with
  | None => s' = s
  | Some ed =>
      if isTextEditor env ed
      then
        has (OfDocument (editor_document ed)) s' = true
        /\ match _documentMap s !! KDocument (editor_document ed) with
           | Some doc =>
               nothingCreated s s'
               /\ (forall o, objects s !! doc = Some o ->
                     exists o', objects s' !! doc = Some o'
                                /\ activatedOf o o')
               /\ (forall r, r <> doc -> objects s' !! r = objects s !! r)
           | None =>
               createdFor (editor_document ed) s s'
               /\ forall env',
                   isActiveDocument env' (editor_document ed) = true ->
                   TrackedDocument.active
                     <$> objects (step env' (EnsureInitializedDone (nextRef s)) s')
                         !! nextRef s
                   = Some true
           end
      else s' = s
  end.
Proof.
  unfold onActiveTextEditorChanged. destruct editor as [ed |]; [| reflexivity].
  destruct (isTextEditor env ed); cbn [negb]; [| reflexivity].
  destruct (_documentMap s !! KDocument (editor_document ed)) as [doc |] eqn:Hdoc.
  - split.
    + apply (has_Some (OfDocument (editor_document ed)) _ doc). exact Hdoc.
    + split; [split; reflexivity |]. split.
      * intros o Ho. exists (TrackedDocument.activate o). cbn.
        rewrite lookup_alter_eq, Ho. split; [reflexivity |].
        unfold activatedOf. cbn. tauto.
      * intros r Hr. cbn. now rewrite lookup_alter_ne.
  - pose proof (addCore_createdFor (editor_document ed) s) as Hc. split.
    + apply (has_Some (OfDocument (editor_document ed)) _ (nextRef s)).
      apply Hc.
    + split; [exact Hc |]. intros env' Hact.
      destruct Hc as (_ & Ho & _). cbn [step]. unfold onObject. cbn [objects set_objects].
      rewrite lookup_alter_eq, Ho. cbn. unfold initialize. cbn.
      now rewrite Hact.
Qed.

(** ** [clear] and [dispose] *)

(** X2. After [clear] nothing is tracked: [has] is false for every
    identity.  Every tracked document that was a value of the map has been
    disposed, objects that were not in the map are untouched, and neither
    the debounced functions, the queued tasks nor the fired events are
    touched. *)
Theorem clear_empties s :
  (forall id, has id (clear s) = false)
  /\ (forall doc o, tracked doc s -> objects s !! doc = Some o ->
        objects (clear s) !! doc = Some (TrackedDocument.dispose o))
  /\ (forall doc, ~ tracked doc s -> objects (clear s) !! doc = objects s !! doc)
  /\ _dirtyIdleTriggeredDebounced (clear s) = _dirtyIdleTriggeredDebounced s
  /\ _dirtyStateChangedDebounced (clear s) = _dirtyStateChangedDebounced s
  /\ immediates (clear s) = immediates s
  /\ emitted (clear s) = emitted s.
Proof.
  split; [| split; [| split]].
  - intros id. apply has_None. cbn. apply lookup_empty.
  - intros doc o Ht Ho.
    change (objects (clear s)) with (objects (forEachValue TrackedDocument.dispose s)).
    rewrite forEachValue_tracked by (assumption || reflexivity).
    now rewrite Ho.
  - intros doc Ht.
    change (objects (clear s)) with (objects (forEachValue TrackedDocument.dispose s)).
    now apply forEachValue_untracked.
  - cbn. tauto.
Qed.

Lemma fireTextDocumentChanged_due env s t d :
  Deferrable.pendingCall (onTextDocumentChangedDebounced s) = Some (t, d) ->
  t <= now s ->
  fireTextDocumentChanged env s
  = onTextDocumentChanged env (changeEvent env d)
      (set_onTextDocumentChangedDebounced
         (Deferrable.cancel (onTextDocumentChangedDebounced s)) s).
Proof.
  intros Hp Ht. unfold fireTextDocumentChanged, Deferrable.due. cbn zeta.
  rewrite Hp. assert (E : (t <=? now s) = true) by lia. now rewrite E.
Qed.

Lemma onTextDocumentChanged_tracks env e s :
  scheme (uri (tdc_document e)) = DocumentSchemes.File ->
  has (OfDocument (tdc_document e)) (onTextDocumentChanged env e s) = true.
Proof.
  intros Hscheme.
  destruct (lookupOrAdd (tdc_document e) s) as [doc s0] eqn:Hdoc.
  rewrite (onTextDocumentChanged_unfold _ _ _ _ _ Hscheme Hdoc).
  destruct (changed_tail_frame (activeTextEditor env) (tdc_document e)
              (tdc_isDirty e) doc s0) as (Hm & _).
  apply (has_Some (OfDocument (tdc_document e)) _ doc). cbn [lookupKey].
  rewrite Hm. unfold lookupOrAdd in Hdoc.
  destruct (_documentMap s !! KDocument (tdc_document e)) as [doc' |] eqn:Hd.
  - now injection Hdoc as <- <-.
  - assert (E : doc = fst (addCore (tdc_document e) s)
                /\ s0 = snd (addCore (tdc_document e) s))
      by (rewrite Hdoc; auto).
    destruct E as [-> ->]. apply addCore_createdFor.
Qed.

(** X3. [dispose] ends the subscriptions, not the debounced handlers.
    Whatever configuration, editor and document events the host raises
    after [dispose], the tracker stays as [dispose] left it, with nothing
    tracked.  But a text-document-changed event that was raised before
    [dispose] and whose handler has not run yet is still handled when its
    timer goes off: the disposed tracker then tracks the document again. *)
Theorem dispose_ends_subscriptions trace s :
  Forall (fun x => isHostEvent x.2 = true) trace ->
  (run trace (dispose s) = dispose s
   /\ forall id, has id (run trace (dispose s)) = false)
  /\ forall t d env,
      Deferrable.pendingCall (onTextDocumentChangedDebounced s) = Some (t, d) ->
      t <= now s ->
      scheme (uri d) = DocumentSchemes.File ->
      has (OfDocument d)
          (step env TextDocumentChangedTimer (run trace (dispose s))) = true.
Proof.
  intros Htrace.
  assert (Hrun : run trace (dispose s) = dispose s).
  { induction trace as [| [env i] trace IH]; [reflexivity |].
    apply Forall_cons in Htrace as [Hi Htrace]. cbn in Hi. cbn [run].
    assert (Hstep : step env i (dispose s) = dispose s)
      by (destruct i; try discriminate Hi; reflexivity).
    rewrite Hstep. now apply IH. }
  rewrite Hrun. split.
  - split; [reflexivity |]. intros id. apply has_None. cbn. apply lookup_empty.
  - intros t d env Hp Ht Hscheme. cbn [step].
    rewrite (fireTextDocumentChanged_due env (dispose s) t d Hp Ht).
    now apply (onTextDocumentChanged_tracks env (changeEvent env d)).
Qed.

Lemma dispose_ends_subscriptions_witness :
  let d := {| ident := 1; uri := {| scheme := "file"; fsPath := "/w/a.ts" |} |} in
  let ed := {| editor_id := 0; editor_document := d |} in
  let env := {| activeTextEditor := Some ed; delayAfterEdit := 5000;
                openTextDocument := fun _ => None;
                isTextEditor := fun _ => true;
                isDirty := fun _ => true; initializes := fun _ => true |} in
  let s := run ([(env, TextDocumentChanged d)] ++ elapse env 50) (construct env) in
  let trace := [(env, ActiveTextEditorChanged (Some ed));
                (env, TextDocumentChanged d);
                (env, TextDocumentSaved d)] in
  run trace (dispose s) = dispose s
  /\ has (OfDocument d) (dispose s) = false
  /\ has (OfDocument d)
         (step env TextDocumentChangedTimer (run trace (dispose s))) = true.
Proof.
  intros d ed env s trace.
  assert (H : Forall (fun x : Env * Input => isHostEvent x.2 = true) trace)
    by (repeat constructor).
  assert (Hp : Deferrable.pendingCall (onTextDocumentChangedDebounced s)
               = Some (50, d)) by (vm_compute; reflexivity).
  assert (Ht : 50 <= now s) by (vm_compute; discriminate).
  destruct (dispose_ends_subscriptions trace s H) as ((H1 & H2) & H3).
  split; [exact H1 |]. split.
  - rewrite <- H1. apply H2.
  - exact (H3 50 d env Hp Ht eq_refl).
Defined.
(** ** [get], [getOrAdd] and [add], each call run on its own *)

Lemma add_resolved env id h s :
  resolve env id = Some h ->
  add env id s
  = if initializes env (nextRef s)
    then (AddReturned (nextRef s),
          onObject (initialize env) (nextRef s) (snd (addCore h s)))
    else (AddRejected (Some (nextRef s)), snd (addCore h s)).
Proof.
  intros Hr. unfold add. destruct id as [fileName | d | u]; cbn in Hr.
  - cbn [_add]. rewrite Hr. cbn [addCore _add].
    now destruct (initializes env (nextRef s)).
  - injection Hr as ->. cbn [addCore _add].
    now destruct (initializes env (nextRef s)).
  - cbn [_add]. rewrite Hr. cbn [addCore _add].
    now destruct (initializes env (nextRef s)).
Qed.

Lemma add_unresolved env id s :
  resolve env id = None -> add env id s = (AddRejected None, s).
Proof.
  intros Hr. unfold add. destruct id as [fileName | d | u]; cbn in Hr.
  - cbn [_add]. rewrite Hr. reflexivity.
  - discriminate Hr.
  - cbn [_add]. rewrite Hr. reflexivity.
Qed.

Lemma get_tracked env id s doc :
  _documentMap s !! lookupKey id = Some doc ->
  get env id s
  = if initializes env doc
    then (GetReturned (Some doc), onObject (initialize env) doc s)
    else (GetRejected, s).
Proof. intros H. unfold get. cbn [_get]. now rewrite H. Qed.

Lemma get_untracked env id s :
  _documentMap s !! lookupKey id = None -> get env id s = (GetReturned None, s).
Proof. intros H. unfold get. cbn [_get]. now rewrite H. Qed.

Lemma getOrAdd_tracked env id s doc :
  _documentMap s !! lookupKey id = Some doc ->
  getOrAdd env id s
  = if initializes env doc
    then (AddReturned doc, onObject (initialize env) doc s)
    else (AddRejected None, s).
Proof.
  intros H. unfold getOrAdd. rewrite (get_tracked _ _ _ _ H).
  now destruct (initializes env doc).
Qed.

Lemma getOrAdd_untracked env id s :
  _documentMap s !! lookupKey id = None -> getOrAdd env id s = add env id s.
Proof. intros H. unfold getOrAdd. now rewrite (get_untracked _ _ _ H). Qed.

(** X4. [get] creates nothing and never writes the cache map.  For an
    identity that is not tracked it returns undefined and leaves the
    tracker exactly as it was.  For one that is tracked it awaits the
    initialization of the tracked document the map holds under the
    identity's key: if that fulfils, [get] returns this tracked document
    and no other object has changed; if it is rejected, so is [get], and
    the tracker is exactly as it was.  The map has an entry exactly when
    [has] says so. *)
Theorem get_finds_or_nothing env id s :
  nothingCreated s (get env id s).2
  /\ match _documentMap s !! lookupKey id with
     | Some doc =>
         has id s = true
         /\ if initializes env doc
            then
              (get env id s).1 = GetReturned (Some doc)
              /\ objects (get env id s).2 !! doc
                 = initialize env <$> objects s !! doc
              /\ forall r, r <> doc ->
                   objects (get env id s).2 !! r = objects s !! r
            else get env id s = (GetRejected, s)
     | None => has id s = false /\ get env id s = (GetReturned None, s)
     end.
Proof.
  destruct (_documentMap s !! lookupKey id) as [doc |] eqn:Hdoc.
  - rewrite (get_tracked _ _ _ _ Hdoc).
    destruct (initializes env doc); cbn [fst snd].
    + split; [split; reflexivity |].
      split; [exact (has_Some _ _ _ Hdoc) |]. split; [reflexivity |]. split.
      * cbn. apply lookup_alter_eq.
      * intros r Hr. cbn. now apply lookup_alter_ne.
    + split; [split; reflexivity |].
      split; [exact (has_Some _ _ _ Hdoc) | reflexivity].
  - rewrite (get_untracked _ _ _ Hdoc). cbn [fst snd].
    split; [split; reflexivity |].
    split; [exact (has_None _ _ Hdoc) | reflexivity].
Qed.

(** X5. [getOrAdd] reuses: for an identity that the host resolves to a
    document with the identity's own state key, and as long as the
    initializations it awaits fulfil, a call returns a tracked document,
    the identity is tracked afterwards, and a second call returns the very
    same tracked document without creating anything or writing the cache
    map. *)
Theorem getOrAdd_twice env id h s :
  resolve env id = Some h -> denotes id h ->
  (forall doc, initializes env doc = true) ->
  let first := getOrAdd env id s in
  let second := getOrAdd env id first.2 in
  exists doc,
    first.1 = AddReturned doc
    /\ has id first.2 = true
    /\ second.1 = AddReturned doc
    /\ nothingCreated first.2 second.2.
Proof.
  intros Hr Hd Hinit first second.
  assert (H1 : exists doc s1,
             first = (AddReturned doc, s1)
             /\ _documentMap s1 !! lookupKey id = Some doc).
  { subst first.
    destruct (_documentMap s !! lookupKey id) as [doc |] eqn:Hdoc.
    - rewrite (getOrAdd_tracked _ _ _ _ Hdoc), Hinit. eauto.
    - rewrite (getOrAdd_untracked _ _ _ Hdoc), (add_resolved _ _ _ _ Hr), Hinit.
      eexists _, _. split; [reflexivity |]. cbn.
      now apply denotes_lookupKey. }
  destruct H1 as (doc & s1 & Hfirst & Hmap).
  exists doc. subst second. rewrite Hfirst. cbn [fst snd].
  rewrite (getOrAdd_tracked _ _ _ _ Hmap), Hinit. cbn [fst snd].
  split; [reflexivity |]. split; [exact (has_Some _ _ _ Hmap) |].
  split; [reflexivity |]. split; reflexivity.
Qed.

Lemma getOrAdd_twice_witness :
  let d := {| ident := 1; uri := {| scheme := "file"; fsPath := "C:\w\A.ts" |} |} in
  let env := {| activeTextEditor := None; delayAfterEdit := 5000;
                openTextDocument := fun _ => Some d;
                isTextEditor := fun _ => true;
                isDirty := fun _ => true; initializes := fun _ => true |} in
  let first := getOrAdd env (OfFileName "c:/w/a.ts") (construct env) in
  let second := getOrAdd env (OfFileName "c:/w/a.ts") first.2 in
  exists doc, first.1 = AddReturned doc /\ second.1 = AddReturned doc.
Proof.
  intros d env first second.
  destruct (getOrAdd_twice env (OfFileName "c:/w/a.ts") d (construct env)
              eq_refl eq_refl (fun _ => eq_refl)) as (doc & H1 & _ & H2 & _).
  exists doc. split; [exact H1 | exact H2].
Defined.

(** X6. When the host cannot open the document of an identity, [add] is
    rejected and leaves the tracker exactly as it was; so does [getOrAdd]
    for an identity that is not tracked.  For a tracked identity
    [getOrAdd] does not ask the host: it returns the tracked document if
    its initialization fulfils, and is rejected, leaving the tracker as it
    was, if that fails. *)
Theorem add_open_failure env id s :
  resolve env id = None ->
  add env id s = (AddRejected None, s)
  /\ match _documentMap s !! lookupKey id with
     | Some doc =>
         if initializes env doc
         then (getOrAdd env id s).1 = AddReturned doc
         else getOrAdd env id s = (AddRejected None, s)
     | None => getOrAdd env id s = (AddRejected None, s)
     end.
Proof.
  intros Hr. split; [now apply add_unresolved |].
  destruct (_documentMap s !! lookupKey id) as [doc |] eqn:Hdoc.
  - rewrite (getOrAdd_tracked _ _ _ _ Hdoc).
    now destruct (initializes env doc).
  - rewrite (getOrAdd_untracked _ _ _ Hdoc). now apply add_unresolved.
Qed.

Lemma add_open_failure_witness :
  let env := {| activeTextEditor := None; delayAfterEdit := 5000;
                openTextDocument := fun _ => None;
                isTextEditor := fun _ => true;
                isDirty := fun _ => true; initializes := fun _ => true |} in
  add env (OfFileName "/w/missing.ts") (construct env)
  = (AddRejected None, construct env).
Proof.
  intros env.
  exact (proj1 (add_open_failure env (OfFileName "/w/missing.ts")
                  (construct env) eq_refl)).
Defined.

(** X7. A call of [add] that the host can resolve makes a new tracked
    document for the resolved document, with the stored dirty flag false,
    and enters it under both keys before it awaits the initialization.  If
    the initialization fulfils, [add] returns the tracked document,
    initialized; afterwards [has] is true for the document and for every
    path or URI with the document's state key, and [get] on any of them
    returns what [add] returned.  If the initialization is rejected, so is
    [add], but the tracked document it made stays where it is: still
    entered under both keys, not initialized, and found by [has]. *)
Theorem add_then_has env id h s :
  resolve env id = Some h ->
  let new := TrackedDocument.new h (toStateKey (FileUri (uri h))) false in
  if initializes env (nextRef s)
  then
    (add env id s).1 = AddReturned (nextRef s)
    /\ objects (add env id s).2 !! nextRef s = Some (initialize env new)
    /\ forall id', denotes id' h ->
         has id' (add env id s).2 = true
         /\ (get env id' (add env id s).2).1 = GetReturned (Some (nextRef s))
  else
    (add env id s).1 = AddRejected (Some (nextRef s))
    /\ objects (add env id s).2 !! nextRef s = Some new
    /\ forall id', denotes id' h ->
         has id' (add env id s).2 = true
         /\ get env id' (add env id s).2 = (GetRejected, (add env id s).2).
Proof.
  intros Hr new. rewrite (add_resolved _ _ _ _ Hr).
  destruct (initializes env (nextRef s)) eqn:Hinit; cbn [fst snd].
  - split; [reflexivity |]. split.
    + cbn. now rewrite lookup_alter_eq, lookup_insert_eq.
    + intros id' Hd.
      assert (Hmap : _documentMap
                       (onObject (initialize env) (nextRef s)
                          (snd (addCore h s))) !! lookupKey id'
                     = Some (nextRef s))
        by (cbn; now apply denotes_lookupKey).
      split; [exact (has_Some _ _ _ Hmap) |].
      now rewrite (get_tracked _ _ _ _ Hmap), Hinit.
  - split; [reflexivity |]. split.
    + cbn. now rewrite lookup_insert_eq.
    + intros id' Hd.
      assert (Hmap : _documentMap (snd (addCore h s)) !! lookupKey id'
                     = Some (nextRef s))
        by (cbn; now apply denotes_lookupKey).
      split; [exact (has_Some _ _ _ Hmap) |].
      now rewrite (get_tracked _ _ _ _ Hmap), Hinit.
Qed.

Lemma add_then_has_witness :
  let d := {| ident := 1; uri := {| scheme := "file"; fsPath := "C:\w\A.ts" |} |} in
  let env ok := {| activeTextEditor := None; delayAfterEdit := 5000;
                   openTextDocument := fun _ => Some d;
                   isTextEditor := fun _ => true;
                   isDirty := fun _ => true; initializes := fun _ => ok |} in
  let id := OfUri {| scheme := "file"; fsPath := "c:\W\a.ts" |} in
  has (OfFileName "c:/w/a.ts") (add (env true) id (construct (env true))).2 = true
  /\ (add (env false) id (construct (env false))).1 = AddRejected (Some 0%nat)
  /\ has (OfFileName "c:/w/a.ts") (add (env false) id (construct (env false))).2
     = true.
Proof.
  intros d env id.
  pose proof (add_then_has (env true) id d (construct (env true)) eq_refl) as Ht.
  pose proof (add_then_has (env false) id d (construct (env false)) eq_refl) as Hf.
  cbn zeta in Ht, Hf.
  change (initializes (env true) (nextRef (construct (env true)))) with true in Ht.
  change (initializes (env false) (nextRef (construct (env false)))) with false in Hf.
  cbv iota in Ht, Hf.
  destruct Ht as (_ & _ & Ht). destruct Hf as (Hf1 & _ & Hf).
  split; [exact (proj1 (Ht (OfFileName "c:/w/a.ts") eq_refl)) |].
  split; [exact Hf1 |].
  exact (proj1 (Hf (OfFileName "c:/w/a.ts") eq_refl)).
Defined.

(** ** Closing a document *)

(** X8. Closing undoes tracking: for a document that is not tracked and
    whose state key is free, [addCore] followed by the text-document-closed
    handler leaves the cache map exactly as it was before, and the tracked
    document made in between ends up disposed. *)
Theorem close_after_addCore d s :
  _documentMap s !! KDocument d = None ->
  _documentMap s !! KString (toStateKey (FileUri (uri d))) = None ->
  let s' := onTextDocumentClosed d (snd (addCore d s)) in
  _documentMap s' = _documentMap s
  /\ objects s' !! nextRef s
     = Some (TrackedDocument.dispose
               (TrackedDocument.new d (toStateKey (FileUri (uri d))) false)).
Proof.
  intros Hd Hk s'.
  destruct (addCore_createdFor d s) as (_ & Ho & Hm & _).
  subst s'. rewrite (onTextDocumentClosed_tracked _ _ _ _ Hm Ho). cbn. split.
  - apply map_eq. intros k.
    rewrite !lookup_delete, !lookup_insert.
    repeat case_decide; congruence.
  - now rewrite lookup_alter_eq, lookup_insert_eq.
Qed.

Lemma close_after_addCore_witness :
  let d := {| ident := 1; uri := {| scheme := "file"; fsPath := "/w/a.ts" |} |} in
  let env := {| activeTextEditor := None; delayAfterEdit := 5000;
                openTextDocument := fun _ => None;
                isTextEditor := fun _ => true;
                isDirty := fun _ => true; initializes := fun _ => true |} in
  _documentMap (onTextDocumentClosed d (snd (addCore d (construct env))))
  = _documentMap (construct env).
Proof.
  intros d env.
  exact (proj1 (close_after_addCore d (construct env) eq_refl eq_refl)).
Defined.

(** X9. In every state a tracker can reach, the text-document-closed
    handler does nothing at all for a document that is not tracked.  For a
    tracked one it disposes that document's tracked document and no other,
    creates nothing, and removes from the cache map the entry under the
    document's handle and the entry under its state key, and nothing
    else. *)
Theorem close_only_that_document env0 trace d :
  let s := run trace (construct env0) in
  let s' := onTextDocumentClosed d s in
  match _documentMap s !! KDocument d with
  | None => s' = s
  | Some doc =>
      nextRef s' = nextRef s
      /\ (exists o, objects s !! doc = Some o
                    /\ objects s' !! doc = Some (TrackedDocument.dispose o))
      /\ (forall r, r <> doc -> objects s' !! r = objects s !! r)
      /\ _documentMap s' !! KDocument d = None
      /\ _documentMap s' !! KString (toStateKey (FileUri (uri d))) = None
      /\ (forall k, k <> KDocument d ->
                    k <> KString (toStateKey (FileUri (uri d))) ->
                    _documentMap s' !! k = _documentMap s !! k)
  end.
Proof.
  intros s s'.
  assert (W : wellFormed s) by (apply wf_run, wf_construct).
  destruct (_documentMap s !! KDocument d) as [doc |] eqn:Hdoc.
  - destruct W as (W1 & W2 & _).
    destruct (W2 _ _ Hdoc) as (o & Ho & Hod).
    destruct (W1 _ _ Ho) as [_ Hkey]. rewrite Hod in Hkey.
    subst s'. rewrite (onTextDocumentClosed_tracked _ _ _ _ Hdoc Ho).
    cbn. rewrite Hkey. split; [reflexivity |].
    split; [| split; [| split; [| split]]].
    + exists o. split; [exact Ho |]. now rewrite lookup_alter_eq, Ho.
    + intros r Hr. now rewrite lookup_alter_ne by congruence.
    + rewrite lookup_delete_ne by discriminate. apply lookup_delete_eq.
    + apply lookup_delete_eq.
    + intros k Hk1 Hk2.
      rewrite lookup_delete_ne by congruence.
      now rewrite lookup_delete_ne by congruence.
  - subst s'. unfold onTextDocumentClosed. now rewrite Hdoc.
Qed.

(** ** What a change event leaves behind *)

Lemma changed_object env e s doc s0 o :
  scheme (uri (tdc_document e)) = DocumentSchemes.File ->
  lookupOrAdd (tdc_document e) s = (doc, s0) ->
  objects s0 !! doc = Some o ->
  exists o',
    objects (onTextDocumentChanged env e s) !! doc = Some o'
    /\ TrackedDocument.cache o' = CacheReset ReasonDocument
    /\ TrackedDocument.isDirtyIdle o' = false
    /\ TrackedDocument.dirty o' = tdc_isDirty e
    /\ TrackedDocument.forceDirtyStateChangeOnNextDocumentChange o' = false.
Proof.
  intros Hscheme Hdoc Ho.
  rewrite (onTextDocumentChanged_unfold _ _ _ _ _ Hscheme Hdoc).
  set (s1 := onObject (TrackedDocument.reset ReasonDocument) doc s0).
  set (s2 := resetOrCancelIdle _ _ _ s1).
  destruct (resetOrCancelIdle_frame (activeTextEditor env) (tdc_isDirty e) doc s1)
    as (Hobj2 & _).
  fold s2 in Hobj2.
  assert (Ho2 : objects s2 !! doc = Some (TrackedDocument.reset ReasonDocument o)).
  { rewrite Hobj2. subst s1. cbn. now rewrite lookup_alter_eq, Ho. }
  unfold changeDirtyState. rewrite Ho2.
  cbn [TrackedDocument.reset
         TrackedDocument.forceDirtyStateChangeOnNextDocumentChange
         TrackedDocument.dirty].
  destruct (negb (TrackedDocument.forceDirtyStateChangeOnNextDocumentChange o)
            && Bool.eqb (TrackedDocument.dirty o) (tdc_isDirty e)) eqn:Hguard.
  - apply andb_true_iff in Hguard as [Hf Hd].
    apply negb_true_iff in Hf. apply Bool.eqb_prop in Hd.
    eexists. split; [exact Ho2 |]. cbn. auto.
  - set (s4 := onObject (TrackedDocument.set_dirty _) doc _).
    assert (Ho4 : objects s4 !! doc
                  = Some (TrackedDocument.set_dirty (tdc_isDirty e)
                            (TrackedDocument.resetForceDirtyStateChangeOnNextDocumentChange
                               (TrackedDocument.reset ReasonDocument o)))).
    { subst s4. cbn. now rewrite !lookup_alter_eq, Ho2. }
    assert (Hfin : forall s5, objects s5 = objects s4 ->
              exists o',
                objects s5 !! doc = Some o'
                /\ TrackedDocument.cache o' = CacheReset ReasonDocument
                /\ TrackedDocument.isDirtyIdle o' = false
                /\ TrackedDocument.dirty o' = tdc_isDirty e
                /\ TrackedDocument.forceDirtyStateChangeOnNextDocumentChange o'
                   = false).
    { intros s5 ->. eexists. split; [exact Ho4 |]. cbn. auto. }
    destruct (activeTextEditor env) as [ed |]; [| now apply Hfin].
    destruct (bool_decide _); [| now apply Hfin].
    apply Hfin.
    apply (fireDocumentDirtyStateChanged_frame
             {| dsc_editor := ed; dsc_document := doc;
                dsc_dirty := tdc_isDirty e |} s4).
Qed.

(** X10. In every state a tracker can reach, a text-document-changed event
    for a document outside the file scheme changes nothing.  One for a
    file-scheme document leaves the document tracked with its cached state
    reset for reason [document], not dirty-idle, with no forced
    notification pending and with the stored dirty flag equal to the
    buffer's, whether or not the dirty state changed. *)
Theorem changed_leaves_behind env0 trace env e :
  let s := run trace (construct env0) in
  let s' := onTextDocumentChanged env e s in
  if String.eqb (scheme (uri (tdc_document e))) DocumentSchemes.File
  then
    exists doc o',
      _documentMap s' !! KDocument (tdc_document e) = Some doc
      /\ objects s' !! doc = Some o'
      /\ TrackedDocument.cache o' = CacheReset ReasonDocument
      /\ TrackedDocument.isDirtyIdle o' = false
      /\ TrackedDocument.dirty o' = tdc_isDirty e
      /\ TrackedDocument.forceDirtyStateChangeOnNextDocumentChange o' = false
  else s' = s.
Proof.
  intros s s'.
  assert (W : wellFormed s) by (apply wf_run, wf_construct).
  destruct (String.eqb (scheme (uri (tdc_document e))) DocumentSchemes.File)
    eqn:Hscheme.
  - apply String.eqb_eq in Hscheme.
    destruct (lookupOrAdd (tdc_document e) s) as [doc s0] eqn:Hdoc.
    destruct (wf_lookupOrAdd _ _ _ _ Hdoc W) as (_ & Hin & o & Ho & _).
    destruct (changed_object env e s doc s0 o Hscheme Hdoc Ho)
      as (o' & Ho' & Hrest).
    exists doc, o'. split; [| split; [exact Ho' | exact Hrest]].
    subst s'. rewrite (onTextDocumentChanged_unfold _ _ _ _ _ Hscheme Hdoc).
    destruct (changed_tail_frame (activeTextEditor env) (tdc_document e)
                (tdc_isDirty e) doc s0) as (Hm & _).
    rewrite Hm. exact Hin.
  - subst s'. unfold onTextDocumentChanged. now rewrite Hscheme.
Qed.
(** ** When events are fired *)

Lemma emitted_onTextDocumentChanged env e s :
  emitted (onTextDocumentChanged env e s) = emitted s
  /\ suspended (onTextDocumentChanged env e s) = suspended s.
Proof.
  destruct (String.eqb (scheme (uri (tdc_document e))) DocumentSchemes.File)
    eqn:Hscheme.
  2: { unfold onTextDocumentChanged. now rewrite Hscheme. }
  apply String.eqb_eq in Hscheme.
  destruct (lookupOrAdd (tdc_document e) s) as [doc s0] eqn:Hdoc.
  rewrite (onTextDocumentChanged_unfold _ _ _ _ _ Hscheme Hdoc).
  destruct (lookupOrAdd_frame _ _ _ _ Hdoc)
    as (<- & _ & _ & _ & _ & _ & _ & _ & <-).
  unfold changeDirtyState, resetOrCancelIdle, fireDocumentDirtyStateChanged,
    onObject.
  cbn. break_matches; split; reflexivity.
Qed.

Lemma emitted_step_other env i s :
  match i with
  | BlameStateChangeRaised _ | ContinuationResumed _ => True
  | _ =>
      emitted (step env i s) = emitted s
      /\ forall e,
          FireDirtyStateChanged e ∈ suspended (step env i s) ->
          FireDirtyStateChanged e ∈ suspended s
          \/ activeTextEditor env = Some (dsc_editor e)
  end.
Proof.
  destruct i; try exact I; cbn [step];
    try (unfold fireTextDocumentChanged; cbn zeta;
         destruct (Deferrable.due _ _);
         [match goal with
          | |- context [onTextDocumentChanged ?a ?b ?c] =>
              destruct (emitted_onTextDocumentChanged a b c) as (-> & ->)
          end |];
         cbn; auto);
    unfold_handlers; cbn; break_matches; cbn;
    (split; [reflexivity |]); intros e0 He0; auto;
    apply elem_of_app in He0 as [He0 | He0]; auto;
    apply list_elem_of_singleton in He0; simplify_eq;
    right;
    match goal with
    | H : bool_decide _ = true |- _ => apply bool_decide_eq_true in H; exact H
    end.
Qed.

(** X11. No handler, timer or queued task fires an event itself.  A
    blame-state event is fired when a tracked document calls its delegate.
    A dirty-state-changed or dirty-idle-triggered event is fired only when
    a callback that was suspended at its [await] is resumed: that callback
    leaves the list of suspended callbacks, and it fires its one event if
    the awaited initialization fulfilled (the active editor is not tested
    again) and nothing if it was rejected.  Every other input leaves what
    was fired as it is, and a callback that will fire a dirty-state-changed
    event is suspended only at a moment at which the event's editor is the
    active one. *)
Theorem events_only_after_await env i s :
  match i with
  | BlameStateChangeRaised e =>
      emitted (step env i s) = emitted s ++ [BlameStateChanged e]
  | ContinuationResumed k =>
      match suspended s !! k with
      | Some c =>
          suspended (step env i s) = delete k (suspended s)
          /\ emitted (step env i s)
             = emitted s
               ++ (if initializes env (awaited c) then [eventOf c] else [])
      | None => step env i s = s
      end
  | _ =>
      emitted (step env i s) = emitted s
      /\ forall e,
          FireDirtyStateChanged e ∈ suspended (step env i s) ->
          FireDirtyStateChanged e ∈ suspended s
          \/ activeTextEditor env = Some (dsc_editor e)
  end.
Proof.
  pose proof (emitted_step_other env i s) as H.
  destruct i; try exact H; cbn [step].
  - reflexivity.
  - unfold resumeContinuation.
    destruct (suspended s !! i) as [c |]; [| reflexivity]. cbn zeta.
    destruct (initializes env (awaited c)).
    + destruct c; cbn; auto.
    + cbn. now rewrite app_nil_r.
Qed.

(** ** Idle triggering switched off *)

Lemma idleOff_onTextDocumentChanged env e s :
  idleOff s -> idleOff (onTextDocumentChanged env e s).
Proof.
  intros (Hdelay & Hidle & Hdet & Hsus & Hem). unfold idleOff, idleSuspended.
  destruct (emitted_onTextDocumentChanged env e s) as (-> & ->).
  destruct (String.eqb (scheme (uri (tdc_document e))) DocumentSchemes.File)
    eqn:Hscheme.
  2: { unfold onTextDocumentChanged. rewrite Hscheme. cbn. tauto. }
  apply String.eqb_eq in Hscheme.
  destruct (lookupOrAdd (tdc_document e) s) as [doc s0] eqn:Hdoc.
  rewrite (onTextDocumentChanged_unfold _ _ _ _ _ Hscheme Hdoc).
  destruct (lookupOrAdd_frame _ _ _ _ Hdoc)
    as (_ & _ & _ & Hi0 & Hd0 & Hdet0 & _).
  rewrite <- Hi0 in Hidle. rewrite <- Hd0 in Hdelay.
  rewrite <- Hdet0 in Hdet.
  assert (Hlt : (0 <? _dirtyIdleTriggerDelay s0) = false) by lia.
  unfold changeDirtyState, resetOrCancelIdle,
    fireDocumentDirtyStateChanged, onObject.
  cbn. rewrite Hidle. cbn. rewrite ?Hlt.
  break_matches; cbn; rewrite ?Hidle; repeat split; auto; lia.
Qed.

Lemma idleOff_step env i s :
  delayAfterEdit env <= 0 -> idleOff s -> idleOff (step env i s).
Proof.
  intros Henv Hoff. destruct i; cbn [step];
    try (unfold fireTextDocumentChanged; cbn zeta;
         destruct (Deferrable.due _ _); [| exact Hoff];
         apply idleOff_onTextDocumentChanged; exact Hoff).
  all: destruct Hoff as (Hdelay & Hidle & Hdet & Hsus & Hem);
    unfold idleOff, idleSuspended in *.
  all: try (destruct (suspended s !! i) as [c |] eqn:Hc;
            [ assert (Hk : exists e, c = FireDirtyStateChanged e);
              [ destruct c as [e | e]; [eauto |];
                exfalso;
                assert (Hin : e ∈ omap (fun k => match k with
                                                 | TriggerDirtyIdle e => Some e
                                                 | FireDirtyStateChanged _ => None
                                                 end) (suspended s))
                  by (apply list_elem_of_omap; exists (TriggerDirtyIdle e);
                      split; [eapply list_elem_of_lookup_2; eauto | reflexivity]);
                rewrite Hsus in Hin; inversion Hin
              | destruct Hk as [e ->];
                assert (Hdel : omap (fun k => match k with
                                              | TriggerDirtyIdle e => Some e
                                              | FireDirtyStateChanged _ => None
                                              end) (delete i (suspended s)) = [])
                  by (destruct (omap _ (delete i (suspended s))) as [| x l] eqn:E;
                      [reflexivity |];
                      exfalso;
                      assert (Hx : x ∈ omap (fun k => match k with
                                                      | TriggerDirtyIdle e => Some e
                                                      | FireDirtyStateChanged _ => None
                                                      end) (delete i (suspended s)))
                        by (rewrite E; left);
                      apply list_elem_of_omap in Hx as (k' & Hk' & Hk'');
                      apply list_elem_of_delete_inv in Hk';
                      assert (Hy : x ∈ omap (fun k => match k with
                                                      | TriggerDirtyIdle e => Some e
                                                      | FireDirtyStateChanged _ => None
                                                      end) (suspended s))
                        by (apply list_elem_of_omap; eauto);
                      rewrite Hsus in Hy; inversion Hy);
                unfold resumeContinuation; rewrite Hc; cbn zeta;
                destruct (initializes env _); cbn;
                rewrite ?idleTriggers_app, ?Hdel, ?Hem; cbn; repeat split; auto ]
            | unfold resumeContinuation; rewrite Hc; repeat split; auto ]; fail).
  all: unfold_handlers; cbn; unfold Deferrable.due, Deferrable.pending;
    rewrite ?Hidle, ?Hdet; cbn;
    break_matches; cbn;
    rewrite ?idleTriggers_app, ?omap_app, ?Hem, ?Hidle, ?Hdet, ?Hsus; cbn;
    repeat split; auto; try lia; try discriminate.
Qed.

Lemma idleOff_construct env : delayAfterEdit env <= 0 -> idleOff (construct env).
Proof. intros H. unfold idleOff. cbn. auto. Qed.

(** X12. A delay of zero (or less) switches idle triggering off: as long
    as the configured delay-after-edit is never positive, the tracker never
    makes an idle debounce and never fires a dirty-idle-triggered event,
    whatever happens to it. *)
Theorem no_idle_trigger_without_delay env0 trace :
  delayAfterEdit env0 <= 0 ->
  Forall (fun x => delayAfterEdit x.1 <= 0) trace ->
  let s := run trace (construct env0) in
  _dirtyIdleTriggeredDebounced s = None
  /\ idleTriggers (emitted s) = [].
Proof.
  intros H0 Htrace s.
  assert (Hoff : idleOff s).
  { subst s. generalize (idleOff_construct env0 H0).
    generalize (construct env0) as s.
    induction trace as [| [env i] trace IH]; intros s Hs; [exact Hs |].
    apply Forall_cons in Htrace as [Hi Htrace]. cbn in Hi. cbn [run].
    apply IH; [exact Htrace | now apply idleOff_step]. }
  destruct Hoff as (_ & Hidle & _ & _ & Hem). auto.
Qed.

Lemma no_idle_trigger_without_delay_witness :
  let d := {| ident := 1; uri := {| scheme := "file"; fsPath := "/w/a.ts" |} |} in
  let ed := {| editor_id := 0; editor_document := d |} in
  let env := {| activeTextEditor := Some ed; delayAfterEdit := 0;
                openTextDocument := fun _ => None;
                isTextEditor := fun _ => true;
                isDirty := fun _ => true; initializes := fun _ => true |} in
  let trace := [(env, TextDocumentChanged d)] ++ elapse env 50
               ++ [(env, TextDocumentChangedTimer); (env, ImmediateRun);
                   (env, ContinuationResumed 0%nat); (env, DirtyIdleTimer)] in
  emitted (run trace (construct env))
  = [DirtyStateChanged
       {| dsc_editor := ed; dsc_document := 0%nat; dsc_dirty := true |}]
  /\ idleTriggers (emitted (run trace (construct env))) = [].
Proof.
  intros d ed env trace.
  assert (H0 : delayAfterEdit env <= 0) by (cbn; lia).
  assert (Htrace : Forall (fun x : Env * Input => delayAfterEdit x.1 <= 0) trace).
  { apply Forall_forall. intros x Hx.
    repeat (apply elem_of_app in Hx as [Hx | Hx]);
      try (apply elem_of_replicate in Hx as [-> _]; cbn; lia).
    - apply list_elem_of_singleton in Hx as ->. cbn. lia.
    - repeat (apply elem_of_cons in Hx as [-> | Hx]; [cbn; lia |]).
      inversion Hx. }
  split; [vm_compute; reflexivity |].
  exact (proj2 (no_idle_trigger_without_delay env _ H0 Htrace)).
Defined.
(** ** The waits of the debounced functions *)

(** X13. In every state a tracker can reach, an idle debounce it holds was
    made with the delay the tracker has stored, and that delay is positive;
    the debounce of the clean branch, if it exists, waits 250
    milliseconds. *)
Theorem debounce_waits env0 trace :
  let s := run trace (construct env0) in
  (forall d, _dirtyIdleTriggeredDebounced s = Some d ->
             Deferrable.wait d = _dirtyIdleTriggerDelay s
             /\ 0 < _dirtyIdleTriggerDelay s)
  /\ (forall d, _dirtyStateChangedDebounced s = Some d ->
                Deferrable.wait d = 250).
Proof.
  intros s. exact (debounceWaits_run trace _ (debounceWaits_construct env0)).
Qed.

(** ** The became-clean debounce *)

Lemma run_elapse env n s :
  run (elapse env n) s = set_now (now s + Z.of_nat n) s.
Proof.
  revert s. unfold elapse.
  induction n as [| n IH]; intros s; cbn [replicate run step].
  - destruct s. unfold set_now. cbn. f_equal. lia.
  - rewrite IH. unfold set_now. cbn. f_equal. lia.
Qed.

(** X14. A dirty-state change to clean is held back for 250 milliseconds:
    after [fireDocumentDirtyStateChanged] was called with a clean event in
    a reachable state, the debounce timer going off after fewer than 250
    milliseconds does nothing.  Going off after 250 or more it leaves no
    call pending and fires nothing yet: if the event's editor is no longer
    the active one the event is dropped; otherwise the callback waits for
    the tracked document's initialization and, resumed, fires exactly that
    event if the initialization fulfilled and nothing if it failed. *)
Theorem clean_event_after_quiet_period env0 trace ev env env' n :
  dsc_dirty ev = false ->
  let s := run trace (construct env0) in
  let waited := run (elapse env n) (fireDocumentDirtyStateChanged ev s) in
  let s' := fireDirtyStateChanged env waited in
  if Z.of_nat n <? 250
  then s' = waited
  else
    emitted s' = emitted s
    /\ (exists d, _dirtyStateChangedDebounced s' = Some d
                  /\ Deferrable.pendingCall d = None)
    /\ if bool_decide (activeTextEditor env = Some (dsc_editor ev))
       then
         suspended s' = suspended s ++ [FireDirtyStateChanged ev]
         /\ emitted (resumeContinuation env' (length (suspended s)) s')
            = emitted s
              ++ (if initializes env' (dsc_document ev)
                  then [DirtyStateChanged ev] else [])
       else suspended s' = suspended s.
Proof.
  intros Hclean s waited s'.
  assert (Hw : debounceWaits s)
    by (apply debounceWaits_run, debounceWaits_construct).
  destruct Hw as [_ Hw].
  assert (Hwait : Deferrable.wait
                    match _dirtyStateChangedDebounced s with
                    | Some d => d
                    | None => Deferrable.debounce 250
                    end = 250).
  { destruct (_dirtyStateChangedDebounced s) as [d |] eqn:Hd;
      [now apply Hw | reflexivity]. }
  assert (Hs' : s' = if now s + 250 <=? now s + Z.of_nat n
                     then dirtyStateChangedCallback env ev
                            (set_dirtyStateChangedDebounced
                               (Some (Deferrable.cancel
                                        (Deferrable.call (now s) ev
                                           match _dirtyStateChangedDebounced s with
                                           | Some d => d
                                           | None => Deferrable.debounce 250
                                           end)))
                               waited)
                     else waited).
  { subst s' waited. rewrite run_elapse.
    unfold fireDocumentDirtyStateChanged. rewrite Hclean.
    unfold fireDirtyStateChanged, Deferrable.due. cbn. rewrite Hwait.
    destruct (now s + 250 <=? now s + Z.of_nat n); reflexivity. }
  destruct (Z.of_nat n <? 250) eqn:Hn.
  - assert (Hle : (now s + 250 <=? now s + Z.of_nat n) = false) by lia.
    now rewrite Hle in Hs'.
  - assert (Hle : (now s + 250 <=? now s + Z.of_nat n) = true) by lia.
    rewrite Hle in Hs'.
    assert (Hsus : suspended waited = suspended s /\ emitted waited = emitted s).
    { subst waited. rewrite run_elapse.
      unfold fireDocumentDirtyStateChanged. rewrite Hclean. cbn. auto. }
    destruct Hsus as [Hsus Hem].
    unfold dirtyStateChangedCallback in Hs'.
    clearbody s' waited.
    destruct (bool_decide (activeTextEditor env = Some (dsc_editor ev))).
    + rewrite Hs'. unfold suspend. cbn. rewrite Hsus, Hem.
      split; [reflexivity |]. split; [eauto |]. split; [reflexivity |].
      match goal with
      | |- emitted (resumeContinuation _ _ ?t) = _ =>
          destruct (resumeContinuation_last env' t (suspended s)
                      (FireDirtyStateChanged ev)) as (_ & Hfire);
            [reflexivity |]
      end.
      rewrite Hfire. cbn. now rewrite Hem.
    + rewrite Hs'. cbn. rewrite Hsus, Hem. eauto.
Qed.

Lemma clean_event_after_quiet_period_witness :
  let d := {| ident := 1; uri := {| scheme := "file"; fsPath := "/w/a.ts" |} |} in
  let ed := {| editor_id := 0; editor_document := d |} in
  let env := {| activeTextEditor := Some ed; delayAfterEdit := 5000;
                openTextDocument := fun _ => None;
                isTextEditor := fun _ => true;
                isDirty := fun _ => true; initializes := fun _ => true |} in
  let ev := {| dsc_editor := ed; dsc_document := 0%nat; dsc_dirty := false |} in
  let s := run [] (construct env) in
  (let waited := run (elapse env 10) (fireDocumentDirtyStateChanged ev s) in
   fireDirtyStateChanged env waited = waited)
  /\ (let waited := run (elapse env 250) (fireDocumentDirtyStateChanged ev s) in
      emitted (resumeContinuation env 0%nat (fireDirtyStateChanged env waited))
      = [DirtyStateChanged ev]).
Proof.
  intros d ed env ev s. split.
  - exact (clean_event_after_quiet_period env [] ev env env 10 eq_refl).
  - pose proof (clean_event_after_quiet_period env [] ev env env 250 eq_refl) as H.
    cbv zeta in H.
    change (Z.of_nat 250 <? 250) with false in H. cbv iota in H.
    destruct H as (_ & _ & H).
    change (bool_decide (activeTextEditor env = Some (dsc_editor ev)))
      with true in H.
    cbv iota in H. exact (proj2 H).
Defined.

(** X15. A dirty notification overtakes a pending clean one: the
    [setImmediate] task of the dirty branch cancels the became-clean
    debounce before anything else, so that when the task is suspended (or
    has ended because its editor is no longer active) that debounce has no
    call pending and its timer going off changes nothing.  The task is
    taken off the queue, fires nothing itself, and is suspended for the
    tracked document's initialization exactly if its editor is still the
    active one. *)
Theorem dirty_task_cancels_clean env s e rest :
  immediates s = e :: rest ->
  let s' := runImmediate env s in
  immediates s' = rest
  /\ (forall d, _dirtyStateChangedDebounced s' = Some d ->
                Deferrable.pendingCall d = None)
  /\ emitted s' = emitted s
  /\ suspended s'
     = suspended s
       ++ (if bool_decide (activeTextEditor env = Some (dsc_editor e))
           then [FireDirtyStateChanged e] else [])
  /\ forall env', fireDirtyStateChanged env' s' = s'.
Proof.
  intros Hq. unfold runImmediate. rewrite Hq.
  unfold runDirtyImmediate, fireDirtyStateChanged, Deferrable.due, suspend.
  cbn.
  destruct (_dirtyStateChangedDebounced s) as [d |] eqn:Hd; cbn;
    destruct (bool_decide (activeTextEditor env = Some (dsc_editor e))); cbn;
    rewrite ?Hd, ?app_nil_r; cbn;
    (split; [reflexivity |]);
    (split; [intros d' Hd'; try (now injection Hd' as <-); discriminate |]);
    (split; [reflexivity |]); (split; reflexivity).
Qed.

Lemma dirty_task_cancels_clean_witness :
  let d := {| ident := 1; uri := {| scheme := "file"; fsPath := "/w/a.ts" |} |} in
  let ed := {| editor_id := 0; editor_document := d |} in
  let env dirty := {| activeTextEditor := Some ed; delayAfterEdit := 5000;
                      openTextDocument := fun _ => None;
                      isTextEditor := fun _ => true;
                      isDirty := fun _ => dirty;
                      initializes := fun _ => true |} in
  let change dirty :=
    [(env dirty, TextDocumentChanged d)] ++ elapse (env dirty) 50
    ++ [(env dirty, TextDocumentChangedTimer)] in
  let s := run (change true ++ [(env true, ImmediateRun)]
                ++ change false ++ change true) (construct (env true)) in
  (exists d0, _dirtyStateChangedDebounced s = Some d0
              /\ is_Some (Deferrable.pendingCall d0))
  /\ immediates (runImmediate (env true) s) = []
  /\ forall env', fireDirtyStateChanged env' (runImmediate (env true) s)
                  = runImmediate (env true) s.
Proof.
  intros d ed env change s.
  assert (Hq : immediates s
               = [{| dsc_editor := ed; dsc_document := 0%nat; dsc_dirty := true |}])
    by (vm_compute; reflexivity).
  assert (Hp : exists d0, _dirtyStateChangedDebounced s = Some d0
                          /\ is_Some (Deferrable.pendingCall d0))
    by (vm_compute; eauto).
  destruct (dirty_task_cancels_clean (env true) s _ _ Hq)
    as (H1 & _ & _ & _ & H4).
  split; [exact Hp |]. split; [exact H1 | exact H4].
Defined.

(** ** Spellings of an identity *)

(** X16. [has] does not depend on the spelling of a path: two paths or
    URIs that spell the same path up to letter case and separator style
    are tracked or untracked together, in every tracker. *)
Theorem has_same_spelling (a b : FileNameOrUri) s :
  sameSpelling (suppliedPath a) (suppliedPath b) ->
  has (asIdentity a) s = has (asIdentity b) s.
Proof.
  intros H.
  assert (Hk : toStateKey a = toStateKey b).
  { unfold toStateKey. now apply toLowerCase_normalizePath_sameSpelling. }
  rewrite !has_lookupKey.
  assert (Hl : forall x, lookupKey (asIdentity x) = KString (toStateKey x))
    by (intros [f | u]; reflexivity).
  now rewrite !Hl, Hk.
Qed.

Lemma has_same_spelling_witness :
  let E := ascii_of_N 201 in
  let e := ascii_of_N 233 in
  let d := {| ident := 1;
              uri := {| scheme := "file"; fsPath := String e "\B" |} |} in
  let env := {| activeTextEditor := None; delayAfterEdit := 5000;
                openTextDocument := fun _ => None;
                isTextEditor := fun _ => true;
                isDirty := fun _ => true; initializes := fun _ => true |} in
  let s := snd (addCore d (construct env)) in
  has (OfFileName (String E "\b")) s = true
  /\ has (OfFileName (String E "\b")) s
     = has (OfUri {| scheme := "file"; fsPath := String e "/B" |}) s.
Proof.
  intros E e d env s.
  assert (H : sameSpelling (String E "\b") (String e "/B")).
  { apply sameSpelling_cons; [exact (sameChar_case_l E eq_refl) |].
    apply sameSpelling_cons; [exact sameChar_sep_l |].
    apply sameSpelling_cons; [exact (sameChar_case_r "B"%char eq_refl) |].
    exact sameSpelling_nil. }
  split; [reflexivity |].
  exact (has_same_spelling (FileName (String E "\b"))
           (FileUri {| scheme := "file"; fsPath := String e "/B" |}) s H).
Defined.
(** ** The idle debounce going off *)

(** X17. The idle trigger goes off once the stored delay has passed: after
    [fireDocumentDirtyStateChanged] was called with a dirty event in a
    reachable state with a positive stored delay, the idle timer going off
    earlier than the delay does nothing.  Going off after the delay with no
    edit in between, it leaves no call pending and fires nothing yet: the
    callback waits for the tracked document's initialization.  Resumed
    after that has fulfilled, it marks the tracked document initialized and
    dirty-idle and fires one dirty-idle-triggered event for the event's
    editor and document; resumed after it has failed, it does nothing. *)
Theorem idle_trigger_after_delay env0 trace ev env env' n :
  dsc_dirty ev = true ->
  0 < _dirtyIdleTriggerDelay (run trace (construct env0)) ->
  let s := run trace (construct env0) in
  let waited := run (elapse env n) (fireDocumentDirtyStateChanged ev s) in
  let s' := fireDirtyIdle waited in
  let idle := {| dit_editor := Some (dsc_editor ev);
                 dit_document := dsc_document ev |} in
  if Z.of_nat n <? _dirtyIdleTriggerDelay s
  then s' = waited
  else
    emitted s' = emitted s
    /\ suspended s' = suspended s ++ [TriggerDirtyIdle idle]
    /\ (exists d, _dirtyIdleTriggeredDebounced s' = Some d
                  /\ Deferrable.pendingCall d = None)
    /\ let s'' := resumeContinuation env' (length (suspended s)) s' in
       if initializes env' (dsc_document ev)
       then
         emitted s'' = emitted s ++ [DirtyIdleTriggered idle]
         /\ objects s'' !! dsc_document ev
            = (fun o => TrackedDocument.set_isDirtyIdle true (initialize env' o))
                <$> objects s !! dsc_document ev
       else emitted s'' = emitted s /\ objects s'' = objects s.
Proof.
  intros Hdirty Hpos s waited s' idle.
  assert (Hw : debounceWaits s)
    by (apply debounceWaits_run, debounceWaits_construct).
  destruct Hw as [Hw _]. fold s in Hpos.
  assert (Hlt : (0 <? _dirtyIdleTriggerDelay s) = true) by lia.
  assert (Hwait : Deferrable.wait
                    match _dirtyIdleTriggeredDebounced s with
                    | Some d => d
                    | None => Deferrable.debounce (_dirtyIdleTriggerDelay s)
                    end = _dirtyIdleTriggerDelay s).
  { destruct (_dirtyIdleTriggeredDebounced s) as [d |] eqn:Hd;
      [now apply Hw | reflexivity]. }
  subst s' waited. rewrite run_elapse.
  unfold fireDocumentDirtyStateChanged. rewrite Hdirty. cbn. rewrite Hlt.
  unfold fireDirtyIdle, dirtyIdleCallback, Deferrable.due, Deferrable.pending,
    suspend.
  cbn. rewrite Hwait.
  destruct (Z.of_nat n <? _dirtyIdleTriggerDelay s) eqn:Hn.
  - assert (Hle : (now s + _dirtyIdleTriggerDelay s <=? now s + Z.of_nat n)
                  = false) by lia.
    now rewrite Hle.
  - assert (Hle : (now s + _dirtyIdleTriggerDelay s <=? now s + Z.of_nat n)
                  = true) by lia.
    rewrite Hle. cbn. split; [reflexivity |]. split; [reflexivity |].
    split; [eexists; split; reflexivity |].
    unfold resumeContinuation. cbn.
    rewrite lookup_app_r by lia. rewrite Nat.sub_diag. cbn.
    destruct (initializes env' (dsc_document ev)); cbn.
    + split; [reflexivity |].
      rewrite !lookup_alter_eq. now destruct (objects s !! dsc_document ev).
    + split; reflexivity.
Qed.

Lemma idle_trigger_after_delay_witness :
  let d := {| ident := 1; uri := {| scheme := "file"; fsPath := "/w/a.ts" |} |} in
  let ed := {| editor_id := 0; editor_document := d |} in
  let env := {| activeTextEditor := Some ed; delayAfterEdit := 3;
                openTextDocument := fun _ => None;
                isTextEditor := fun _ => true;
                isDirty := fun _ => true; initializes := fun _ => true |} in
  let ev := {| dsc_editor := ed; dsc_document := 0%nat; dsc_dirty := true |} in
  let waited := run (elapse env 3)
                  (fireDocumentDirtyStateChanged ev (run [] (construct env))) in
  emitted (resumeContinuation env 0%nat (fireDirtyIdle waited))
  = [DirtyIdleTriggered {| dit_editor := Some ed; dit_document := 0%nat |}].
Proof.
  intros d ed env ev waited.
  assert (Hpos : 0 < _dirtyIdleTriggerDelay (run [] (construct env)))
    by (cbn; lia).
  pose proof (idle_trigger_after_delay env [] ev env env 3 eq_refl Hpos) as H.
  cbv zeta in H.
  change (Z.of_nat 3 <? _dirtyIdleTriggerDelay (run [] (construct env)))
    with false in H.
  cbv iota in H. destruct H as (_ & _ & _ & H).
  change (initializes env (dsc_document ev)) with true in H. cbv iota in H.
  exact (proj1 H).
Defined.

(** ** Replacing a tracked document *)

(** X18. [addCore] never disposes or otherwise touches what it replaces:
    in every state a tracker can reach, after [addCore] for a document that
    is already tracked, the map points at the new tracked document under
    both keys, while the one that was tracked before is still in the object
    store, unchanged and no longer entered under the document's handle or
    state key. *)
Theorem addCore_leaves_replaced env0 trace d :
  let s := run trace (construct env0) in
  let s' := snd (addCore d s) in
  forall doc,
    _documentMap s !! KDocument d = Some doc ->
    doc <> nextRef s
    /\ is_Some (objects s !! doc)
    /\ objects s' !! doc = objects s !! doc
    /\ _documentMap s' !! KDocument d = Some (nextRef s)
    /\ _documentMap s' !! KString (toStateKey (FileUri (uri d)))
       = Some (nextRef s).
Proof.
  intros s s' doc Hdoc.
  assert (W : wellFormed s) by (apply wf_run, wf_construct).
  destruct W as (W1 & W2 & _).
  destruct (W2 _ _ Hdoc) as (o & Ho & _). destruct (W1 _ _ Ho) as [Hlt _].
  destruct (addCore_createdFor d s) as (_ & _ & Hm1 & Hm2).
  split; [lia |]. split; [eauto |]. split; [| split; assumption].
  subst s'. cbn. rewrite lookup_insert_ne by lia. reflexivity.
Qed.


Lemma addCore_leaves_replaced_witness :
  let d := {| ident := 1; uri := {| scheme := "file"; fsPath := "/w/a.ts" |} |} in
  let ed := {| editor_id := 0; editor_document := d |} in
  let env := {| activeTextEditor := Some ed; delayAfterEdit := 5000;
                openTextDocument := fun _ => None;
                isTextEditor := fun _ => true;
                isDirty := fun _ => true; initializes := fun _ => true |} in
  let s := run [(env, ActiveTextEditorChanged (Some ed));
                (env, ActiveTextEditorChangedTimer)] (construct env) in
  objects (snd (addCore d s)) !! 0%nat = objects s !! 0%nat
  /\ _documentMap (snd (addCore d s)) !! KDocument d = Some (nextRef s).
Proof.
  intros d ed env s.
  assert (H : _documentMap s !! KDocument d = Some 0%nat)
    by (vm_compute; reflexivity).
  destruct (addCore_leaves_replaced env
              [(env, ActiveTextEditorChanged (Some ed));
               (env, ActiveTextEditorChangedTimer)] d 0%nat H)
    as (_ & _ & Ho & Hm & _).
  split; [exact Ho | exact Hm].
Defined.
(** ** [ShowLineBlameCommand.execute], further *)

Module ShowLineBlameMore.
Import ShowLineBlameCommand.



(** X20. [execute] reads the configured annotation type only when the
    arguments give none.  With a type given it calls [showAnnotations] for
    the editor with that type and never reads the configuration; with none
    given it reads the configuration, and calls [showAnnotations] with the
    configured type unless reading it threw, in which case
    [showAnnotations] is not called at all. *)
Theorem execute_resolves_type c editor args :
  let r := execute c (Some editor) args in
  match type args with
  | Some t => ~ In ConfigurationGet r.2 /\ In (ShowAnnotations editor t) r.2
  | None =>
      In ConfigurationGet r.2
      /\ match configuration_get c with
         | Normal t => In (ShowAnnotations editor t) r.2
         | Throw _ => forall ed t, ~ In (ShowAnnotations ed t) r.2
         end
  end.
Proof.
  unfold execute, handler.
  destruct (type args) as [t |]; [| destruct (configuration_get c) as [t | ex]];
    try destruct (showAnnotations c editor t) as [v | ex'];
    try destruct (logger_error c _ _);
    try destruct (showErrorMessage c _);
    cbn; repeat split; intros; intuition discriminate.
Qed.

End ShowLineBlameMore.
